(** * Zadig workflow tasks: freestyle job controller, task materializer,
      ingress getter

    A shallow embedding of
    - [pkg/.../workflowcontroller/jobcontroller] (the freestyle job controller),
    - [pkg/microservice/aslan/core/workflow/service/workflow/workflow_task_v4.go],
    - [pkg/tool/kube/getter/ingress.go],
    and the properties of these functions that the design document states,
    followed by further properties read off the code.

    Go values are modelled as follows.  [string] is a byte string; [int64]
    and [int] are [Z]; a slice is a [list] ([nil] and the empty slice are both
    [[]]); a struct is a [Record]; a pointer to a workflow document is a
    location in a heap of documents; a call that returns [error] returns
    [option error] ([None] for [nil]); calls into packages outside these
    files are the fields of an interface record, and every such call is
    written to a trace of events so that "is invoked" can be stated. *)

From Stdlib Require Import ZArith DecimalString.
From stdpp Require Import gmap strings list.

Open Scope Z_scope.

(** ** The parts of Go's [strings] and [fmt] the code calls *)

Module GoStrings.

(** [strings.HasPrefix(s, prefix)]. *)
Fixpoint HasPrefix (s pre : string) : bool :=
  match pre with
  | EmptyString => true
  | String a pre' =>
      match s with
      | EmptyString => false
      | String b s' => if Ascii.eqb a b then HasPrefix s' pre' else false
      end
  end.

(** [strings.Index(s, substr)]: the byte offset of the first occurrence of
    [substr] in [s]; [None] stands for Go's [-1]. *)
Fixpoint Index (s substr : string) : option nat :=
  if HasPrefix s substr then Some 0%nat
  else match s with
       | EmptyString => None
       | String _ s' => S <$> Index s' substr
       end.

(** [strings.Contains(s, substr)] is [Index(s, substr) >= 0]. *)
Definition Contains (s substr : string) : bool :=
  match Index s substr with Some _ => true | None => false end.

(** [s[i:]] and [s[:i]] on byte strings. *)
Fixpoint from (i : nat) (s : string) : string :=
  match i, s with
  | O, _ => s
  | S i', String _ s' => from i' s'
  | S _, EmptyString => EmptyString
  end.

Fixpoint upto (i : nat) (s : string) : string :=
  match i, s with
  | O, _ => EmptyString
  | S i', String a s' => String a (upto i' s')
  | S _, EmptyString => EmptyString
  end.

(** [strings.Replace(s, old, new, 1)], the only count the controller uses:
    [s] when [old == new] or [old] does not occur, otherwise [s] with the
    first occurrence of [old] replaced by [new] (an empty [old] matches at
    offset 0). *)
Definition Replace1 (s old new : string) : string :=
  if String.eqb old new then s
  else match Index s old with
       | None => s
       | Some j => upto j s +:+ new +:+ from (j + String.length old) s
       end.

(** [strings.Join(elems, sep)]. *)
Fixpoint Join (elems : list string) (sep : string) : string :=
  match elems with
  | [] => EmptyString
  | [a] => a
  | a :: rest => a +:+ sep +:+ Join rest sep
  end.

(** The verb [%d] of [fmt.Sprintf] on an integer. *)
Definition fmt_d (z : Z) : string := NilZero.string_of_int (Z.to_int z).

End GoStrings.

(** ** Errors: Go's [error] values and [pkg/tool/errors] *)

(** The error kinds of [pkg/tool/errors] that these files name. *)
Inductive ErrCode : Set :=
| ErrFindWorkflow | ErrGetCounter | ErrCreateTask | ErrGetTask
| ErrCancelTask | ErrApproveTask.

(** An [error] is a plain message ([errors.New], [fmt.Errorf] and whatever
    a client library returns), or one of the package's HTTP errors after
    [AddDesc(desc)] or [AddErr(err)]. *)
Inductive error : Set :=
| errorString (msg : string)
| AddDesc (code : ErrCode) (desc : string)
| AddErr (code : ErrCode) (err : error).

(** [pkg/tool/errors] is not part of these files: how an HTTP error prints
    itself is a parameter. *)
Class ErrorsPkg := {
  HTTPError_Error : ErrCode -> string -> string
}.

(** [err.Error()]. *)
Fixpoint Error `{ErrorsPkg} (err : error) : string :=
  match err with
  | errorString msg => msg
  | AddDesc code desc => HTTPError_Error code desc
  | AddErr code err' => HTTPError_Error code (Error err')
  end.

(** The kind of an error, when it is one of the package's HTTP errors. *)
Definition err_code (err : error) : option ErrCode :=
  match err with
  | errorString _ => None
  | AddDesc code _ | AddErr code _ => Some code
  end.


(** ** [commonmodels]: the documents of a workflow and of a task *)

Module models.

(** A value held in an [interface{}] field, or in a field whose struct is
    declared outside these files, before it is decoded: a document tree. *)
#[warnings="-register-all"]
Inductive Doc : Set :=
| DNull
| DBool (b : bool)
| DInt (n : Z)
| DString (s : string)
| DArray (items : list Doc)
| DObject (fields : list (string * Doc)).

(** [config.Status] is a string type declared in [aslan/config]; its values
    are the statuses of the design document, and [StatusUnset] is the zero
    value of a status that was never assigned. *)
Inductive Status : Set :=
| StatusUnset | StatusCreated | StatusRunning | StatusPassed | StatusFailed
| StatusCancelled | StatusTimeout | StatusReject | StatusWaitingApprove
| StatusQueued.

(** [config.JobType] and [config.StepType] are string types. *)
Definition JobType : Set := string.
Definition StepType : Set := string.

Definition JobZadigBuild : JobType := "zadig-build".
Definition JobFreestyle : JobType := "freestyle".
Definition StepGit : StepType := "git".

(** [types.Repository] is declared in [pkg/types]; no field of it is read
    here. *)
Definition Repository : Set := Doc.

Record KeyVal : Set := {
  KeyVal_Key : string;
  KeyVal_Value : string;
  KeyVal_IsCredential : bool
}.

Record Param : Set := {
  Param_Name : string;
  Param_Description : string;
  Param_ParamsType : string;
  Param_Value : string;
  Param_ChoiceOption : list string;
  Param_Default : string;
  Param_IsCredential : bool
}.

Record User : Set := {
  User_UserID : string;
  User_UserName : string;
  User_RejectOrApprove : string;
  User_Comment : string;
  User_OperationTime : Z
}.

Record Approval : Set := {
  Approval_Enabled : bool;
  Approval_ApproveUsers : list User;
  Approval_Timeout : Z;
  Approval_NeededApprovers : Z;
  Approval_Description : string;
  Approval_RejectOrApprove : string
}.

Record Output : Set := {
  Output_Name : string;
  Output_Description : string
}.

Record JobProperties : Set := {
  Timeout : Z;
  Retry : Z;
  ResourceRequest : string;
  ResReqSpec : Doc;
  ClusterID : string;
  BuildOS : string;
  ImageFrom : string;
  ImageID : string;
  Namespace : string;
  Envs : list KeyVal;
  CustomEnvs : list KeyVal;
  Params : list Param;
  Paths : string;
  LogFileName : string;
  DockerHost : string;
  Registries : list Doc;
  Cache : Doc;
  CacheEnable : bool;
  CacheDirType : string;
  CacheUserDir : string
}.

(** [stepspec.StepGitSpec], as far as [setFreeStyleRepos] reads it. *)
Record StepGitSpec : Set := {
  StepGitSpec_Repos : list Repository
}.

(** The [Spec interface{}] of a step: the stored document, or the
    [*StepGitSpec] that [setFreeStyleRepos] puts in its place. *)
Inductive StepSpec : Set :=
| StepSpecDoc (d : Doc)
| StepSpecGit (s : StepGitSpec).

Record Step : Set := {
  Step_Name : string;
  Step_Timeout : Z;
  Step_StepType : StepType;
  Step_Spec : StepSpec
}.

Record FreestyleJobSpec : Set := {
  FreestyleJobSpec_Properties : option JobProperties;
  FreestyleJobSpec_Steps : list Step;
  FreestyleJobSpec_Outputs : list Output
}.

Record ServiceAndBuild : Set := {
  ServiceAndBuild_ServiceName : string;
  ServiceAndBuild_ServiceModule : string;
  ServiceAndBuild_BuildName : string;
  ServiceAndBuild_Image : string;
  ServiceAndBuild_Package : string;
  ServiceAndBuild_KeyVals : list KeyVal;
  ServiceAndBuild_Repos : list Repository
}.

Record ZadigBuildJobSpec : Set := {
  ZadigBuildJobSpec_DockerRegistryID : string;
  ZadigBuildJobSpec_ServiceAndBuilds : list ServiceAndBuild
}.

(** The [Spec interface{}] of a definition job: the stored document, or the
    typed spec that the per-type preparation puts in its place. *)
Inductive JobSpec : Set :=
| JobSpecDoc (d : Doc)
| JobSpecZadigBuild (s : ZadigBuildJobSpec)
| JobSpecFreestyle (s : FreestyleJobSpec).

Record Job : Set := {
  Job_Name : string;
  Job_JobType : JobType;
  Job_Skipped : bool;
  Job_Spec : JobSpec
}.

Record WorkflowStage : Set := {
  WorkflowStage_Name : string;
  WorkflowStage_Parallel : bool;
  WorkflowStage_Approval : option Approval;
  WorkflowStage_Jobs : list Job
}.

(** [WorkflowV4] without its database id and its hook fields ([HookCtls],
    [HookPayload]), which no function here reads or writes. *)
Record WorkflowV4 : Set := {
  WorkflowV4_Name : string;
  WorkflowV4_KeyVals : list KeyVal;
  WorkflowV4_Params : list Param;
  WorkflowV4_Stages : list WorkflowStage;
  WorkflowV4_Project : string;
  WorkflowV4_Description : string;
  WorkflowV4_CreatedBy : string;
  WorkflowV4_CreateTime : Z;
  WorkflowV4_UpdatedBy : string;
  WorkflowV4_UpdateTime : Z;
  WorkflowV4_MultiRun : bool;
  WorkflowV4_NotificationID : string
}.

(** The structs below are declared in [commonmodels] outside these files;
    their fields are the ones the code reads and writes. *)

Record StepTask : Set := {
  StepTask_Name : string;
  StepTask_StepType : StepType;
  StepTask_Spec : StepSpec
}.

Record JobTaskBuildSpec : Set := {
  Properties : JobProperties;
  Steps : list StepTask
}.

Record JobTask : Set := {
  JobTask_Name : string;
  JobTask_JobType : string;
  JobTask_Status : Status;
  JobTask_StartTime : Z;
  JobTask_EndTime : Z;
  JobTask_Error : string;
  JobTask_Spec : Doc;
  JobTask_Outputs : list Output
}.

Record StageTask : Set := {
  StageTask_Name : string;
  StageTask_Status : Status;
  StageTask_StartTime : Z;
  StageTask_EndTime : Z;
  StageTask_Parallel : bool;
  StageTask_Approval : option Approval;
  StageTask_Jobs : list JobTask
}.

(** [WorkflowTask].  [OriginWorkflowArgs] and [WorkflowArgs] are
    [*WorkflowV4]: the type [R] is a location while the task is in memory
    and a document once the task is stored. *)
Record WorkflowTask (R : Type) : Type := {
  WorkflowTask_TaskID : Z;
  WorkflowTask_WorkflowName : string;
  WorkflowTask_Params : list Param;
  WorkflowTask_KeyVals : list KeyVal;
  WorkflowTask_Status : Status;
  WorkflowTask_TaskCreator : string;
  WorkflowTask_TaskRevoker : string;
  WorkflowTask_CreateTime : Z;
  WorkflowTask_StartTime : Z;
  WorkflowTask_EndTime : Z;
  WorkflowTask_Stages : list StageTask;
  WorkflowTask_ProjectName : string;
  WorkflowTask_Error : string;
  WorkflowTask_IsRestart : bool;
  WorkflowTask_MultiRun : bool;
  WorkflowTask_WorkflowArgs : option R;
  WorkflowTask_OriginWorkflowArgs : option R
}.

Arguments Build_WorkflowTask {R}.
Arguments WorkflowTask_TaskID {R} _.
Arguments WorkflowTask_WorkflowName {R} _.
Arguments WorkflowTask_Params {R} _.
Arguments WorkflowTask_KeyVals {R} _.
Arguments WorkflowTask_Status {R} _.
Arguments WorkflowTask_TaskCreator {R} _.
Arguments WorkflowTask_TaskRevoker {R} _.
Arguments WorkflowTask_CreateTime {R} _.
Arguments WorkflowTask_StartTime {R} _.
Arguments WorkflowTask_EndTime {R} _.
Arguments WorkflowTask_Stages {R} _.
Arguments WorkflowTask_ProjectName {R} _.
Arguments WorkflowTask_Error {R} _.
Arguments WorkflowTask_IsRestart {R} _.
Arguments WorkflowTask_MultiRun {R} _.
Arguments WorkflowTask_WorkflowArgs {R} _.
Arguments WorkflowTask_OriginWorkflowArgs {R} _.

(** [WorkflowTaskCtx]: the names of the running task and its variable
    context.  Modelled from the spec: the variable context is a per-task
    mutable map from [workflow.<job>.<name>] to a value, and
    [GlobalContextSet] writes one entry of it. *)
Record WorkflowTaskCtx : Type := {
  WorkflowTaskCtx_WorkflowName : string;
  WorkflowTaskCtx_Workspace : string;
  WorkflowTaskCtx_TaskID : Z;
  WorkflowTaskCtx_GlobalContext : gmap string string
}.

Definition GlobalContextSet (ctx : WorkflowTaskCtx) (key value : string)
  : WorkflowTaskCtx :=
  {| WorkflowTaskCtx_WorkflowName := WorkflowTaskCtx_WorkflowName ctx;
     WorkflowTaskCtx_Workspace := WorkflowTaskCtx_Workspace ctx;
     WorkflowTaskCtx_TaskID := WorkflowTaskCtx_TaskID ctx;
     WorkflowTaskCtx_GlobalContext :=
       <[key := value]> (WorkflowTaskCtx_GlobalContext ctx) |}.

End models.


(** ** [jobcontroller]: the freestyle job controller *)

Module jobcontroller.
Import models GoStrings.

Definition DindServer : string := "dind".
Definition KoderoverAgentNamespace : string := "koderover-agent".

(** [JobLabel], [JobContext] and the outputs read from a pod's termination
    message are declared in other files of the package. *)
Record JobLabel : Set := {
  JobLabel_WorkflowName : string;
  JobLabel_TaskID : Z;
  JobLabel_JobType : string;
  JobLabel_JobName : string
}.

Record JobOutput : Set := {
  JobOutput_Name : string;
  JobOutput_Value : string
}.

Record JobContext : Set := {
  JobContext_Name : string;
  JobContext_Envs : list string;
  JobContext_SecretEnvs : list string;
  JobContext_WorkflowName : string;
  JobContext_Workspace : string;
  JobContext_TaskID : Z;
  JobContext_Outputs : list string;
  JobContext_Steps : list StepTask;
  JobContext_Paths : string
}.

(** What the controller does to the world outside it, newest first: its
    calls into other packages, each with the error or value it returned, its
    log lines, and the goroutine that [complete] defers. *)
Inductive Event : Set :=
| LogError (msg : string)
| LogInfo (msg : string)
| CallPrepareSteps (err : option error)
| CallGetK8sClients (clusterID : string) (err : option error)
| CallGetBestHost (clusterID : string) (host : string)
| CallYamlMarshal (err : option error)
| CallEnsureDeleteConfigMap (ns : string) (label : JobLabel) (err : option error)
| CallCreateJobConfigMap (ns jobName : string) (label : JobLabel) (data : string)
    (err : option error)
| CallBuildJob (jobImage jobName : string) (err : option error)
| CallEnsureDeleteJob (ns : string) (label : JobLabel) (err : option error)
| CallCreateJob (err : option error)
| CallWaitJobEndWithFile (timeout : Z) (ns jobName : string) (status : Status)
| CallGetJobOutput (ns jobName : string) (label : JobLabel)
    (outputs : list JobOutput) (err : option error)
| CallGlobalContextSet (key value : string)
| CallSaveContainerLog (ns clusterID workflowName jobName : string) (taskID : Z)
    (err : option error)
| CallSummarizeSteps (err : option error)
| GoCleanup (ns : string) (label : JobLabel).

(** The error of a result. *)
Definition err_of {A} (r : error + A) : option error :=
  match r with inl err => Some err | inr _ => None end.

(** The packages the controller calls.  [World] is the state those packages
    act on (the clusters, the log store, the clock); a call that can change
    it returns the new one. *)
Class Externals := {
  World : Type;
  Client : Type;
  Clientset : Type;
  RESTConfig : Type;
  BatchJob : Type;
  (* setting *)
  LocalClusterID : string;
  AttachedClusterNamespace : string;
  MinRequest : string;
  (* config, zadigconfig *)
  config_HubServerAddress : string;
  config_Namespace : string;
  zadigconfig_Namespace : string;
  (* krkubeclient *)
  krkubeclient_Client : Client;
  krkubeclient_Clientset : Clientset;
  krkubeclient_RESTConfig : RESTConfig;
  (* the rest of the package *)
  getJobName : string -> Z -> string;
  GetK8sClients : string -> string -> World ->
                  (error + Client * Clientset * RESTConfig) * World;
  ensureDeleteConfigMap : string -> JobLabel -> option Client -> World ->
                          option error * World;
  createJobConfigMap : string -> string -> JobLabel -> string -> option Client ->
                       World -> option error * World;
  getBaseImage : string -> string -> string;
  buildJob : string -> string -> string -> JobTask -> JobTaskBuildSpec ->
             WorkflowTaskCtx -> World -> (error + BatchJob) * World;
  BatchJob_set_Namespace : BatchJob -> string -> BatchJob;
  ensureDeleteJob : string -> JobLabel -> option Client -> World ->
                    option error * World;
  waitJobEndWithFile : Z -> string -> string -> option Client ->
                       option Clientset -> option RESTConfig -> World ->
                       Status * World;
  getJobOutput : string -> string -> JobLabel -> option Client -> World ->
                 (list JobOutput * option error) * World;
  saveContainerLog : string -> string -> string -> string -> Z -> JobLabel ->
                     option Client -> World -> option error * World;
  (* updater, dockerhost, stepcontroller, yaml, time, commonmodels.IToi *)
  updater_CreateJob : BatchJob -> option Client -> World -> option error * World;
  GetBestHost : string -> string -> string -> World -> string * World;
  PrepareSteps : WorkflowTaskCtx -> string -> list StepTask -> World ->
                 (option error * string) * World;
  SummarizeSteps : WorkflowTaskCtx -> string -> list StepTask -> World ->
                   (option error * string) * World;
  yaml_Marshal : JobContext -> error + string;
  time_Now_Unix : World -> Z;
  IToi_JobTaskBuildSpec : Doc -> error + JobTaskBuildSpec
}.

Section controller.
Context `{ErrorsPkg} `{Externals}.

(** [FreestyleJobCtl].  The logger is the [LogError]/[LogInfo] events; [ack]
    is never called by these methods.  [job] and [workflowCtx] are pointers
    shared with the caller, who reads them in the state [Run] returns. *)
Record FreestyleJobCtl : Type := {
  job : JobTask;
  jobName : string;
  workflowCtx : WorkflowTaskCtx;
  kubeclient : option Client;
  clientset : option Clientset;
  restConfig : option RESTConfig;
  paths : string;
  jobTaskSpec : JobTaskBuildSpec
}.

(** The state a method runs in: the receiver, the world and the trace. *)
Record State : Type := {
  ctl : FreestyleJobCtl;
  world : World;
  trace : list Event
}.

(** Methods are state transformers that return a value. *)
Definition M (A : Type) : Type := State -> A * State.

#[export] Instance M_ret : MRet M := fun A a s => (a, s).

#[export] Instance M_bind : MBind M :=
  fun A B k m s => let (a, s') := m s in k a s'.

(** Read the receiver. *)
Definition this : M FreestyleJobCtl := fun s => (ctl s, s).

(** Assign to fields of the receiver. *)
Definition assign (f : FreestyleJobCtl -> FreestyleJobCtl) : M unit :=
  fun s => (tt, {| ctl := f (ctl s); world := world s; trace := trace s |}).

(** Append an event to the trace. *)
Definition emit (e : Event) : M unit :=
  fun s => (tt, {| ctl := ctl s; world := world s; trace := e :: trace s |}).

(** Call into another package: the call acts on the world and is traced;
    [ev] makes its event from what it returned. *)
Definition call {A} (ev : A -> Event) (f : World -> A * World) : M A :=
  fun s => let (a, w) := f (world s) in
           (a, {| ctl := ctl s; world := w; trace := ev a :: trace s |}).

(** Read the world without changing it. *)
Definition peek {A} (f : World -> A) : M A := fun s => (f (world s), s).

(** Field assignments [c.job.X = v]. *)
Definition with_job (f : JobTask -> JobTask) (c : FreestyleJobCtl)
  : FreestyleJobCtl :=
  {| job := f (job c); jobName := jobName c; workflowCtx := workflowCtx c;
     kubeclient := kubeclient c; clientset := clientset c;
     restConfig := restConfig c; paths := paths c;
     jobTaskSpec := jobTaskSpec c |}.

Definition JobTask_with_Status (v : Status) (j : JobTask) : JobTask :=
  {| JobTask_Name := JobTask_Name j; JobTask_JobType := JobTask_JobType j;
     JobTask_Status := v; JobTask_StartTime := JobTask_StartTime j;
     JobTask_EndTime := JobTask_EndTime j; JobTask_Error := JobTask_Error j;
     JobTask_Spec := JobTask_Spec j; JobTask_Outputs := JobTask_Outputs j |}.

Definition JobTask_with_Error (v : string) (j : JobTask) : JobTask :=
  {| JobTask_Name := JobTask_Name j; JobTask_JobType := JobTask_JobType j;
     JobTask_Status := JobTask_Status j; JobTask_StartTime := JobTask_StartTime j;
     JobTask_EndTime := JobTask_EndTime j; JobTask_Error := v;
     JobTask_Spec := JobTask_Spec j; JobTask_Outputs := JobTask_Outputs j |}.

Definition JobTask_with_EndTime (v : Z) (j : JobTask) : JobTask :=
  {| JobTask_Name := JobTask_Name j; JobTask_JobType := JobTask_JobType j;
     JobTask_Status := JobTask_Status j; JobTask_StartTime := JobTask_StartTime j;
     JobTask_EndTime := v; JobTask_Error := JobTask_Error j;
     JobTask_Spec := JobTask_Spec j; JobTask_Outputs := JobTask_Outputs j |}.

(** Field assignments [c.jobTaskSpec.Properties.X = v]. *)
Definition with_Properties (f : JobProperties -> JobProperties)
  (c : FreestyleJobCtl) : FreestyleJobCtl :=
  {| job := job c; jobName := jobName c; workflowCtx := workflowCtx c;
     kubeclient := kubeclient c; clientset := clientset c;
     restConfig := restConfig c; paths := paths c;
     jobTaskSpec := {| Properties := f (Properties (jobTaskSpec c));
                       Steps := Steps (jobTaskSpec c) |} |}.

Definition with_Timeout (v : Z) (p : JobProperties) : JobProperties :=
  {| Timeout := v; Retry := Retry p; ResourceRequest := ResourceRequest p;
     ResReqSpec := ResReqSpec p; ClusterID := ClusterID p; BuildOS := BuildOS p;
     ImageFrom := ImageFrom p; ImageID := ImageID p; Namespace := Namespace p;
     Envs := Envs p; CustomEnvs := CustomEnvs p; Params := Params p;
     Paths := Paths p; LogFileName := LogFileName p; DockerHost := DockerHost p;
     Registries := Registries p; Cache := Cache p; CacheEnable := CacheEnable p;
     CacheDirType := CacheDirType p; CacheUserDir := CacheUserDir p |}.

Definition with_ResourceRequest (v : string) (p : JobProperties) : JobProperties :=
  {| Timeout := Timeout p; Retry := Retry p; ResourceRequest := v;
     ResReqSpec := ResReqSpec p; ClusterID := ClusterID p; BuildOS := BuildOS p;
     ImageFrom := ImageFrom p; ImageID := ImageID p; Namespace := Namespace p;
     Envs := Envs p; CustomEnvs := CustomEnvs p; Params := Params p;
     Paths := Paths p; LogFileName := LogFileName p; DockerHost := DockerHost p;
     Registries := Registries p; Cache := Cache p; CacheEnable := CacheEnable p;
     CacheDirType := CacheDirType p; CacheUserDir := CacheUserDir p |}.

Definition with_ClusterID (v : string) (p : JobProperties) : JobProperties :=
  {| Timeout := Timeout p; Retry := Retry p; ResourceRequest := ResourceRequest p;
     ResReqSpec := ResReqSpec p; ClusterID := v; BuildOS := BuildOS p;
     ImageFrom := ImageFrom p; ImageID := ImageID p; Namespace := Namespace p;
     Envs := Envs p; CustomEnvs := CustomEnvs p; Params := Params p;
     Paths := Paths p; LogFileName := LogFileName p; DockerHost := DockerHost p;
     Registries := Registries p; Cache := Cache p; CacheEnable := CacheEnable p;
     CacheDirType := CacheDirType p; CacheUserDir := CacheUserDir p |}.

Definition with_Namespace (v : string) (p : JobProperties) : JobProperties :=
  {| Timeout := Timeout p; Retry := Retry p; ResourceRequest := ResourceRequest p;
     ResReqSpec := ResReqSpec p; ClusterID := ClusterID p; BuildOS := BuildOS p;
     ImageFrom := ImageFrom p; ImageID := ImageID p; Namespace := v;
     Envs := Envs p; CustomEnvs := CustomEnvs p; Params := Params p;
     Paths := Paths p; LogFileName := LogFileName p; DockerHost := DockerHost p;
     Registries := Registries p; Cache := Cache p; CacheEnable := CacheEnable p;
     CacheDirType := CacheDirType p; CacheUserDir := CacheUserDir p |}.

Definition with_Paths (v : string) (p : JobProperties) : JobProperties :=
  {| Timeout := Timeout p; Retry := Retry p; ResourceRequest := ResourceRequest p;
     ResReqSpec := ResReqSpec p; ClusterID := ClusterID p; BuildOS := BuildOS p;
     ImageFrom := ImageFrom p; ImageID := ImageID p; Namespace := Namespace p;
     Envs := Envs p; CustomEnvs := CustomEnvs p; Params := Params p;
     Paths := v; LogFileName := LogFileName p; DockerHost := DockerHost p;
     Registries := Registries p; Cache := Cache p; CacheEnable := CacheEnable p;
     CacheDirType := CacheDirType p; CacheUserDir := CacheUserDir p |}.

Definition with_DockerHost (v : string) (p : JobProperties) : JobProperties :=
  {| Timeout := Timeout p; Retry := Retry p; ResourceRequest := ResourceRequest p;
     ResReqSpec := ResReqSpec p; ClusterID := ClusterID p; BuildOS := BuildOS p;
     ImageFrom := ImageFrom p; ImageID := ImageID p; Namespace := Namespace p;
     Envs := Envs p; CustomEnvs := CustomEnvs p; Params := Params p;
     Paths := Paths p; LogFileName := LogFileName p; DockerHost := v;
     Registries := Registries p; Cache := Cache p; CacheEnable := CacheEnable p;
     CacheDirType := CacheDirType p; CacheUserDir := CacheUserDir p |}.

(** [c.kubeclient, c.clientset, c.restConfig = a, b, d]. *)
Definition with_clients (a : Client) (b : Clientset) (d : RESTConfig)
  (c : FreestyleJobCtl) : FreestyleJobCtl :=
  {| job := job c; jobName := jobName c; workflowCtx := workflowCtx c;
     kubeclient := Some a; clientset := Some b; restConfig := Some d;
     paths := paths c; jobTaskSpec := jobTaskSpec c |}.

Definition with_workflowCtx (f : WorkflowTaskCtx -> WorkflowTaskCtx)
  (c : FreestyleJobCtl) : FreestyleJobCtl :=
  {| job := job c; jobName := jobName c; workflowCtx := f (workflowCtx c);
     kubeclient := kubeclient c; clientset := clientset c;
     restConfig := restConfig c; paths := paths c;
     jobTaskSpec := jobTaskSpec c |}.

(** The [JobLabel] that [run] and [complete] build from the receiver. *)
Definition jobLabelOf (c : FreestyleJobCtl) : JobLabel :=
  {| JobLabel_WorkflowName := WorkflowTaskCtx_WorkflowName (workflowCtx c);
     JobLabel_TaskID := WorkflowTaskCtx_TaskID (workflowCtx c);
     JobLabel_JobType := JobTask_JobType (job c);
     JobLabel_JobName := JobTask_Name (job c) |}.

(** [BuildJobExcutorContext]; the logger argument is not used. *)
Definition BuildJobExcutorContext (jobTaskSpec : JobTaskBuildSpec)
  (job : JobTask) (workflowCtx : WorkflowTaskCtx) : JobContext :=
  let '(envVars, secretEnvVars) :=
    fold_left
      (fun '(envVars, secretEnvVars) env =>
         if KeyVal_IsCredential env
         then (envVars,
               secretEnvVars ++ [Join [KeyVal_Key env; KeyVal_Value env] "="])
         else (envVars ++ [Join [KeyVal_Key env; KeyVal_Value env] "="],
               secretEnvVars))
      (Envs (Properties jobTaskSpec)) ([], []) in
  let outputs :=
    fold_left (fun outputs output => outputs ++ [Output_Name output])
      (JobTask_Outputs job) [] in
  {| JobContext_Name := JobTask_Name job;
     JobContext_Envs := envVars;
     JobContext_SecretEnvs := secretEnvVars;
     JobContext_WorkflowName := WorkflowTaskCtx_WorkflowName workflowCtx;
     JobContext_Workspace := WorkflowTaskCtx_Workspace workflowCtx;
     JobContext_TaskID := WorkflowTaskCtx_TaskID workflowCtx;
     JobContext_Outputs := outputs;
     JobContext_Steps := Steps jobTaskSpec;
     JobContext_Paths := Paths (Properties jobTaskSpec) |}.

(** [FreestyleJobCtl.prepare]. *)
Definition prepare : M (option error) :=
  c ← this;
  (* set default timeout *)
  (if Timeout (Properties (jobTaskSpec c)) <=? 0
   then assign (with_Properties (with_Timeout 600)) else mret tt);;
  c ← this;
  (* set default resource *)
  (if String.eqb (ResourceRequest (Properties (jobTaskSpec c))) ""
   then assign (with_Properties (with_ResourceRequest MinRequest))
   else mret tt);;
  c ← this;
  (if String.eqb (ClusterID (Properties (jobTaskSpec c))) ""
   then assign (with_Properties (with_ClusterID LocalClusterID))
   else mret tt);;
  (* init step configration. *)
  c ← this;
  '(err, paths') ← call (fun r => CallPrepareSteps (fst r))
      (PrepareSteps (workflowCtx c) (Paths (Properties (jobTaskSpec c)))
         (Steps (jobTaskSpec c)));
  assign (with_Properties (with_Paths paths'));;
  match err with
  | Some err =>
      emit (LogError (Error err));;
      assign (with_job (JobTask_with_Error (Error err)));;
      assign (with_job (JobTask_with_Status StatusFailed));;
      mret (Some err)
  | None => mret None
  end.

(** The docker host that [run] stores, from the cluster id and the host the
    selector chose (the block "not local cluster" of [run]). *)
Definition rewriteDockerHost (clusterID host : string) : string :=
  let replaceDindServer := "." +:+ DindServer in
  let dockerHost := "" in
  if negb (String.eqb clusterID "") && negb (String.eqb clusterID LocalClusterID)
  then
    if Contains host config_Namespace
    then (* replace namespace only *)
      Replace1 host config_Namespace KoderoverAgentNamespace
    else (* add namespace *)
      Replace1 host replaceDindServer
        (replaceDindServer +:+ "." +:+ KoderoverAgentNamespace)
  else if String.eqb clusterID "" || String.eqb clusterID LocalClusterID
  then
    if negb (Contains host config_Namespace)
    then (* add namespace *)
      Replace1 host replaceDindServer
        (replaceDindServer +:+ "." +:+ config_Namespace)
    else dockerHost
  else dockerHost.

(** The tail of an error branch of [run]: log [msg], fail the job with it
    and return [errors.New(msg)]. *)
Definition fail_with (msg : string) : M (option error) :=
  emit (LogError msg);;
  assign (with_job (JobTask_with_Status StatusFailed));;
  assign (with_job (JobTask_with_Error msg));;
  mret (Some (errorString msg)).

(** [FreestyleJobCtl.run], from the docker host on. *)
Definition run_launch : M (option error) :=
  (* decide which docker host to use. *)
  c ← this;
  host ← call (CallGetBestHost (ClusterID (Properties (jobTaskSpec c))))
      (GetBestHost config_HubServerAddress
         (ClusterID (Properties (jobTaskSpec c))) "");
  assign (with_Properties (with_DockerHost host));;
  c ← this;
  assign (with_Properties (with_DockerHost
    (rewriteDockerHost (ClusterID (Properties (jobTaskSpec c)))
       (DockerHost (Properties (jobTaskSpec c))))));;
  c ← this;
  let r := yaml_Marshal
             (BuildJobExcutorContext (jobTaskSpec c) (job c) (workflowCtx c)) in
  emit (CallYamlMarshal (err_of r));;
  match r with
  | inl err => fail_with ("cannot Jobexcutor.Context data: " +:+ Error err)
  | inr jobCtxBytes =>
  let jobLabel := jobLabelOf c in
  let ns := Namespace (Properties (jobTaskSpec c)) in
  err ← call (CallEnsureDeleteConfigMap ns jobLabel)
      (ensureDeleteConfigMap ns jobLabel (kubeclient c));
  match err with
  | Some err =>
      emit (LogError (Error err));;
      assign (with_job (JobTask_with_Status StatusFailed));;
      assign (with_job (JobTask_with_Error (Error err)));;
      mret (Some err)
  | None =>
  err ← call (CallCreateJobConfigMap ns (jobName c) jobLabel jobCtxBytes)
      (createJobConfigMap ns (jobName c) jobLabel jobCtxBytes (kubeclient c));
  match err with
  | Some err => fail_with ("createJobConfigMap error: " +:+ Error err)
  | None =>
  emit (LogInfo ("succeed to create cm for job " +:+ jobName c));;
  let jobImage := getBaseImage (BuildOS (Properties (jobTaskSpec c)))
                    (ImageFrom (Properties (jobTaskSpec c))) in
  r ← call (fun r => CallBuildJob jobImage (jobName c) (err_of r))
      (buildJob (JobTask_JobType (job c)) jobImage (jobName c) (job c)
         (jobTaskSpec c) (workflowCtx c));
  match r with
  | inl err => fail_with ("create job context error: " +:+ Error err)
  | inr batchJob =>
  let batchJob := BatchJob_set_Namespace batchJob ns in
  err ← call (CallEnsureDeleteJob ns jobLabel)
      (ensureDeleteJob ns jobLabel (kubeclient c));
  match err with
  | Some err => fail_with ("delete job error: " +:+ Error err)
  | None =>
  err ← call CallCreateJob (updater_CreateJob batchJob (kubeclient c));
  match err with
  | Some err => fail_with ("create job error: " +:+ Error err)
  | None =>
      emit (LogInfo ("succeed to create job " +:+ jobName c));;
      mret None
  end end end end end end.

(** [FreestyleJobCtl.run]. *)
Definition run : M (option error) :=
  (* get kube client *)
  c ← this;
  if String.eqb (ClusterID (Properties (jobTaskSpec c))) LocalClusterID
  then
    assign (with_Properties (with_Namespace zadigconfig_Namespace));;
    assign (with_clients krkubeclient_Client krkubeclient_Clientset
              krkubeclient_RESTConfig);;
    run_launch
  else
    assign (with_Properties (with_Namespace AttachedClusterNamespace));;
    r ← call (fun r => CallGetK8sClients (ClusterID (Properties (jobTaskSpec c)))
                         (err_of r))
        (GetK8sClients config_HubServerAddress
           (ClusterID (Properties (jobTaskSpec c))));
    match r with
    | inl err =>
        assign (with_job (JobTask_with_Status StatusFailed));;
        assign (with_job (JobTask_with_Error (Error err)));;
        now ← peek time_Now_Unix;
        assign (with_job (JobTask_with_EndTime now));;
        mret (Some err)
    | inr (crClient, clientset, restConfig) =>
        assign (with_clients crClient clientset restConfig);;
        run_launch
    end.

(** [FreestyleJobCtl.wait]. *)
Definition wait : M unit :=
  c ← this;
  status ← call
      (CallWaitJobEndWithFile (Timeout (Properties (jobTaskSpec c)))
         (Namespace (Properties (jobTaskSpec c))) (jobName c))
      (waitJobEndWithFile (Timeout (Properties (jobTaskSpec c)))
         (Namespace (Properties (jobTaskSpec c))) (jobName c)
         (kubeclient c) (clientset c) (restConfig c));
  assign (with_job (JobTask_with_Status status)).

(** The loop of [complete] that writes the outputs to the variable
    context. *)
Fixpoint write_outputs (jobname : string) (outputs : list JobOutput) : M unit :=
  match outputs with
  | [] => mret tt
  | output :: rest =>
      let key := Join ["workflow"; jobname; JobOutput_Name output] "." in
      emit (CallGlobalContextSet key (JobOutput_Value output));;
      assign (with_workflowCtx
                (fun ctx => GlobalContextSet ctx key (JobOutput_Value output)));;
      write_outputs jobname rest
  end.

(** The body of [FreestyleJobCtl.complete], up to its [return]s. *)
Definition complete_body (jobLabel : JobLabel) : M unit :=
  (* get job outputs info from pod terminate message. *)
  c ← this;
  '(outputs, err) ← call
      (fun r => CallGetJobOutput (Namespace (Properties (jobTaskSpec c)))
                  (JobTask_Name (job c)) jobLabel (fst r) (snd r))
      (getJobOutput (Namespace (Properties (jobTaskSpec c)))
         (JobTask_Name (job c)) jobLabel (kubeclient c));
  match err with
  | Some err =>
      emit (LogError (Error err));;
      assign (with_job (JobTask_with_Error (Error err)))
  | None => mret tt
  end;;
  (* write jobs output info to globalcontext *)
  write_outputs (JobTask_Name (job c)) outputs;;
  c ← this;
  err ← call
      (CallSaveContainerLog (Namespace (Properties (jobTaskSpec c)))
         (ClusterID (Properties (jobTaskSpec c)))
         (WorkflowTaskCtx_WorkflowName (workflowCtx c)) (JobTask_Name (job c))
         (WorkflowTaskCtx_TaskID (workflowCtx c)))
      (saveContainerLog (Namespace (Properties (jobTaskSpec c)))
         (ClusterID (Properties (jobTaskSpec c)))
         (WorkflowTaskCtx_WorkflowName (workflowCtx c)) (JobTask_Name (job c))
         (WorkflowTaskCtx_TaskID (workflowCtx c)) jobLabel (kubeclient c));
  match err with
  | Some err =>
      emit (LogError (Error err));;
      assign (with_job (JobTask_with_Error (Error err)))
      (* return *)
  | None =>
      '(err, paths') ← call (fun r => CallSummarizeSteps (fst r))
          (SummarizeSteps (workflowCtx c) (Paths (Properties (jobTaskSpec c)))
             (Steps (jobTaskSpec c)));
      assign (with_Properties (with_Paths paths'));;
      match err with
      | Some err =>
          emit (LogError (Error err));;
          assign (with_job (JobTask_with_Error (Error err)))
          (* return *)
      | None => mret tt
      end
  end.

(** [FreestyleJobCtl.complete]: the body, then the deferred function, which
    starts the goroutine that deletes the job and its configmap. *)
Definition complete : M unit :=
  c ← this;
  let jobLabel := jobLabelOf c in
  complete_body jobLabel;;
  c ← this;
  emit (GoCleanup (Namespace (Properties (jobTaskSpec c))) jobLabel).

(** [FreestyleJobCtl.Run]. *)
Definition Run : M unit :=
  err ← prepare;
  match err with
  | Some _ => mret tt
  | None =>
      err ← run;
      match err with
      | Some _ => mret tt
      | None => wait;; complete
      end
  end.

(** *** Reading a run

    The state a method starts in when nothing has happened yet, and what a
    trace says was done. *)

Definition init (c : FreestyleJobCtl) (w : World) : State :=
  {| ctl := c; world := w; trace := [] |}.

(** The cleanups that were scheduled: namespace and label set. *)
Definition cleanups (tr : list Event) : list (string * JobLabel) :=
  omap (fun e => match e with GoCleanup ns l => Some (ns, l) | _ => None end) tr.

(** The writes to the variable context, oldest first. *)
Definition context_writes (tr : list Event) : list (string * string) :=
  omap (fun e => match e with
                 | CallGlobalContextSet k v => Some (k, v)
                 | _ => None
                 end) (rev tr).

(** The results of the calls to [SummarizeSteps]. *)
Definition summaries (tr : list Event) : list (option error) :=
  omap (fun e => match e with CallSummarizeSteps err => Some err | _ => None end) tr.

(** The results of the calls to [saveContainerLog]. *)
Definition log_ships (tr : list Event) : list (option error) :=
  omap (fun e => match e with
                 | CallSaveContainerLog _ _ _ _ _ err => Some err
                 | _ => None
                 end) tr.

(** The calls that created a configmap: namespace, name and error. *)
Definition configmaps (tr : list Event) : list (string * string * option error) :=
  omap (fun e => match e with
                 | CallCreateJobConfigMap ns name _ _ err => Some (ns, name, err)
                 | _ => None
                 end) tr.

(** A phase that schedules no cleanup and leaves the label set alone. *)
Definition quiet {A} (m : M A) : Prop :=
  forall s, cleanups (trace (m s).2) = cleanups (trace s)
            /\ jobLabelOf (ctl (m s).2) = jobLabelOf (ctl s).



(** The namespaces named in the calls and the cleanups of a trace. *)
Definition namespaces (tr : list Event) : list string :=
  omap (fun e => match e with
                 | CallEnsureDeleteConfigMap ns _ _
                 | CallCreateJobConfigMap ns _ _ _ _
                 | CallEnsureDeleteJob ns _ _
                 | CallWaitJobEndWithFile _ ns _ _
                 | CallGetJobOutput ns _ _ _ _
                 | CallSaveContainerLog ns _ _ _ _ _
                 | GoCleanup ns _ => Some ns
                 | _ => None
                 end) tr.

(** The statuses [waitJobEndWithFile] returned. *)
Definition waits (tr : list Event) : list Status :=
  omap (fun e => match e with
                 | CallWaitJobEndWithFile _ _ _ status => Some status
                 | _ => None
                 end) tr.

(** The timeouts [waitJobEndWithFile] was called with. *)
Definition wait_timeouts (tr : list Event) : list Z :=
  omap (fun e => match e with
                 | CallWaitJobEndWithFile t _ _ _ => Some t
                 | _ => None
                 end) tr.

(** The errors that the three calls of [complete] returned, oldest first. *)
Definition complete_errors (tr : list Event) : list error :=
  omap (fun e => match e with
                 | CallGetJobOutput _ _ _ _ (Some err)
                 | CallSaveContainerLog _ _ _ _ _ (Some err)
                 | CallSummarizeSteps (Some err) => Some err
                 | _ => None
                 end) (rev tr).

(** The namespace [run] chooses for a cluster id. *)
Definition namespace_of (clusterID : string) : string :=
  if String.eqb clusterID LocalClusterID then zadigconfig_Namespace
  else AttachedClusterNamespace.

(** The cluster id after the default of [prepare]. *)
Definition cluster_of (clusterID : string) : string :=
  if String.eqb clusterID "" then LocalClusterID else clusterID.

(** The entry [KEY=VALUE] of an environment variable. *)
Definition env_entry (env : KeyVal) : string :=
  KeyVal_Key env +:+ "=" +:+ KeyVal_Value env.

(** The key [workflow.<job_name>.<output_name>]. *)
Definition output_key (job_name output_name : string) : string :=
  "workflow." +:+ job_name +:+ "." +:+ output_name.

End controller.
End jobcontroller.


(** ** [workflow]: materializing, cloning and approving workflow tasks *)

Module workflow.
Import models GoStrings.

Record CreateTaskV4Resp : Set := {
  ProjectName : string;
  WorkflowName : string;
  TaskID : Z
}.

(** A pointer to a workflow document. *)
Definition loc : Set := positive.

(** A task as the store receives it: its pointers followed. *)
Definition StoredTask : Type := WorkflowTask WorkflowV4.

(** What [IToi] is asked to decode into. *)
Inductive Target : Set :=
| ToWorkflowV4 | ToZadigBuildJobSpec | ToFreestyleJobSpec | ToStepGitSpec.

(** The calls into other packages and into the other files of this one,
    each with the error or value it returned, and the log lines; newest
    first. *)
Inductive Event : Type :=
| LogErrorf (msg : string)
| LogWarnf (msg : string)
| CallLintWorkflowV4 (err : option error)
| CallIToi (target : Target) (err : option error)
| CallGetNextSeq (name : string) (r : error + Z)
| CallRemoveFixedValueMarks (err : option error)
| CallRenderGlobalVariables (taskID : Z) (user : string) (err : option error)
| CallSetManunalBuilds (err : option error)
| CallToJobs (job : Job) (taskID : Z) (r : error + list JobTask)
| CallCreateTask (task : StoredTask) (err : option error)
| CallUpdateWebhookComment (err : option error)
| CallUpdateGitCheck (err : option error)
| CallFind (workflowName : string) (taskID : Z) (err : option error)
| CallApproveStage (workflowName stageName userName userID comment : string)
    (taskID : Z) (approve : bool) (err : option error).

(** The packages these functions call.  [World] is the state behind them:
    the counter and task collections, the workflow controller, the SCM
    services and the clock. *)
Class Externals := {
  World : Type;
  (* LintWorkflowV4, of this package *)
  LintWorkflowV4 : WorkflowV4 -> option error;
  (* commonmodels.IToi, at the types it is used at *)
  IToi_WorkflowV4 : WorkflowV4 -> error + WorkflowV4;
  IToi_ZadigBuildJobSpec : JobSpec -> error + ZadigBuildJobSpec;
  IToi_FreestyleJobSpec : JobSpec -> error + FreestyleJobSpec;
  IToi_StepGitSpec : StepSpec -> error + StepGitSpec;
  (* fmt.Sprintf(setting.WorkflowTaskV4Fmt, name) *)
  WorkflowTaskV4Fmt : string -> string;
  (* commonrepo *)
  GetNextSeq : string -> World -> (error + Z) * World;
  Find : string -> Z -> World -> error + StoredTask;
  (* jobctl *)
  RemoveFixedValueMarks : WorkflowV4 -> option error * WorkflowV4;
  RenderGlobalVariables : WorkflowV4 -> Z -> string -> option error * WorkflowV4;
  ToJobs : Job -> WorkflowV4 -> Z -> World -> (error + list JobTask) * World;
  (* setManunalBuilds, of this package: the repositories with their
     metadata filled in *)
  setManunalBuilds : list Repository -> list Repository -> World ->
                     (option error * list Repository) * World;
  (* workflowcontroller *)
  workflowcontroller_CreateTask : StoredTask -> World -> option error * World;
  workflowcontroller_ApproveStage :
    string -> string -> string -> string -> string -> Z -> bool -> World ->
    option error * World;
  (* scmnotify *)
  UpdateWebhookCommentForWorkflowV4 : StoredTask -> World -> option error * World;
  UpdateGitCheckForWorkflowV4 : option WorkflowV4 -> Z -> World ->
                                option error * World;
  time_Now_Unix : World -> Z
}.

Section service.
Context `{ErrorsPkg} `{Externals}.

(** The state a function runs in: the documents behind the pointers it
    holds, the world and the trace. *)
Record State : Type := {
  heap : gmap loc WorkflowV4;
  world : World;
  trace : list Event
}.

Definition M (A : Type) : Type := State -> A * State.

#[export] Instance M_ret : MRet M := fun A a s => (a, s).

#[export] Instance M_bind : MBind M :=
  fun A B k m s => let (a, s') := m s in k a s'.

Definition emit (e : Event) : M unit :=
  fun s => (tt, {| heap := heap s; world := world s; trace := e :: trace s |}).

(** A call that acts on the world; [ev] makes its event from its result. *)
Definition call {A} (ev : A -> Event) (f : World -> A * World) : M A :=
  fun s => let (a, w) := f (world s) in
           (a, {| heap := heap s; world := w; trace := ev a :: trace s |}).

Definition peek {A} (f : World -> A) : M A := fun s => (f (world s), s).

(** The zero value of [WorkflowV4], read through a pointer that was never
    set. *)
Definition WorkflowV4_zero : WorkflowV4 :=
  {| WorkflowV4_Name := ""; WorkflowV4_KeyVals := []; WorkflowV4_Params := [];
     WorkflowV4_Stages := []; WorkflowV4_Project := "";
     WorkflowV4_Description := ""; WorkflowV4_CreatedBy := "";
     WorkflowV4_CreateTime := 0; WorkflowV4_UpdatedBy := "";
     WorkflowV4_UpdateTime := 0; WorkflowV4_MultiRun := false;
     WorkflowV4_NotificationID := "" |}.

(** [*p], [*p = w] and [p := &WorkflowV4{...}]. *)
Definition load (p : loc) : M WorkflowV4 :=
  fun s => (default WorkflowV4_zero (heap s !! p), s).

Definition store (p : loc) (w : WorkflowV4) : M unit :=
  fun s => (tt, {| heap := <[p := w]> (heap s); world := world s;
                   trace := trace s |}).

Definition alloc (w : WorkflowV4) : M loc :=
  fun s => let p := fresh (dom (heap s)) in
           (p, {| heap := <[p := w]> (heap s); world := world s;
                  trace := trace s |}).

(** [commonmodels.IToi(before, after)]: the decoding is a parameter; the
    call is traced with its error. *)
Definition itoi {A} (target : Target) (r : error + A) : M (error + A) :=
  emit (CallIToi target (match r with inl err => Some err | inr _ => None end));;
  mret r.

(** The loop of [setZadigBuildRepos] over [spec.ServiceAndBuilds]:
    [setManunalBuilds] fills in the repositories of each build in place and
    the first error ends the loop. *)
Fixpoint builds_loop (builds : list ServiceAndBuild)
  : M (error + list ServiceAndBuild) :=
  match builds with
  | [] => mret (inr [])
  | build :: rest =>
      '(err, repos) ← call (fun r => CallSetManunalBuilds (fst r))
          (setManunalBuilds (ServiceAndBuild_Repos build)
             (ServiceAndBuild_Repos build));
      match err with
      | Some err => mret (inl err)
      | None =>
          let build :=
            {| ServiceAndBuild_ServiceName := ServiceAndBuild_ServiceName build;
               ServiceAndBuild_ServiceModule := ServiceAndBuild_ServiceModule build;
               ServiceAndBuild_BuildName := ServiceAndBuild_BuildName build;
               ServiceAndBuild_Image := ServiceAndBuild_Image build;
               ServiceAndBuild_Package := ServiceAndBuild_Package build;
               ServiceAndBuild_KeyVals := ServiceAndBuild_KeyVals build;
               ServiceAndBuild_Repos := repos |} in
          r ← builds_loop rest;
          match r with
          | inl err => mret (inl err)
          | inr rest => mret (inr (build :: rest))
          end
      end
  end.

(** [job.Spec = spec]. *)
Definition Job_with_Spec (spec : JobSpec) (job : Job) : Job :=
  {| Job_Name := Job_Name job; Job_JobType := Job_JobType job;
     Job_Skipped := Job_Skipped job; Job_Spec := spec |}.

(** [setZadigBuildRepos]: the error, and the job as the call leaves it. *)
Definition setZadigBuildRepos (job : Job) : M (option error * Job) :=
  r ← itoi ToZadigBuildJobSpec (IToi_ZadigBuildJobSpec (Job_Spec job));
  match r with
  | inl err => mret (Some err, job)
  | inr spec =>
      r ← builds_loop (ZadigBuildJobSpec_ServiceAndBuilds spec);
      match r with
      | inl err => mret (Some err, job)
      | inr builds =>
          let spec :=
            {| ZadigBuildJobSpec_DockerRegistryID :=
                 ZadigBuildJobSpec_DockerRegistryID spec;
               ZadigBuildJobSpec_ServiceAndBuilds := builds |} in
          mret (None, Job_with_Spec (JobSpecZadigBuild spec) job)
      end
  end.

(** The loop of [setFreeStyleRepos] over [spec.Steps]. *)
Fixpoint steps_loop (steps : list Step) : M (error + list Step) :=
  match steps with
  | [] => mret (inr [])
  | step :: rest =>
      if negb (String.eqb (Step_StepType step) StepGit)
      then
        r ← steps_loop rest;
        match r with
        | inl err => mret (inl err)
        | inr rest => mret (inr (step :: rest))
        end
      else
        r ← itoi ToStepGitSpec (IToi_StepGitSpec (Step_Spec step));
        match r with
        | inl err => mret (inl err)
        | inr stepSpec =>
            '(err, repos) ← call (fun r => CallSetManunalBuilds (fst r))
                (setManunalBuilds (StepGitSpec_Repos stepSpec)
                   (StepGitSpec_Repos stepSpec));
            match err with
            | Some err => mret (inl err)
            | None =>
                let step :=
                  {| Step_Name := Step_Name step;
                     Step_Timeout := Step_Timeout step;
                     Step_StepType := Step_StepType step;
                     Step_Spec := StepSpecGit {| StepGitSpec_Repos := repos |} |} in
                r ← steps_loop rest;
                match r with
                | inl err => mret (inl err)
                | inr rest => mret (inr (step :: rest))
                end
            end
        end
  end.

(** [setFreeStyleRepos]. *)
Definition setFreeStyleRepos (job : Job) : M (option error * Job) :=
  r ← itoi ToFreestyleJobSpec (IToi_FreestyleJobSpec (Job_Spec job));
  match r with
  | inl err => mret (Some err, job)
  | inr spec =>
      r ← steps_loop (FreestyleJobSpec_Steps spec);
      match r with
      | inl err => mret (Some err, job)
      | inr steps =>
          let spec :=
            {| FreestyleJobSpec_Properties := FreestyleJobSpec_Properties spec;
               FreestyleJobSpec_Steps := steps;
               FreestyleJobSpec_Outputs := FreestyleJobSpec_Outputs spec |} in
          mret (None, Job_with_Spec (JobSpecFreestyle spec) job)
      end
  end.

(** A job is a [*Job] inside the workflow document: what a callee writes to
    the job at [workflow.Stages[si].Jobs[ji]] is written to the document. *)
Definition set_job (si ji : nat) (job : Job) (w : WorkflowV4) : WorkflowV4 :=
  {| WorkflowV4_Name := WorkflowV4_Name w;
     WorkflowV4_KeyVals := WorkflowV4_KeyVals w;
     WorkflowV4_Params := WorkflowV4_Params w;
     WorkflowV4_Stages :=
       alter (fun stage =>
                {| WorkflowStage_Name := WorkflowStage_Name stage;
                   WorkflowStage_Parallel := WorkflowStage_Parallel stage;
                   WorkflowStage_Approval := WorkflowStage_Approval stage;
                   WorkflowStage_Jobs := <[ji := job]> (WorkflowStage_Jobs stage) |})
         si (WorkflowV4_Stages w);
     WorkflowV4_Project := WorkflowV4_Project w;
     WorkflowV4_Description := WorkflowV4_Description w;
     WorkflowV4_CreatedBy := WorkflowV4_CreatedBy w;
     WorkflowV4_CreateTime := WorkflowV4_CreateTime w;
     WorkflowV4_UpdatedBy := WorkflowV4_UpdatedBy w;
     WorkflowV4_UpdateTime := WorkflowV4_UpdateTime w;
     WorkflowV4_MultiRun := WorkflowV4_MultiRun w;
     WorkflowV4_NotificationID := WorkflowV4_NotificationID w |}.

Definition store_job (workflow : loc) (si ji : nat) (job : Job) : M unit :=
  w ← load workflow;
  store workflow (set_job si ji job w).

(** The body of the loop over [stage.Jobs] in [CreateWorkflowTaskV4], for a
    job that is not skipped: the preparation its type asks for, then
    [ToJobs]. *)
Definition convert_job (workflow : loc) (nextTaskID : Z) (si ji : nat)
  (job : Job) : M (error + list JobTask) :=
  r ← (if String.eqb (Job_JobType job) JobZadigBuild
       then
         '(err, job) ← setZadigBuildRepos job;
         store_job workflow si ji job;;
         match err with
         | Some err =>
             emit (LogErrorf ("zadig build job set build info error: "
                              +:+ Error err));;
             mret (inl (AddDesc ErrCreateTask (Error err)))
         | None => mret (inr job)
         end
       else mret (inr job));
  match r with
  | inl e => mret (inl e)
  | inr job =>
  r ← (if String.eqb (Job_JobType job) JobFreestyle
       then
         '(err, job) ← setFreeStyleRepos job;
         store_job workflow si ji job;;
         match err with
         | Some err =>
             emit (LogErrorf ("freestyle job set build info error: "
                              +:+ Error err));;
             mret (inl (AddDesc ErrCreateTask (Error err)))
         | None => mret (inr job)
         end
       else mret (inr job));
  match r with
  | inl e => mret (inl e)
  | inr job =>
      w ← load workflow;
      r ← call (CallToJobs job nextTaskID) (ToJobs job w nextTaskID);
      match r with
      | inl err =>
          emit (LogErrorf ("cannot create workflow " +:+ WorkflowV4_Name w
                           +:+ ", the error is: " +:+ Error err));;
          mret (inl (AddDesc ErrCreateTask (Error err)))
      | inr jobs => mret (inr jobs)
      end
  end end.

(** The loop over [stage.Jobs]; [stageJobs] is [stageTask.Jobs]. *)
Fixpoint jobs_loop (workflow : loc) (nextTaskID : Z) (si ji : nat)
  (jobs : list Job) (stageJobs : list JobTask) : M (error + list JobTask) :=
  match jobs with
  | [] => mret (inr stageJobs)
  | job :: rest =>
      if Job_Skipped job
      then (* continue *) jobs_loop workflow nextTaskID si (S ji) rest stageJobs
      else
        r ← convert_job workflow nextTaskID si ji job;
        match r with
        | inl e => mret (inl e)
        | inr jobs =>
            jobs_loop workflow nextTaskID si (S ji) rest (stageJobs ++ jobs)
        end
  end.

Definition newStageTask (stage : WorkflowStage) (jobs : list JobTask)
  : StageTask :=
  {| StageTask_Name := WorkflowStage_Name stage;
     StageTask_Status := StatusUnset;
     StageTask_StartTime := 0;
     StageTask_EndTime := 0;
     StageTask_Parallel := WorkflowStage_Parallel stage;
     StageTask_Approval := WorkflowStage_Approval stage;
     StageTask_Jobs := jobs |}.

(** The loop over [workflow.Stages]; [taskStages] is
    [workflowTask.Stages]. *)
Fixpoint stages_loop (workflow : loc) (nextTaskID : Z) (si : nat)
  (stages : list WorkflowStage) (taskStages : list StageTask)
  : M (error + list StageTask) :=
  match stages with
  | [] => mret (inr taskStages)
  | stage :: rest =>
      r ← jobs_loop workflow nextTaskID si 0 (WorkflowStage_Jobs stage) [];
      match r with
      | inl e => mret (inl e)
      | inr jobs =>
          stages_loop workflow nextTaskID (S si) rest
            (if (0 <? length jobs)%nat
             then taskStages ++ [newStageTask stage jobs]
             else taskStages)
      end
  end.

(** The loop of [workflowTaskLint] over the stages. *)
Fixpoint lint_stages (workflowName : string) (taskID : Z)
  (stages : list StageTask) : M (option error) :=
  match stages with
  | [] => mret None
  | stage :: rest =>
      if (length (StageTask_Jobs stage) <=? 0)%nat
      then
        let errMsg := "no job found in workflow task: " +:+ workflowName
                      +:+ ",taskID: " +:+ fmt_d taskID
                      +:+ ",stage: " +:+ StageTask_Name stage in
        emit (LogErrorf errMsg);;
        mret (Some (AddDesc ErrCreateTask errMsg))
      else lint_stages workflowName taskID rest
  end.

(** [workflowTaskLint]. *)
Definition workflowTaskLint {R} (workflowTask : WorkflowTask R)
  : M (option error) :=
  if (length (WorkflowTask_Stages workflowTask) <=? 0)%nat
  then
    let errMsg := "no stage found in workflow task: "
                  +:+ WorkflowTask_WorkflowName workflowTask
                  +:+ ",taskID: " +:+ fmt_d (WorkflowTask_TaskID workflowTask) in
    emit (LogErrorf errMsg);;
    mret (Some (AddDesc ErrCreateTask errMsg))
  else lint_stages (WorkflowTask_WorkflowName workflowTask)
         (WorkflowTask_TaskID workflowTask)
         (WorkflowTask_Stages workflowTask).

(** The task as [CreateWorkflowTaskV4] has filled it in when it lints it:
    [workflow] is the document after rendering. *)
Definition newWorkflowTask (originTaskArgs : loc) (nextTaskID : Z)
  (user : string) (now : Z) (workflow : WorkflowV4) (stages : list StageTask)
  : WorkflowTask loc :=
  {| WorkflowTask_TaskID := nextTaskID;
     WorkflowTask_WorkflowName := WorkflowV4_Name workflow;
     WorkflowTask_Params := WorkflowV4_Params workflow;
     WorkflowTask_KeyVals := WorkflowV4_KeyVals workflow;
     WorkflowTask_Status := StatusUnset;
     WorkflowTask_TaskCreator := user;
     WorkflowTask_TaskRevoker := user;
     WorkflowTask_CreateTime := now;
     WorkflowTask_StartTime := 0;
     WorkflowTask_EndTime := 0;
     WorkflowTask_Stages := stages;
     WorkflowTask_ProjectName := WorkflowV4_Project workflow;
     WorkflowTask_Error := "";
     WorkflowTask_IsRestart := false;
     WorkflowTask_MultiRun := WorkflowV4_MultiRun workflow;
     WorkflowTask_WorkflowArgs := None;
     WorkflowTask_OriginWorkflowArgs := Some originTaskArgs |}.

(** [workflowTask.WorkflowArgs = workflow] and
    [workflowTask.Status = config.StatusCreated]. *)
Definition with_WorkflowArgs_Status {R} (workflow : R) (status : Status)
  (t : WorkflowTask R) : WorkflowTask R :=
  {| WorkflowTask_TaskID := WorkflowTask_TaskID t;
     WorkflowTask_WorkflowName := WorkflowTask_WorkflowName t;
     WorkflowTask_Params := WorkflowTask_Params t;
     WorkflowTask_KeyVals := WorkflowTask_KeyVals t;
     WorkflowTask_Status := status;
     WorkflowTask_TaskCreator := WorkflowTask_TaskCreator t;
     WorkflowTask_TaskRevoker := WorkflowTask_TaskRevoker t;
     WorkflowTask_CreateTime := WorkflowTask_CreateTime t;
     WorkflowTask_StartTime := WorkflowTask_StartTime t;
     WorkflowTask_EndTime := WorkflowTask_EndTime t;
     WorkflowTask_Stages := WorkflowTask_Stages t;
     WorkflowTask_ProjectName := WorkflowTask_ProjectName t;
     WorkflowTask_Error := WorkflowTask_Error t;
     WorkflowTask_IsRestart := WorkflowTask_IsRestart t;
     WorkflowTask_MultiRun := WorkflowTask_MultiRun t;
     WorkflowTask_WorkflowArgs := Some workflow;
     WorkflowTask_OriginWorkflowArgs := WorkflowTask_OriginWorkflowArgs t |}.

(** The task with its two pointers followed, as a callee that stores or
    reads it sees it. *)
Definition follow (h : gmap loc WorkflowV4) (t : WorkflowTask loc) : StoredTask :=
  {| WorkflowTask_TaskID := WorkflowTask_TaskID t;
     WorkflowTask_WorkflowName := WorkflowTask_WorkflowName t;
     WorkflowTask_Params := WorkflowTask_Params t;
     WorkflowTask_KeyVals := WorkflowTask_KeyVals t;
     WorkflowTask_Status := WorkflowTask_Status t;
     WorkflowTask_TaskCreator := WorkflowTask_TaskCreator t;
     WorkflowTask_TaskRevoker := WorkflowTask_TaskRevoker t;
     WorkflowTask_CreateTime := WorkflowTask_CreateTime t;
     WorkflowTask_StartTime := WorkflowTask_StartTime t;
     WorkflowTask_EndTime := WorkflowTask_EndTime t;
     WorkflowTask_Stages := WorkflowTask_Stages t;
     WorkflowTask_ProjectName := WorkflowTask_ProjectName t;
     WorkflowTask_Error := WorkflowTask_Error t;
     WorkflowTask_IsRestart := WorkflowTask_IsRestart t;
     WorkflowTask_MultiRun := WorkflowTask_MultiRun t;
     WorkflowTask_WorkflowArgs := WorkflowTask_WorkflowArgs t ≫= (h !!.);
     WorkflowTask_OriginWorkflowArgs :=
       WorkflowTask_OriginWorkflowArgs t ≫= (h !!.) |}.

Definition followed (t : WorkflowTask loc) : M StoredTask :=
  fun s => (follow (heap s) t, s).

(** [CreateWorkflowTaskV4], from the lint of the task on. *)
Definition create_task (resp : CreateTaskV4Resp) (workflow : loc)
  (workflowTask : WorkflowTask loc) : M (CreateTaskV4Resp * option error) :=
  err ← workflowTaskLint workflowTask;
  match err with
  | Some err => mret (resp, Some err)
  | None =>
  let workflowTask := with_WorkflowArgs_Status workflow StatusCreated workflowTask in
  stored ← followed workflowTask;
  err ← call (CallCreateTask stored) (workflowcontroller_CreateTask stored);
  match err with
  | Some err =>
      emit (LogErrorf ("create workflow task error: " +:+ Error err));;
      mret (resp, Some (AddDesc ErrCreateTask (Error err)))
  | None =>
  (* Updating the comment in the git repository, this will not cause the
     function to return error if this function call fails *)
  stored ← followed workflowTask;
  err ← call CallUpdateWebhookComment (UpdateWebhookCommentForWorkflowV4 stored);
  match err with
  | Some err =>
      emit (LogWarnf ("Failed to update comment for custom workflow "
                      +:+ WorkflowTask_WorkflowName workflowTask
                      +:+ ", taskID: " +:+ fmt_d (WorkflowTask_TaskID workflowTask)
                      +:+ " the error is: " +:+ Error err))
  | None => mret tt
  end;;
  stored ← followed workflowTask;
  err ← call CallUpdateGitCheck
      (UpdateGitCheckForWorkflowV4 (WorkflowTask_WorkflowArgs stored)
         (WorkflowTask_TaskID workflowTask));
  match err with
  | Some err =>
      emit (LogWarnf ("Failed to update github check status for custom workflow "
                      +:+ WorkflowTask_WorkflowName workflowTask
                      +:+ ", taskID: " +:+ fmt_d (WorkflowTask_TaskID workflowTask)
                      +:+ " the error is: " +:+ Error err))
  | None => mret tt
  end;;
  mret (resp, None)
  end end.

(** [CreateWorkflowTaskV4]; [workflow] is the caller's [*WorkflowV4]. *)
Definition CreateWorkflowTaskV4 (user : string) (workflow : loc)
  : M (CreateTaskV4Resp * option error) :=
  w ← load workflow;
  let resp := {| ProjectName := WorkflowV4_Project w;
                 WorkflowName := WorkflowV4_Name w;
                 TaskID := 0 |} in
  err ← call CallLintWorkflowV4 (fun wd => (LintWorkflowV4 w, wd));
  match err with
  | Some err => mret (resp, Some err)
  | None =>
  (* save workflow original workflow task args. *)
  r ← itoi ToWorkflowV4 (IToi_WorkflowV4 w);
  match r with
  | inl err =>
      emit (LogErrorf ("save original workflow args error: " +:+ Error err));;
      mret (resp, Some (AddDesc ErrCreateTask (Error err)))
  | inr origin =>
  originTaskArgs ← alloc origin;
  r ← call (CallGetNextSeq (WorkflowTaskV4Fmt (WorkflowV4_Name w)))
      (GetNextSeq (WorkflowTaskV4Fmt (WorkflowV4_Name w)));
  match r with
  | inl err =>
      emit (LogErrorf ("Counter.GetNextSeq error: " +:+ Error err));;
      mret (resp, Some (AddDesc ErrGetCounter (Error err)))
  | inr nextTaskID =>
  let resp := {| ProjectName := ProjectName resp;
                 WorkflowName := WorkflowName resp;
                 TaskID := nextTaskID |} in
  w ← load workflow;
  '(err, w) ← call (fun r => CallRemoveFixedValueMarks (fst r))
      (fun wd => (RemoveFixedValueMarks w, wd));
  store workflow w;;
  match err with
  | Some err =>
      emit (LogErrorf ("RemoveFixedValueMarks error: " +:+ Error err));;
      mret (resp, Some (AddDesc ErrCreateTask (Error err)))
  | None =>
  '(err, w) ← call (fun r => CallRenderGlobalVariables nextTaskID user (fst r))
      (fun wd => (RenderGlobalVariables w nextTaskID user, wd));
  store workflow w;;
  match err with
  | Some err =>
      emit (LogErrorf ("RenderGlobalVariables error: " +:+ Error err));;
      mret (resp, Some (AddDesc ErrCreateTask (Error err)))
  | None =>
  now ← peek time_Now_Unix;
  r ← stages_loop workflow nextTaskID 0 (WorkflowV4_Stages w) [];
  match r with
  | inl e => mret (resp, Some e)
  | inr stages =>
      create_task resp workflow
        (newWorkflowTask originTaskArgs nextTaskID user now w stages)
  end end end end end end.

(** [CloneWorkflowTaskV4]. *)
Definition CloneWorkflowTaskV4 (workflowName : string) (taskID : Z)
  : M (option WorkflowV4 * option error) :=
  r ← call (fun r => CallFind workflowName taskID
                       (match r with inl err => Some err | inr _ => None end))
      (fun wd => (Find workflowName taskID wd, wd));
  match r with
  | inl err =>
      emit (LogErrorf ("find workflowTaskV4 error: " +:+ Error err));;
      mret (None, Some (AddErr ErrGetTask err))
  | inr task => mret (WorkflowTask_OriginWorkflowArgs task, None)
  end.

(** [ApproveStage]. *)
Definition ApproveStage (workflowName stageName userName userID comment : string)
  (taskID : Z) (approve : bool) : M (option error) :=
  if String.eqb workflowName "" || String.eqb stageName "" || (taskID =? 0)
  then
    let errMsg := "can not find approved workflow: " +:+ workflowName
                  +:+ ", taskID: " +:+ fmt_d taskID
                  +:+ ",stage: " +:+ stageName in
    emit (LogErrorf errMsg);;
    mret (Some (AddDesc ErrApproveTask errMsg))
  else
    err ← call (CallApproveStage workflowName stageName userName userID comment
                  taskID approve)
        (workflowcontroller_ApproveStage workflowName stageName userName userID
           comment taskID approve);
    match err with
    | Some err =>
        emit (LogErrorf (Error err));;
        mret (Some (AddErr ErrApproveTask err))
    | None => mret None
    end.

(** *** Reading a run *)

Definition init (h : gmap loc WorkflowV4) (w : World) : State :=
  {| heap := h; world := w; trace := [] |}.

(** The tasks handed to the store, each with the error the store returned. *)
Definition create_calls (tr : list Event) : list (StoredTask * option error) :=
  omap (fun e => match e with
                 | CallCreateTask t err => Some (t, err)
                 | _ => None
                 end) tr.

(** The results of the calls to the counter. *)
Definition counter_calls (tr : list Event) : list (string * (error + Z)) :=
  omap (fun e => match e with
                 | CallGetNextSeq name r => Some (name, r)
                 | _ => None
                 end) tr.

(** The error of a failed step of the per-job preparation: decoding a job
    or step spec, looking up repositories, or converting the job. *)
Definition job_failure (e : Event) : option error :=
  match e with
  | CallIToi ToZadigBuildJobSpec (Some err)
  | CallIToi ToFreestyleJobSpec (Some err)
  | CallIToi ToStepGitSpec (Some err)
  | CallSetManunalBuilds (Some err)
  | CallToJobs _ _ (inl err) => Some err
  | _ => None
  end.

Definition failures (tr : list Event) : list error := omap job_failure tr.

(** The jobs that [ToJobs] converted, each with the job tasks it gave. *)
Definition conversions (tr : list Event) : list (Job * list JobTask) :=
  omap (fun e => match e with
                 | CallToJobs job _ (inr jobs) => Some (job, jobs)
                 | _ => None
                 end) tr.

(** The jobs [ToJobs] was asked to convert, whatever it answered. *)
Definition conversion_calls (tr : list Event) : list Job :=
  omap (fun e => match e with
                 | CallToJobs job _ _ => Some job
                 | _ => None
                 end) tr.

(** [job'] is [job] after its preparation: only its spec may differ. *)
Definition prepared (job job' : Job) : Prop :=
  Job_Name job' = Job_Name job
  /\ Job_JobType job' = Job_JobType job
  /\ Job_Skipped job' = Job_Skipped job.

(** The jobs of a stage that are not skipped. *)
Definition active_jobs (stage : WorkflowStage) : list Job :=
  List.filter (fun job => negb (Job_Skipped job)) (WorkflowStage_Jobs stage).

(** The stage tasks that are kept: those with a job. *)
Definition kept_stages (stages : list StageTask) : list StageTask :=
  List.filter (fun st => (0 <? length (StageTask_Jobs st))%nat) stages.

(** What a step of the materialization may do besides converting jobs: it
    extends the trace by [evs], writes to no document but the caller's, and
    calls neither the counter nor the store. *)
Definition step_effects (workflow : loc) (s s' : State) (evs : list Event)
  : Prop :=
  trace s' = evs ++ trace s
  /\ (forall p, p <> workflow -> heap s' !! p = heap s !! p)
  /\ create_calls evs = []
  /\ counter_calls evs = [].

(** What the repository loops and the two setters do: they leave the heap
    alone, convert no job, and record exactly the failure they return. *)
Definition setter_effects (s s' : State) (evs : list Event) (err : option error)
  : Prop :=
  trace s' = evs ++ trace s
  /\ heap s' = heap s
  /\ create_calls evs = []
  /\ counter_calls evs = []
  /\ conversions evs = []
  /\ failures evs = match err with Some e => [e] | None => [] end.

(** A step that only reads and logs. *)
Definition reads_only {A} (m : M A) (s : State) : Prop :=
  heap (m s).2 = heap s /\ world (m s).2 = world s
  /\ exists evs, trace (m s).2 = evs ++ trace s
                 /\ create_calls evs = [] /\ counter_calls evs = []
                 /\ failures evs = [] /\ conversions evs = [].

(** What the lint of a task asks for: a stage, and a job in every stage. *)
Definition well_staged (stages : list StageTask) : Prop :=
  stages <> [] /\ Forall (fun st => StageTask_Jobs st <> []) stages.

(** The world [wd'] a run ends in after it handed [t] to the store: the
    store answered [cerr] in some world, and after a success the two SCM
    notifications followed. *)
Definition stored_in (t : StoredTask) (cerr : option error) (wd' : World) : Prop :=
  exists wd wd1,
    workflowcontroller_CreateTask t wd = (cerr, wd1)
    /\ (cerr = None ->
        wd' = (UpdateGitCheckForWorkflowV4 (WorkflowTask_WorkflowArgs t)
                 (WorkflowTask_TaskID t)
                 (UpdateWebhookCommentForWorkflowV4 t wd1).2).2).

(** [convss] lists, stage by stage and in order, the conversions of the
    jobs of [stages] that are not skipped: the job as it was prepared and
    the job tasks [ToJobs] gave for it. *)
Definition stage_conversions (stages : list WorkflowStage)
    (convss : list (list (Job * list JobTask))) : Prop :=
  Forall2 (fun stage convs => Forall2 prepared (active_jobs stage) convs.*1)
    stages convss.

(** The stage tasks these conversions give: one per stage, holding the job
    tasks of its conversions, the stages without a job task left out. *)
Definition converted_stages (stages : list WorkflowStage)
    (convss : list (list (Job * list JobTask))) : list StageTask :=
  kept_stages (zip_with (fun stage convs => newStageTask stage (concat convs.*2))
                 stages convss).

(** The calls to the workflow controller's [ApproveStage]. *)
Definition approvals (tr : list Event)
  : list (string * string * string * string * string * Z * bool * option error) :=
  omap (fun e => match e with
                 | CallApproveStage wn sn un uid c id ap err =>
                     Some (wn, sn, un, uid, c, id, ap, err)
                 | _ => None
                 end) tr.

(** [build'] is [build] with the repositories [setManunalBuilds] gave for
    its own, and nothing else changed. *)
Definition build_filled (build build' : ServiceAndBuild) : Prop :=
  ServiceAndBuild_ServiceName build' = ServiceAndBuild_ServiceName build
  /\ ServiceAndBuild_ServiceModule build' = ServiceAndBuild_ServiceModule build
  /\ ServiceAndBuild_BuildName build' = ServiceAndBuild_BuildName build
  /\ ServiceAndBuild_Image build' = ServiceAndBuild_Image build
  /\ ServiceAndBuild_Package build' = ServiceAndBuild_Package build
  /\ ServiceAndBuild_KeyVals build' = ServiceAndBuild_KeyVals build
  /\ exists wd, (setManunalBuilds (ServiceAndBuild_Repos build)
                   (ServiceAndBuild_Repos build) wd).1
                = (None, ServiceAndBuild_Repos build').

(** [step'] is [step] after [setFreeStyleRepos]: a step that is not a git
    step is untouched, and a git step has for spec the decoded git spec with
    the repositories [setManunalBuilds] gave for its own. *)
Definition step_filled (step step' : Step) : Prop :=
  Step_Name step' = Step_Name step
  /\ Step_Timeout step' = Step_Timeout step
  /\ Step_StepType step' = Step_StepType step
  /\ (Step_StepType step <> StepGit -> step' = step)
  /\ (Step_StepType step = StepGit ->
      exists stepSpec repos wd,
        IToi_StepGitSpec (Step_Spec step) = inr stepSpec
        /\ (setManunalBuilds (StepGitSpec_Repos stepSpec)
              (StepGitSpec_Repos stepSpec) wd).1 = (None, repos)
        /\ Step_Spec step' = StepSpecGit {| StepGitSpec_Repos := repos |}).

End service.
End workflow.

(** ** [workflow]: the preview of a stored task *)

Module preview.
Import models GoStrings workflow.

(** The other job types of [config], as the design document names
    them. *)
Definition JobZadigDeploy : JobType := "zadig-deploy".
Definition JobZadigHelmDeploy : JobType := "zadig-helm-deploy".
Definition JobPlugin : JobType := "plugin".
Definition JobCustomDeploy : JobType := "custom-deploy".

(** The task specs of [commonmodels] that [jobsToJobPreviews] decodes; they
    are declared outside these files and their fields are the ones the code
    reads. *)
Record JobTaskDeploySpec : Set := {
  JobTaskDeploySpec_Env : string;
  JobTaskDeploySpec_SkipCheckRunStatus : bool;
  JobTaskDeploySpec_ServiceName : string;
  JobTaskDeploySpec_ServiceModule : string;
  JobTaskDeploySpec_Image : string
}.

Record ImageAndServiceModule : Set := {
  ImageAndServiceModule_ServiceModule : string;
  ImageAndServiceModule_Image : string
}.

Record JobTaskHelmDeploySpec : Set := {
  JobTaskHelmDeploySpec_Env : string;
  JobTaskHelmDeploySpec_SkipCheckRunStatus : bool;
  JobTaskHelmDeploySpec_ServiceName : string;
  JobTaskHelmDeploySpec_ImageAndModules : list ImageAndServiceModule
}.

Record JobTaskPluginSpec : Set := {
  JobTaskPluginSpec_Plugin : Doc
}.

Record JobTaskCustomDeploySpec : Set := {
  JobTaskCustomDeploySpec_Image : string;
  JobTaskCustomDeploySpec_Namespace : string;
  JobTaskCustomDeploySpec_SkipCheckRunStatus : bool;
  JobTaskCustomDeploySpec_WorkloadType : string;
  JobTaskCustomDeploySpec_WorkloadName : string;
  JobTaskCustomDeploySpec_ContainerName : string;
  JobTaskCustomDeploySpec_ClusterID : string
}.

(** The preview structs of this file. *)
Record ServiceAndImage : Set := {
  ServiceAndImage_ServiceName : string;
  ServiceAndImage_ServiceModule : string;
  ServiceAndImage_Image : string
}.

Record ZadigBuildJobSpec : Set := {
  ZadigBuildJobSpec_Repos : list Repository;
  ZadigBuildJobSpec_Image : string;
  ZadigBuildJobSpec_ServiceName : string;
  ZadigBuildJobSpec_ServiceModule : string;
  ZadigBuildJobSpec_Envs : list KeyVal
}.

Record ZadigDeployJobSpec : Set := {
  ZadigDeployJobSpec_Env : string;
  ZadigDeployJobSpec_SkipCheckRunStatus : bool;
  ZadigDeployJobSpec_ServiceAndImages : list ServiceAndImage
}.

Record CustomDeployJobSpec : Set := {
  CustomDeployJobSpec_Image : string;
  CustomDeployJobSpec_Target : string;
  CustomDeployJobSpec_ClusterName : string;
  CustomDeployJobSpec_Namespace : string;
  CustomDeployJobSpec_SkipCheckRunStatus : bool
}.

(** The [Spec interface{}] of a job preview: one of the preview specs, the
    plugin of a plugin job, or the stored spec of the job. *)
Inductive PreviewSpec : Set :=
| SpecZadigBuild (s : ZadigBuildJobSpec)
| SpecZadigDeploy (s : ZadigDeployJobSpec)
| SpecCustomDeploy (s : CustomDeployJobSpec)
| SpecPlugin (plugin : Doc)
| SpecStored (d : Doc).

Record JobTaskPreview : Set := {
  JobTaskPreview_Name : string;
  JobTaskPreview_JobType : string;
  JobTaskPreview_Status : Status;
  JobTaskPreview_StartTime : Z;
  JobTaskPreview_EndTime : Z;
  JobTaskPreview_Error : string;
  JobTaskPreview_Spec : option PreviewSpec
}.

Record StageTaskPreview : Set := {
  StageTaskPreview_Name : string;
  StageTaskPreview_Status : Status;
  StageTaskPreview_StartTime : Z;
  StageTaskPreview_EndTime : Z;
  StageTaskPreview_Parallel : bool;
  StageTaskPreview_Approval : option Approval;
  StageTaskPreview_Jobs : list JobTaskPreview
}.

Record WorkflowTaskPreview : Set := {
  WorkflowTaskPreview_TaskID : Z;
  WorkflowTaskPreview_WorkflowName : string;
  WorkflowTaskPreview_Params : list Param;
  WorkflowTaskPreview_Status : Status;
  WorkflowTaskPreview_TaskCreator : string;
  WorkflowTaskPreview_TaskRevoker : string;
  WorkflowTaskPreview_CreateTime : Z;
  WorkflowTaskPreview_StartTime : Z;
  WorkflowTaskPreview_EndTime : Z;
  WorkflowTaskPreview_Stages : list StageTaskPreview;
  WorkflowTaskPreview_ProjectName : string;
  WorkflowTaskPreview_Error : string;
  WorkflowTaskPreview_IsRestart : bool
}.

(** What the preview needs besides the packages of the service: the
    decoders of the task specs, the cluster collection, and the constant
    [config.FreestyleType], whose value these files do not give. *)
Class Decoders `{Externals} := {
  FreestyleType : string;
  (* commonmodels.IToi, at the types the preview uses it at *)
  IToi_JobTaskBuildSpec : Doc -> error + JobTaskBuildSpec;
  IToi_JobTaskDeploySpec : Doc -> error + JobTaskDeploySpec;
  IToi_JobTaskHelmDeploySpec : Doc -> error + JobTaskHelmDeploySpec;
  IToi_JobTaskPluginSpec : Doc -> error + JobTaskPluginSpec;
  IToi_JobTaskCustomDeploySpec : Doc -> error + JobTaskCustomDeploySpec;
  (* commonmodels.IToi(step.Spec, &stepSpec), whose error the preview
     drops: the git spec that [stepSpec] points to after the call *)
  IToi_StepGitSpec_left : StepSpec -> StepGitSpec;
  (* commonrepo.NewK8SClusterColl().Get(id): the name of the cluster *)
  K8SClusterColl_Get : string -> World -> error + string
}.

Section previews.
Context `{ErrorsPkg} `{Decoders}.

(** The preview of a job before its spec is set. *)
Definition newJobTaskPreview (job : JobTask) : JobTaskPreview :=
  {| JobTaskPreview_Name := JobTask_Name job;
     JobTaskPreview_JobType := JobTask_JobType job;
     JobTaskPreview_Status := JobTask_Status job;
     JobTaskPreview_StartTime := JobTask_StartTime job;
     JobTaskPreview_EndTime := JobTask_EndTime job;
     JobTaskPreview_Error := JobTask_Error job;
     JobTaskPreview_Spec := None |}.

(** [jobPreview.Spec = spec] and [jobPreview.JobType = jobType]. *)
Definition with_Spec (spec : PreviewSpec) (p : JobTaskPreview) : JobTaskPreview :=
  {| JobTaskPreview_Name := JobTaskPreview_Name p;
     JobTaskPreview_JobType := JobTaskPreview_JobType p;
     JobTaskPreview_Status := JobTaskPreview_Status p;
     JobTaskPreview_StartTime := JobTaskPreview_StartTime p;
     JobTaskPreview_EndTime := JobTaskPreview_EndTime p;
     JobTaskPreview_Error := JobTaskPreview_Error p;
     JobTaskPreview_Spec := Some spec |}.

Definition with_JobType (jobType : string) (p : JobTaskPreview) : JobTaskPreview :=
  {| JobTaskPreview_Name := JobTaskPreview_Name p;
     JobTaskPreview_JobType := jobType;
     JobTaskPreview_Status := JobTaskPreview_Status p;
     JobTaskPreview_StartTime := JobTaskPreview_StartTime p;
     JobTaskPreview_EndTime := JobTaskPreview_EndTime p;
     JobTaskPreview_Error := JobTaskPreview_Error p;
     JobTaskPreview_Spec := JobTaskPreview_Spec p |}.

(** [job.JobType = jobType]. *)
Definition JobTask_with_JobType (jobType : string) (job : JobTask) : JobTask :=
  {| JobTask_Name := JobTask_Name job;
     JobTask_JobType := jobType;
     JobTask_Status := JobTask_Status job;
     JobTask_StartTime := JobTask_StartTime job;
     JobTask_EndTime := JobTask_EndTime job;
     JobTask_Error := JobTask_Error job;
     JobTask_Spec := JobTask_Spec job;
     JobTask_Outputs := JobTask_Outputs job |}.

(** The body of the loop over [taskJobSpec.Properties.Envs]. *)
Definition env_step (spec : ZadigBuildJobSpec) (arg : KeyVal) : ZadigBuildJobSpec :=
  if String.eqb (KeyVal_Key arg) "IMAGE"
  then {| ZadigBuildJobSpec_Repos := ZadigBuildJobSpec_Repos spec;
          ZadigBuildJobSpec_Image := KeyVal_Value arg;
          ZadigBuildJobSpec_ServiceName := ZadigBuildJobSpec_ServiceName spec;
          ZadigBuildJobSpec_ServiceModule := ZadigBuildJobSpec_ServiceModule spec;
          ZadigBuildJobSpec_Envs := ZadigBuildJobSpec_Envs spec |}
  else if String.eqb (KeyVal_Key arg) "SERVICE"
  then {| ZadigBuildJobSpec_Repos := ZadigBuildJobSpec_Repos spec;
          ZadigBuildJobSpec_Image := ZadigBuildJobSpec_Image spec;
          ZadigBuildJobSpec_ServiceName := KeyVal_Value arg;
          ZadigBuildJobSpec_ServiceModule := ZadigBuildJobSpec_ServiceModule spec;
          ZadigBuildJobSpec_Envs := ZadigBuildJobSpec_Envs spec |}
  else if String.eqb (KeyVal_Key arg) "SERVICE_MODULE"
  then {| ZadigBuildJobSpec_Repos := ZadigBuildJobSpec_Repos spec;
          ZadigBuildJobSpec_Image := ZadigBuildJobSpec_Image spec;
          ZadigBuildJobSpec_ServiceName := ZadigBuildJobSpec_ServiceName spec;
          ZadigBuildJobSpec_ServiceModule := KeyVal_Value arg;
          ZadigBuildJobSpec_Envs := ZadigBuildJobSpec_Envs spec |}
  else spec.

(** [spec.Envs = taskJobSpec.Properties.CustomEnvs]. *)
Definition with_Envs (envs : list KeyVal) (spec : ZadigBuildJobSpec)
  : ZadigBuildJobSpec :=
  {| ZadigBuildJobSpec_Repos := ZadigBuildJobSpec_Repos spec;
     ZadigBuildJobSpec_Image := ZadigBuildJobSpec_Image spec;
     ZadigBuildJobSpec_ServiceName := ZadigBuildJobSpec_ServiceName spec;
     ZadigBuildJobSpec_ServiceModule := ZadigBuildJobSpec_ServiceModule spec;
     ZadigBuildJobSpec_Envs := envs |}.

(** The body of the loop over [taskJobSpec.Steps]. *)
Definition step_step (spec : ZadigBuildJobSpec) (step : StepTask)
  : ZadigBuildJobSpec :=
  if String.eqb (StepTask_StepType step) StepGit
  then {| ZadigBuildJobSpec_Repos :=
            StepGitSpec_Repos (IToi_StepGitSpec_left (StepTask_Spec step));
          ZadigBuildJobSpec_Image := ZadigBuildJobSpec_Image spec;
          ZadigBuildJobSpec_ServiceName := ZadigBuildJobSpec_ServiceName spec;
          ZadigBuildJobSpec_ServiceModule := ZadigBuildJobSpec_ServiceModule spec;
          ZadigBuildJobSpec_Envs := ZadigBuildJobSpec_Envs spec |}
  else spec.

(** The preview spec of a build or freestyle job. *)
Definition buildSpec (taskJobSpec : JobTaskBuildSpec) : ZadigBuildJobSpec :=
  let spec := {| ZadigBuildJobSpec_Repos := [];
                 ZadigBuildJobSpec_Image := "";
                 ZadigBuildJobSpec_ServiceName := "";
                 ZadigBuildJobSpec_ServiceModule := "";
                 ZadigBuildJobSpec_Envs := [] |} in
  let spec := fold_left env_step (Envs (Properties taskJobSpec)) spec in
  let spec := with_Envs (CustomEnvs (Properties taskJobSpec)) spec in
  fold_left step_step (Steps taskJobSpec) spec.

(** The body of the loop of [jobsToJobPreviews]: the job as the loop leaves
    it, and the preview it appends, if any. *)
Definition preview_job (job : JobTask) : M (JobTask * option JobTaskPreview) :=
  let jobPreview := newJobTaskPreview job in
  let jobType := JobTask_JobType job in
  if String.eqb jobType FreestyleType || String.eqb jobType JobZadigBuild
  then
    match IToi_JobTaskBuildSpec (JobTask_Spec job) with
    | inl _ => (* continue *) mret (job, None)
    | inr taskJobSpec =>
        mret (job, Some (with_Spec (SpecZadigBuild (buildSpec taskJobSpec))
                           jobPreview))
    end
  else if String.eqb jobType JobZadigDeploy
  then
    match IToi_JobTaskDeploySpec (JobTask_Spec job) with
    | inl _ => mret (job, None)
    | inr taskJobSpec =>
        let spec :=
          {| ZadigDeployJobSpec_Env := JobTaskDeploySpec_Env taskJobSpec;
             ZadigDeployJobSpec_SkipCheckRunStatus :=
               JobTaskDeploySpec_SkipCheckRunStatus taskJobSpec;
             ZadigDeployJobSpec_ServiceAndImages :=
               [] ++ [ {| ServiceAndImage_ServiceName :=
                            JobTaskDeploySpec_ServiceName taskJobSpec;
                          ServiceAndImage_ServiceModule :=
                            JobTaskDeploySpec_ServiceModule taskJobSpec;
                          ServiceAndImage_Image :=
                            JobTaskDeploySpec_Image taskJobSpec |} ] |} in
        mret (job, Some (with_Spec (SpecZadigDeploy spec) jobPreview))
    end
  else if String.eqb jobType JobZadigHelmDeploy
  then
    let jobPreview := with_JobType JobZadigDeploy jobPreview in
    let job := JobTask_with_JobType JobZadigDeploy job in
    match IToi_JobTaskHelmDeploySpec (JobTask_Spec job) with
    | inl _ => mret (job, None)
    | inr taskJobSpec =>
        let spec :=
          {| ZadigDeployJobSpec_Env := JobTaskHelmDeploySpec_Env taskJobSpec;
             ZadigDeployJobSpec_SkipCheckRunStatus :=
               JobTaskHelmDeploySpec_SkipCheckRunStatus taskJobSpec;
             ZadigDeployJobSpec_ServiceAndImages :=
               fold_left
                 (fun acc imageAndmodule =>
                    acc ++ [ {| ServiceAndImage_ServiceName :=
                                  JobTaskHelmDeploySpec_ServiceName taskJobSpec;
                                ServiceAndImage_ServiceModule :=
                                  ImageAndServiceModule_ServiceModule imageAndmodule;
                                ServiceAndImage_Image :=
                                  ImageAndServiceModule_Image imageAndmodule |} ])
                 (JobTaskHelmDeploySpec_ImageAndModules taskJobSpec) [] |} in
        mret (job, Some (with_Spec (SpecZadigDeploy spec) jobPreview))
    end
  else if String.eqb jobType JobPlugin
  then
    match IToi_JobTaskPluginSpec (JobTask_Spec job) with
    | inl _ => mret (job, None)
    | inr taskJobSpec =>
        mret (job, Some (with_Spec (SpecPlugin (JobTaskPluginSpec_Plugin taskJobSpec))
                           jobPreview))
    end
  else if String.eqb jobType JobCustomDeploy
  then
    match IToi_JobTaskCustomDeploySpec (JobTask_Spec job) with
    | inl _ => mret (job, None)
    | inr taskJobSpec =>
        let target :=
          Join [JobTaskCustomDeploySpec_WorkloadType taskJobSpec;
                JobTaskCustomDeploySpec_WorkloadName taskJobSpec;
                JobTaskCustomDeploySpec_ContainerName taskJobSpec] "/" in
        r ← peek (K8SClusterColl_Get (JobTaskCustomDeploySpec_ClusterID taskJobSpec));
        clusterName ←
          match r with
          | inl _ =>
              emit (LogErrorf ("cluster id: "
                               +:+ JobTaskCustomDeploySpec_ClusterID taskJobSpec
                               +:+ " not found"));;
              mret ""
          | inr name => mret name
          end;
        let spec :=
          {| CustomDeployJobSpec_Image := JobTaskCustomDeploySpec_Image taskJobSpec;
             CustomDeployJobSpec_Target := target;
             CustomDeployJobSpec_ClusterName := clusterName;
             CustomDeployJobSpec_Namespace :=
               JobTaskCustomDeploySpec_Namespace taskJobSpec;
             CustomDeployJobSpec_SkipCheckRunStatus :=
               JobTaskCustomDeploySpec_SkipCheckRunStatus taskJobSpec |} in
        mret (job, Some (with_Spec (SpecCustomDeploy spec) jobPreview))
    end
  else
    mret (job, Some (with_Spec (SpecStored (JobTask_Spec job)) jobPreview)).

(** [jobsToJobPreviews]: the jobs as it leaves them and the previews;
    [resp] is the slice it appends to. *)
Fixpoint previews_loop (jobs : list JobTask) (resp : list JobTaskPreview)
  : M (list JobTask * list JobTaskPreview) :=
  match jobs with
  | [] => mret ([], resp)
  | job :: rest =>
      '(job, p) ← preview_job job;
      '(rest, resp) ← previews_loop rest
                        (match p with
                         | Some p => resp ++ [p]
                         | None => resp
                         end);
      mret (job :: rest, resp)
  end.

Definition jobsToJobPreviews (jobs : list JobTask)
  : M (list JobTask * list JobTaskPreview) :=
  previews_loop jobs [].

(** The loop of [GetWorkflowTaskV4] over [task.Stages]. *)
Fixpoint stage_previews (stages : list StageTask) (resp : list StageTaskPreview)
  : M (list StageTaskPreview) :=
  match stages with
  | [] => mret resp
  | stage :: rest =>
      '(_, jobs) ← jobsToJobPreviews (StageTask_Jobs stage);
      stage_previews rest
        (resp ++ [ {| StageTaskPreview_Name := StageTask_Name stage;
                      StageTaskPreview_Status := StageTask_Status stage;
                      StageTaskPreview_StartTime := StageTask_StartTime stage;
                      StageTaskPreview_EndTime := StageTask_EndTime stage;
                      StageTaskPreview_Parallel := StageTask_Parallel stage;
                      StageTaskPreview_Approval := StageTask_Approval stage;
                      StageTaskPreview_Jobs := jobs |} ])
  end.

(** [GetWorkflowTaskV4]. *)
Definition GetWorkflowTaskV4 (workflowName : string) (taskID : Z)
  : M (option WorkflowTaskPreview * option error) :=
  r ← call (fun r => CallFind workflowName taskID
                       (match r with inl err => Some err | inr _ => None end))
      (fun wd => (Find workflowName taskID wd, wd));
  match r with
  | inl err =>
      emit (LogErrorf ("find workflowTaskV4 error: " +:+ Error err));;
      mret (None, Some err)
  | inr task =>
      stages ← stage_previews (WorkflowTask_Stages task) [];
      mret (Some {| WorkflowTaskPreview_TaskID := WorkflowTask_TaskID task;
                    WorkflowTaskPreview_WorkflowName :=
                      WorkflowTask_WorkflowName task;
                    WorkflowTaskPreview_Params := WorkflowTask_Params task;
                    WorkflowTaskPreview_Status := WorkflowTask_Status task;
                    WorkflowTaskPreview_TaskCreator :=
                      WorkflowTask_TaskCreator task;
                    WorkflowTaskPreview_TaskRevoker :=
                      WorkflowTask_TaskRevoker task;
                    WorkflowTaskPreview_CreateTime := WorkflowTask_CreateTime task;
                    WorkflowTaskPreview_StartTime := WorkflowTask_StartTime task;
                    WorkflowTaskPreview_EndTime := WorkflowTask_EndTime task;
                    WorkflowTaskPreview_Stages := stages;
                    WorkflowTaskPreview_ProjectName :=
                      WorkflowTask_ProjectName task;
                    WorkflowTaskPreview_Error := WorkflowTask_Error task;
                    WorkflowTaskPreview_IsRestart := WorkflowTask_IsRestart task |},
            None)
  end.

(** *** Reading a preview *)

(** Whether the spec of a job decodes as the task spec of its type; a job
    of another type has nothing to decode. *)
Definition decodes (job : JobTask) : bool :=
  let jobType := JobTask_JobType job in
  let ok {A} (r : error + A) := match r with inl _ => false | inr _ => true end in
  if String.eqb jobType FreestyleType || String.eqb jobType JobZadigBuild
  then ok (IToi_JobTaskBuildSpec (JobTask_Spec job))
  else if String.eqb jobType JobZadigDeploy
  then ok (IToi_JobTaskDeploySpec (JobTask_Spec job))
  else if String.eqb jobType JobZadigHelmDeploy
  then ok (IToi_JobTaskHelmDeploySpec (JobTask_Spec job))
  else if String.eqb jobType JobPlugin
  then ok (IToi_JobTaskPluginSpec (JobTask_Spec job))
  else if String.eqb jobType JobCustomDeploy
  then ok (IToi_JobTaskCustomDeploySpec (JobTask_Spec job))
  else true.

(** The type a job is shown with: a helm deploy is shown as a deploy. *)
Definition shown_type (jobType : string) : string :=
  if String.eqb jobType JobZadigHelmDeploy
     && negb (String.eqb jobType FreestyleType) then JobZadigDeploy
  else jobType.

(** What a preview copies from its job. *)
Definition copied (job : JobTask) (p : JobTaskPreview) : Prop :=
  JobTaskPreview_Name p = JobTask_Name job
  /\ JobTaskPreview_Status p = JobTask_Status job
  /\ JobTaskPreview_StartTime p = JobTask_StartTime job
  /\ JobTaskPreview_EndTime p = JobTask_EndTime job
  /\ JobTaskPreview_Error p = JobTask_Error job
  /\ JobTaskPreview_JobType p = shown_type (JobTask_JobType job)
  /\ JobTaskPreview_Spec p <> None.

(** The value of the last variable named [key], or the empty string. *)
Definition last_value (key : string) (envs : list KeyVal) : string :=
  default "" (last (KeyVal_Value <$>
                      List.filter (fun arg => String.eqb (KeyVal_Key arg) key) envs)).

(** What a stage preview copies from its stage: its header, and the previews
    of those of its jobs that decode. *)
Definition staged (stage : StageTask) (p : StageTaskPreview) : Prop :=
  StageTaskPreview_Name p = StageTask_Name stage
  /\ StageTaskPreview_Status p = StageTask_Status stage
  /\ StageTaskPreview_StartTime p = StageTask_StartTime stage
  /\ StageTaskPreview_EndTime p = StageTask_EndTime stage
  /\ StageTaskPreview_Parallel p = StageTask_Parallel stage
  /\ StageTaskPreview_Approval p = StageTask_Approval stage
  /\ Forall2 copied (List.filter decodes (StageTask_Jobs stage))
       (StageTaskPreview_Jobs p).

End previews.
End preview.



(** ** [getter]: listing ingresses from the cache *)

Module getter.
Import models.

Record GroupVersionKind : Set := {
  Group : string;
  Kind : string;
  Version : string
}.

(** [unstructured.UnstructuredList]: the kind that is asked for and the
    objects the list call filled in. *)
Record UnstructuredList : Set := {
  UnstructuredList_gvk : GroupVersionKind;
  UnstructuredList_Items : list Doc
}.

(** [labels.Selector]; only [labels.Everything()] is used. *)
Inductive Selector : Set := Everything.

(** The cluster client and the other files of the package.  [Ingress] is
    [extensions.Ingress]; [ListResourceInCache] fills in the list it is
    given from the client's cache. *)
Class Externals := {
  Client : Type;
  Ingress : Type;
  ListResourceInCache : string -> Selector -> UnstructuredList -> Client ->
                        option error * UnstructuredList
}.

Section ingress.
Context `{Externals}.

(** [extensions.IngressList]. *)
Record IngressList : Type := {
  IngressList_Items : list Ingress
}.

Definition SetGroupVersionKind (gvk : GroupVersionKind) (u : UnstructuredList)
  : UnstructuredList :=
  {| UnstructuredList_gvk := gvk;
     UnstructuredList_Items := UnstructuredList_Items u |}.

(** The kind both list functions ask for. *)
Definition ingressGVK (lessThan122 : bool) : GroupVersionKind :=
  let gvk := {| Group := "extensions"; Kind := "Ingress"; Version := "v1beta1" |} in
  if negb lessThan122
  then {| Group := "networking.k8s.io"; Kind := "Ingress"; Version := "v1" |}
  else gvk.

(** [ListIngresses]. *)
Definition ListIngresses (namespace : string) (cl : Client) (lessThan122 : bool)
  : UnstructuredList * option error :=
  let gvk := ingressGVK lessThan122 in
  let u := {| UnstructuredList_gvk := {| Group := ""; Kind := ""; Version := "" |};
              UnstructuredList_Items := [] |} in
  let u := SetGroupVersionKind gvk u in
  let '(err, u) := ListResourceInCache namespace Everything u cl in
  match err with
  | Some err => (u, Some err)
  | None => (u, err)
  end.

(** [ListIngressesFormat]. *)
Definition ListIngressesFormat (namespace : string) (cl : Client)
  (lessThan122 : bool) : list Ingress * option error :=
  let l := {| IngressList_Items := [] |} in
  let gvk := ingressGVK lessThan122 in
  let u := {| UnstructuredList_gvk := {| Group := ""; Kind := ""; Version := "" |};
              UnstructuredList_Items := [] |} in
  let u := SetGroupVersionKind gvk u in
  let '(err, u) := ListResourceInCache namespace Everything u cl in
  match err with
  | Some err => ([], Some err)
  | None =>
      let res := fold_left (fun res item => res ++ [item]) (IngressList_Items l) [] in
      (res, err)
  end.

End ingress.
End getter.


(** ** Scripted worlds

    Concrete instances of the interfaces above, on which the functions run
    by computation: every operation succeeds unless the script names it. *)

Module scripted.
Import models.

#[export] Instance errors_pkg : ErrorsPkg :=
  {| HTTPError_Error := fun _ desc => desc |}.

(** A script: the operations that fail, the docker host the selector
    returns, and the outputs in the pod's termination message. *)
Record Script : Set := {
  failing : list string;
  best_host : string;
  pod_outputs : list jobcontroller.JobOutput
}.

Definition fails (op : string) (w : Script) : option error :=
  if bool_decide (op ∈ failing w) then Some (errorString (op +:+ " failed"))
  else None.

Definition result {A} (op : string) (a : A) (w : Script) : error + A :=
  match fails op w with Some err => inl err | None => inr a end.

#[export] Instance cluster : jobcontroller.Externals := {|
  jobcontroller.World := Script;
  jobcontroller.Client := unit;
  jobcontroller.Clientset := unit;
  jobcontroller.RESTConfig := unit;
  jobcontroller.BatchJob := string;
  jobcontroller.LocalClusterID := "0123456789abcdef12345678";
  jobcontroller.AttachedClusterNamespace := "koderover-agent";
  jobcontroller.MinRequest := "min";
  jobcontroller.config_HubServerAddress := "hub-server:26000";
  jobcontroller.config_Namespace := "zadig";
  jobcontroller.zadigconfig_Namespace := "zadig";
  jobcontroller.krkubeclient_Client := tt;
  jobcontroller.krkubeclient_Clientset := tt;
  jobcontroller.krkubeclient_RESTConfig := tt;
  jobcontroller.getJobName := fun name id => name +:+ "-" +:+ GoStrings.fmt_d id;
  jobcontroller.GetK8sClients := fun _ _ w => (result "GetK8sClients" (tt, tt, tt) w, w);
  jobcontroller.ensureDeleteConfigMap := fun _ _ _ w => (fails "ensureDeleteConfigMap" w, w);
  jobcontroller.createJobConfigMap := fun _ _ _ _ _ w => (fails "createJobConfigMap" w, w);
  jobcontroller.getBaseImage := fun os _ => "job-executor:" +:+ os;
  jobcontroller.buildJob := fun _ _ name _ _ _ w => (result "buildJob" name w, w);
  jobcontroller.BatchJob_set_Namespace := fun j ns => ns +:+ "/" +:+ j;
  jobcontroller.ensureDeleteJob := fun _ _ _ w => (fails "ensureDeleteJob" w, w);
  jobcontroller.waitJobEndWithFile := fun _ _ _ _ _ _ w => (StatusPassed, w);
  jobcontroller.getJobOutput := fun _ _ _ _ w => ((pod_outputs w, fails "getJobOutput" w), w);
  jobcontroller.saveContainerLog := fun _ _ _ _ _ _ _ w => (fails "saveContainerLog" w, w);
  jobcontroller.updater_CreateJob := fun _ _ w => (fails "CreateJob" w, w);
  jobcontroller.GetBestHost := fun _ _ _ w => (best_host w, w);
  jobcontroller.PrepareSteps := fun _ p _ w => ((fails "PrepareSteps" w, p), w);
  jobcontroller.SummarizeSteps := fun _ p _ w => ((fails "SummarizeSteps" w, p), w);
  jobcontroller.yaml_Marshal := fun jc => inr (jobcontroller.JobContext_Name jc);
  jobcontroller.time_Now_Unix := fun _ => 1700000000;
  jobcontroller.IToi_JobTaskBuildSpec := fun _ => inl (errorString "not a build spec")
|}.

(** A freestyle job [build] of task 7 of workflow [demo], with one
    credential and one output. *)
Definition properties (clusterID : string) : JobProperties :=
  {| Timeout := 0; Retry := 0; ResourceRequest := ""; ResReqSpec := DNull;
     ClusterID := clusterID; BuildOS := "focal"; ImageFrom := ""; ImageID := "";
     Namespace := "";
     Envs := [ {| KeyVal_Key := "IMAGE"; KeyVal_Value := "foo:1";
                  KeyVal_IsCredential := false |};
               {| KeyVal_Key := "TOKEN"; KeyVal_Value := "s3cr3t";
                  KeyVal_IsCredential := true |} ];
     CustomEnvs := []; Params := []; Paths := ""; LogFileName := "";
     DockerHost := ""; Registries := []; Cache := DNull; CacheEnable := false;
     CacheDirType := ""; CacheUserDir := "" |}.

Definition controller (clusterID : string) : jobcontroller.FreestyleJobCtl :=
  {| jobcontroller.job :=
       {| JobTask_Name := "build"; JobTask_JobType := "freestyle";
          JobTask_Status := StatusRunning; JobTask_StartTime := 0;
          JobTask_EndTime := 0; JobTask_Error := ""; JobTask_Spec := DNull;
          JobTask_Outputs := [ {| Output_Name := "VERSION";
                                  Output_Description := "" |} ] |};
     jobcontroller.jobName := "demo-7";
     jobcontroller.workflowCtx :=
       {| WorkflowTaskCtx_WorkflowName := "demo";
          WorkflowTaskCtx_Workspace := "/workspace";
          WorkflowTaskCtx_TaskID := 7;
          WorkflowTaskCtx_GlobalContext := ∅ |};
     jobcontroller.kubeclient := None;
     jobcontroller.clientset := None;
     jobcontroller.restConfig := None;
     jobcontroller.paths := "";
     jobcontroller.jobTaskSpec :=
       {| Properties := properties clusterID; Steps := [] |} |}.

Definition start (clusterID : string) (w : Script) : jobcontroller.State :=
  {| jobcontroller.ctl := controller clusterID;
     jobcontroller.world := w;
     jobcontroller.trace := [] |}.

Definition script (failing : list string) : Script :=
  {| failing := failing;
     best_host := "tcp://dind-0.dind:2375";
     pod_outputs := [ {| jobcontroller.JobOutput_Name := "VERSION";
                         jobcontroller.JobOutput_Value := "1.2.3" |} ] |}.

(** The store behind the workflow service: the counter, the tasks that
    were created (newest first) and the operations that fail. *)
Record Store : Type := {
  next_seq : Z;
  tasks : list workflow.StoredTask;
  broken : list string
}.

Definition breaks (op : string) (st : Store) : option error :=
  if bool_decide (op ∈ broken st) then Some (errorString (op +:+ " failed"))
  else None.

Definition has_key (name : string) (id : Z) (t : workflow.StoredTask) : bool :=
  String.eqb name (WorkflowTask_WorkflowName t) && (id =? WorkflowTask_TaskID t).

Definition job_task (job : Job) : JobTask :=
  {| JobTask_Name := Job_Name job; JobTask_JobType := Job_JobType job;
     JobTask_Status := StatusUnset; JobTask_StartTime := 0;
     JobTask_EndTime := 0; JobTask_Error := ""; JobTask_Spec := DNull;
     JobTask_Outputs := [] |}.

(** Rendering, in this script, writes the task into the description. *)
Definition described (text : string) (w : WorkflowV4) : WorkflowV4 :=
  {| WorkflowV4_Name := WorkflowV4_Name w;
     WorkflowV4_KeyVals := WorkflowV4_KeyVals w;
     WorkflowV4_Params := WorkflowV4_Params w;
     WorkflowV4_Stages := WorkflowV4_Stages w;
     WorkflowV4_Project := WorkflowV4_Project w;
     WorkflowV4_Description := text;
     WorkflowV4_CreatedBy := WorkflowV4_CreatedBy w;
     WorkflowV4_CreateTime := WorkflowV4_CreateTime w;
     WorkflowV4_UpdatedBy := WorkflowV4_UpdatedBy w;
     WorkflowV4_UpdateTime := WorkflowV4_UpdateTime w;
     WorkflowV4_MultiRun := WorkflowV4_MultiRun w;
     WorkflowV4_NotificationID := WorkflowV4_NotificationID w |}.

#[export] Instance service : workflow.Externals := {|
  workflow.World := Store;
  workflow.LintWorkflowV4 := fun w =>
    if String.eqb (WorkflowV4_Project w) ""
    then Some (errorString "project should not be empty") else None;
  workflow.IToi_WorkflowV4 := fun w => inr w;
  workflow.IToi_ZadigBuildJobSpec := fun spec =>
    match spec with
    | JobSpecZadigBuild s => inr s
    | _ => inl (errorString "not a build spec")
    end;
  workflow.IToi_FreestyleJobSpec := fun spec =>
    match spec with
    | JobSpecFreestyle s => inr s
    | _ => inl (errorString "not a freestyle spec")
    end;
  workflow.IToi_StepGitSpec := fun spec =>
    match spec with
    | StepSpecGit s => inr s
    | _ => inl (errorString "not a git spec")
    end;
  workflow.WorkflowTaskV4Fmt := fun name => "WorkflowTaskV4:" +:+ name;
  workflow.GetNextSeq := fun _ st =>
    match breaks "GetNextSeq" st with
    | Some err => (inl err, st)
    | None => (inr (next_seq st + 1),
               {| next_seq := next_seq st + 1; tasks := tasks st;
                  broken := broken st |})
    end;
  workflow.Find := fun name id st =>
    match List.find (has_key name id) (tasks st) with
    | Some t => inr t
    | None => inl (errorString "no such task")
    end;
  workflow.RemoveFixedValueMarks := fun w => (None, w);
  workflow.RenderGlobalVariables := fun w id user =>
    (None, described ("task " +:+ GoStrings.fmt_d id +:+ " of " +:+ user) w);
  workflow.ToJobs := fun job _ _ st =>
    (match breaks (Job_Name job) st with
     | Some err => inl err
     | None => inr [job_task job]
     end, st);
  workflow.setManunalBuilds := fun repos _ st =>
    ((breaks "setManunalBuilds" st, repos), st);
  workflow.workflowcontroller_CreateTask := fun t st =>
    match breaks "CreateTask" st with
    | Some err => (Some err, st)
    | None => (None, {| next_seq := next_seq st; tasks := t :: tasks st;
                        broken := broken st |})
    end;
  workflow.workflowcontroller_ApproveStage := fun _ _ _ _ _ _ _ st =>
    (breaks "ApproveStage" st, st);
  workflow.UpdateWebhookCommentForWorkflowV4 := fun _ st =>
    (breaks "UpdateWebhookComment" st, st);
  workflow.UpdateGitCheckForWorkflowV4 := fun _ _ st =>
    (breaks "UpdateGitCheck" st, st);
  workflow.time_Now_Unix := fun _ => 1700000000
|}.

(** The workflow [demo]: a stage [build] with a freestyle job and a skipped
    job, and a stage [notify] whose only job is skipped. *)
Definition plain_job (name : string) (skipped : bool) : Job :=
  {| Job_Name := name; Job_JobType := "plugin"; Job_Skipped := skipped;
     Job_Spec := JobSpecDoc DNull |}.

Definition freestyle_job (name : string) : Job :=
  {| Job_Name := name; Job_JobType := JobFreestyle; Job_Skipped := false;
     Job_Spec := JobSpecFreestyle
       {| FreestyleJobSpec_Properties := None;
          FreestyleJobSpec_Steps :=
            [ {| Step_Name := "clone"; Step_Timeout := 0; Step_StepType := StepGit;
                 Step_Spec := StepSpecGit {| StepGitSpec_Repos := [DString "repo"] |} |} ];
          FreestyleJobSpec_Outputs := [] |} |}.

Definition stage (name : string) (jobs : list Job) : WorkflowStage :=
  {| WorkflowStage_Name := name; WorkflowStage_Parallel := false;
     WorkflowStage_Approval := None; WorkflowStage_Jobs := jobs |}.

Definition demo (stages : list WorkflowStage) : WorkflowV4 :=
  {| WorkflowV4_Name := "demo"; WorkflowV4_KeyVals := []; WorkflowV4_Params := [];
     WorkflowV4_Stages := stages; WorkflowV4_Project := "shop";
     WorkflowV4_Description := ""; WorkflowV4_CreatedBy := "ann";
     WorkflowV4_CreateTime := 0; WorkflowV4_UpdatedBy := "";
     WorkflowV4_UpdateTime := 0; WorkflowV4_MultiRun := false;
     WorkflowV4_NotificationID := "" |}.

Definition demo_stages : list WorkflowStage :=
  [ stage "build" [freestyle_job "compile"; plain_job "lint" true];
    stage "notify" [plain_job "mail" true] ].

Definition store (broken : list string) : Store :=
  {| next_seq := 6; tasks := []; broken := broken |}.

(** The caller holds the workflow at location 1. *)
Definition memory (w : WorkflowV4) : gmap workflow.loc WorkflowV4 := {[ 1%positive := w ]}.

(** A cluster cache: the objects it holds, each with its namespace and
    kind. *)
Definition same_kind (a b : getter.GroupVersionKind) : bool :=
  String.eqb (getter.Group a) (getter.Group b)
  && String.eqb (getter.Kind a) (getter.Kind b)
  && String.eqb (getter.Version a) (getter.Version b).

#[export] Instance cache : getter.Externals := {|
  getter.Client := list (string * getter.GroupVersionKind * Doc);
  getter.Ingress := Doc;
  getter.ListResourceInCache := fun ns _ u cl =>
    (None,
     {| getter.UnstructuredList_gvk := getter.UnstructuredList_gvk u;
        getter.UnstructuredList_Items :=
          omap (fun '(ns', gvk, obj) =>
                  if String.eqb ns ns'
                     && same_kind gvk (getter.UnstructuredList_gvk u)
                  then Some obj else None) cl |})
|}.

Definition networking_v1 : getter.GroupVersionKind :=
  {| getter.Group := "networking.k8s.io"; getter.Kind := "Ingress";
     getter.Version := "v1" |}.

(** A cluster with two ingresses in [prod] and one in [test]. *)
Definition three_ingresses : list (string * getter.GroupVersionKind * Doc) :=
  [ ("prod", networking_v1, DString "shop");
    ("prod", networking_v1, DString "api");
    ("test", networking_v1, DString "shop") ].

(** A decoder of the scripted service: a build spec is stored as the
    object of its variables, a plugin spec as a string, and nothing else
    decodes. *)
Definition env_properties (envs : list KeyVal) : JobProperties :=
  {| Timeout := 0; Retry := 0; ResourceRequest := ""; ResReqSpec := DNull;
     ClusterID := ""; BuildOS := ""; ImageFrom := ""; ImageID := "";
     Namespace := ""; Envs := envs; CustomEnvs := []; Params := []; Paths := "";
     LogFileName := ""; DockerHost := ""; Registries := []; Cache := DNull;
     CacheEnable := false; CacheDirType := ""; CacheUserDir := "" |}.

Definition variable (field : string * Doc) : KeyVal :=
  {| KeyVal_Key := field.1;
     KeyVal_Value := match field.2 with DString v => v | _ => "" end;
     KeyVal_IsCredential := false |}.

#[export] Instance decoders : preview.Decoders := {|
  preview.FreestyleType := "freestyle";
  preview.IToi_JobTaskBuildSpec := fun d =>
    match d with
    | DObject fields =>
        inr {| Properties := env_properties (variable <$> fields); Steps := [] |}
    | _ => inl (errorString "not a build task spec")
    end;
  preview.IToi_JobTaskDeploySpec := fun _ => inl (errorString "not a deploy task spec");
  preview.IToi_JobTaskHelmDeploySpec := fun _ =>
    inl (errorString "not a helm deploy task spec");
  preview.IToi_JobTaskPluginSpec := fun d =>
    match d with
    | DString _ => inr {| preview.JobTaskPluginSpec_Plugin := d |}
    | _ => inl (errorString "not a plugin task spec")
    end;
  preview.IToi_JobTaskCustomDeploySpec := fun _ =>
    inl (errorString "not a custom deploy task spec");
  preview.IToi_StepGitSpec_left := fun _ => {| StepGitSpec_Repos := [] |};
  preview.K8SClusterColl_Get := fun _ _ => inl (errorString "no such cluster")
|}.

(** A stored freestyle job whose variables name the image twice. *)
Definition built_job : JobTask :=
  {| JobTask_Name := "compile"; JobTask_JobType := "freestyle";
     JobTask_Status := StatusPassed; JobTask_StartTime := 10;
     JobTask_EndTime := 20; JobTask_Error := "";
     JobTask_Spec := DObject [ ("IMAGE", DString "shop:1");
                               ("SERVICE", DString "shop");
                               ("IMAGE", DString "shop:2") ];
     JobTask_Outputs := [] |}.

End scripted.


(** * Properties *)

(** ** The freestyle job controller *)

Section controller_properties.
Import models GoStrings jobcontroller.
Context {EP : ErrorsPkg} {EX : Externals}.

Lemma Join_pair (a b sep : string) : Join [a; b] sep = a +:+ sep +:+ b.
Proof. reflexivity. Qed.

Lemma envs_loop_partition (envs : list KeyVal) (plain secret : list string) :
  fold_left
    (fun '(envVars, secretEnvVars) env =>
       if KeyVal_IsCredential env
       then (envVars, secretEnvVars ++ [Join [KeyVal_Key env; KeyVal_Value env] "="])
       else (envVars ++ [Join [KeyVal_Key env; KeyVal_Value env] "="], secretEnvVars))
    envs (plain, secret)
  = (plain ++ map env_entry (List.filter (fun e => negb (KeyVal_IsCredential e)) envs),
     secret ++ map env_entry (List.filter KeyVal_IsCredential envs)).
Proof.
  revert plain secret.
  induction envs as [|env envs IH]; intros plain secret; simpl.
  - by rewrite !app_nil_r.
  - destruct (KeyVal_IsCredential env); simpl; rewrite IH, <- ?app_assoc; reflexivity.
Qed.

Lemma append_loop_map {A B} (f : A -> B) (l : list A) (acc : list B) :
  fold_left (fun acc x => acc ++ [f x]) l acc = acc ++ map f l.
Proof.
  revert acc. induction l as [|x l IH]; intros acc; simpl.
  - by rewrite app_nil_r.
  - by rewrite IH, <- app_assoc.
Qed.

(** C7: [BuildJobExcutorContext] puts the entries of [envs] that are not
    credentials into [Envs] and the credentials into [SecretEnvs], each as
    [KEY=VALUE] and in the order of [envs]; [Outputs] holds exactly the names
    of the job's outputs; steps, workflow name, workspace, task id, paths and
    the job name are carried over unchanged. *)
Theorem C7_job_context_partition (jobTaskSpec : JobTaskBuildSpec) (job : JobTask)
    (workflowCtx : WorkflowTaskCtx) :
  let envs := Envs (Properties jobTaskSpec) in
  let jc := BuildJobExcutorContext jobTaskSpec job workflowCtx in
  JobContext_Envs jc
    = map env_entry (List.filter (fun e => negb (KeyVal_IsCredential e)) envs)
  /\ JobContext_SecretEnvs jc
    = map env_entry (List.filter KeyVal_IsCredential envs)
  /\ JobContext_Outputs jc = map Output_Name (JobTask_Outputs job)
  /\ JobContext_Steps jc = Steps jobTaskSpec
  /\ JobContext_WorkflowName jc = WorkflowTaskCtx_WorkflowName workflowCtx
  /\ JobContext_Workspace jc = WorkflowTaskCtx_Workspace workflowCtx
  /\ JobContext_TaskID jc = WorkflowTaskCtx_TaskID workflowCtx
  /\ JobContext_Paths jc = Paths (Properties jobTaskSpec)
  /\ JobContext_Name jc = JobTask_Name job.
Proof.
  intros envs jc. subst jc. unfold BuildJobExcutorContext.
  fold envs. rewrite envs_loop_partition, append_loop_map. simpl.
  repeat split; reflexivity.
Qed.

Ltac run_step :=
  unfold mbind, M_bind, mret, M_ret, call, emit, assign, this, peek, fail_with in *;
  simpl in *.

Lemma write_outputs_spec (jobname : string) (outputs : list JobOutput) (s : State) :
  let s' := (write_outputs jobname outputs s).2 in
  trace s' = rev (map (fun o => CallGlobalContextSet
                                  (output_key jobname (JobOutput_Name o))
                                  (JobOutput_Value o)) outputs) ++ trace s
  /\ world s' = world s
  /\ job (ctl s') = job (ctl s)
  /\ jobTaskSpec (ctl s') = jobTaskSpec (ctl s)
  /\ kubeclient (ctl s') = kubeclient (ctl s)
  /\ WorkflowTaskCtx_WorkflowName (workflowCtx (ctl s'))
     = WorkflowTaskCtx_WorkflowName (workflowCtx (ctl s))
  /\ WorkflowTaskCtx_TaskID (workflowCtx (ctl s'))
     = WorkflowTaskCtx_TaskID (workflowCtx (ctl s))
  /\ WorkflowTaskCtx_GlobalContext (workflowCtx (ctl s'))
     = fold_left (fun m o => <[output_key jobname (JobOutput_Name o)
                               := JobOutput_Value o]> m)
         outputs (WorkflowTaskCtx_GlobalContext (workflowCtx (ctl s))).
Proof.
  revert s. induction outputs as [|o outputs IH]; intros s.
  - simpl. repeat split; reflexivity.
  - cbn [write_outputs]. run_step.
    match goal with |- context [write_outputs _ _ ?s1] => specialize (IH s1) end.
    simpl in IH. destruct IH as (Ht & Hw & Hj & Hs & Hk & Hn & Hi & Hg).
    rewrite Ht, Hw, Hj, Hs, Hk, Hn, Hi, Hg. simpl.
    rewrite <- app_assoc. simpl. repeat split; reflexivity.
Qed.

Lemma context_writes_app (a b : list Event) :
  context_writes (a ++ b) = context_writes b ++ context_writes a.
Proof. unfold context_writes. by rewrite rev_app_distr, omap_app. Qed.

Lemma context_writes_sets (jobname : string) (outputs : list JobOutput) :
  context_writes (rev (map (fun o => CallGlobalContextSet
                                  (output_key jobname (JobOutput_Name o))
                                  (JobOutput_Value o)) outputs))
  = map (fun o => (output_key jobname (JobOutput_Name o), JobOutput_Value o)) outputs.
Proof.
  unfold context_writes. rewrite rev_involutive.
  induction outputs as [|o outputs IH]; [done|]. cbn. f_equal. exact IH.
Qed.

Lemma context_writes_cons (e : Event) (tr : list Event) :
  context_writes (e :: tr)
  = context_writes tr
    ++ match e with CallGlobalContextSet k v => [(k, v)] | _ => [] end.
Proof.
  change (e :: tr) with ([e] ++ tr). rewrite context_writes_app.
  f_equal. by destruct e.
Qed.

Lemma fold_left_map {A B C} (f : C -> B -> C) (g : A -> B) (l : list A) (c : C) :
  fold_left f (map g l) c = fold_left (fun c a => f c (g a)) l c.
Proof. revert c. induction l as [|a l IH]; intros c; simpl; [done|]. apply IH. Qed.

(** Run [write_outputs] and keep what [write_outputs_spec] says of its
    final state. *)
Ltac run_write_outputs :=
  match goal with
  | |- context [write_outputs ?n ?o ?s0] =>
      let Hw := fresh "Hw" in
      pose proof (write_outputs_spec n o s0) as Hw;
      destruct (write_outputs n o s0) as [[] ?s1];
      simpl in Hw;
      destruct Hw as (?Ht & ?Hw & ?Hj & ?Hs & ?Hk & ?Hn & ?Hi & ?Hg)
  end.

(** C6: the writes that [complete] makes to the variable context are, in
    order, one per output that [getJobOutput] read from the pod, with key
    ["workflow." + job_name + "." + output_name] and the output's value; the
    context it leaves is the one it found with these entries inserted. *)
Theorem C6_output_key (c : FreestyleJobCtl) (w : World) :
  let outputs := (getJobOutput (Namespace (Properties (jobTaskSpec c)))
                    (JobTask_Name (job c)) (jobLabelOf c) (kubeclient c) w).1.1 in
  let s' := (complete (init c w)).2 in
  let writes := map (fun o => (output_key (JobTask_Name (job c)) (JobOutput_Name o),
                               JobOutput_Value o)) outputs in
  context_writes (trace s') = writes
  /\ WorkflowTaskCtx_GlobalContext (workflowCtx (ctl s'))
     = fold_left (fun m kv => <[kv.1 := kv.2]> m) writes
         (WorkflowTaskCtx_GlobalContext (workflowCtx c)).
Proof.
  cbv zeta. unfold complete, complete_body, init. run_step.
  destruct (getJobOutput _ _ _ _ w) as [[outputs err] w1]. simpl.
  rewrite fold_left_map. simpl.
  destruct err; simpl; run_write_outputs;
    destruct (saveContainerLog _ _ _ _ _ _ _ _) as [[err2|] w2]; simpl;
    try (destruct (SummarizeSteps _ _ _ _) as [[[err3|] p3] w3]; simpl);
    rewrite ?context_writes_cons, ?Ht, ?context_writes_app, ?context_writes_sets,
      ?context_writes_cons, ?Hg;
    simpl; rewrite ?app_nil_r; split; reflexivity.
Qed.



Lemma elem_of_output_writes (e : Event) (jobname : string) (outputs : list JobOutput) :
  e ∈ rev (map (fun o => CallGlobalContextSet
                           (output_key jobname (JobOutput_Name o))
                           (JobOutput_Value o)) outputs) ->
  exists k v, e = CallGlobalContextSet k v.
Proof.
  rewrite list_elem_of_In, <- in_rev, in_map_iff.
  intros (o & <- & _). eauto.
Qed.

Lemma summaries_output_writes (jobname : string) (outputs : list JobOutput) :
  summaries (rev (map (fun o => CallGlobalContextSet
                           (output_key jobname (JobOutput_Name o))
                           (JobOutput_Value o)) outputs)) = [].
Proof.
  unfold summaries. induction outputs as [|o outputs IH]; [done|].
  simpl. rewrite omap_app, IH. reflexivity.
Qed.

Lemma cleanups_output_writes (jobname : string) (outputs : list JobOutput) :
  cleanups (rev (map (fun o => CallGlobalContextSet
                           (output_key jobname (JobOutput_Name o))
                           (JobOutput_Value o)) outputs)) = [].
Proof.
  unfold cleanups. induction outputs as [|o outputs IH]; [done|].
  simpl. rewrite omap_app, IH. reflexivity.
Qed.

(** Split a hypothesis [e ∈ tr] over the events of a trace that is written
    out, leaving the cases that are not absurd. *)
Ltac split_elem H :=
  repeat first
    [ apply elem_of_cons in H as [H|H]
    | apply elem_of_app in H as [H|H]
    | apply elem_of_nil in H; destruct H
    | apply elem_of_output_writes in H as (? & ? & H) ];
  try discriminate H.

(** C3, as the code has it: when shipping the container logs fails in
    [complete], the error is logged and stored in the job's [Error], the
    job's status is left as it was, [complete] returns at once, so that
    [SummarizeSteps] is not called, and the deferred cleanup is still
    scheduled. *)
Theorem C3_log_ship_failure_ends_complete (c : FreestyleJobCtl) (w : World)
    (ns cid wn jn : string) (tid : Z) (err : error) :
  let s' := (complete (init c w)).2 in
  CallSaveContainerLog ns cid wn jn tid (Some err) ∈ trace s' ->
  LogError (Error err) ∈ trace s'
  /\ JobTask_Error (job (ctl s')) = Error err
  /\ JobTask_Status (job (ctl s')) = JobTask_Status (job c)
  /\ summaries (trace s') = []
  /\ cleanups (trace s')
     = [(Namespace (Properties (jobTaskSpec c)), jobLabelOf c)].
Proof.
  cbv zeta. destruct (complete (init c w)) as [[] s'] eqn:E. simpl.
  revert E. unfold complete, complete_body, init. run_step.
  destruct (getJobOutput _ _ _ _ w) as [[outputs err1] w1]. simpl.
  destruct err1; simpl; run_write_outputs;
    destruct (saveContainerLog _ _ _ _ _ _ _ _) as [[err2|] w2]; simpl;
    try (destruct (SummarizeSteps _ _ _ _) as [[[err3|] p3] w3]; simpl);
    intros [= <-]; simpl; rewrite ?Ht, ?Hj, ?Hs; simpl; intros Hin;
    split_elem Hin.
  all: injection Hin as -> -> -> -> -> ->.
  all: unfold summaries, cleanups; simpl; rewrite ?omap_app.
  all: fold (summaries (rev (map (fun o => CallGlobalContextSet
         (output_key (JobTask_Name (job c)) (JobOutput_Name o))
         (JobOutput_Value o)) outputs))).
  all: fold (cleanups (rev (map (fun o => CallGlobalContextSet
         (output_key (JobTask_Name (job c)) (JobOutput_Name o))
         (JobOutput_Value o)) outputs))).
  all: rewrite ?summaries_output_writes, ?cleanups_output_writes; simpl.
  all: repeat split; try reflexivity.
  all: apply elem_of_cons; right; apply elem_of_cons; left; reflexivity.
Qed.

Lemma prepare_quiet : quiet prepare.
Proof.
  intros s. unfold prepare. run_step.
  repeat (case_match; simplify_eq/=); split; reflexivity.
Qed.

Lemma run_launch_quiet : quiet run_launch.
Proof.
  intros s. unfold run_launch. run_step.
  repeat (case_match; simplify_eq/=); split; reflexivity.
Qed.

Lemma run_quiet : quiet run.
Proof.
  intros s. unfold run. run_step.
  case_match; simplify_eq/=.
  - match goal with |- context [run_launch ?s1] =>
      destruct (run_launch_quiet s1) as [-> ->] end.
    split; reflexivity.
  - repeat (case_match; simplify_eq/=); try (split; reflexivity).
    match goal with |- context [run_launch ?s1] =>
      destruct (run_launch_quiet s1) as [-> ->] end.
    split; reflexivity.
Qed.

Lemma wait_quiet : quiet wait.
Proof.
  intros s. unfold wait. run_step.
  repeat (case_match; simplify_eq/=); split; reflexivity.
Qed.

Lemma wait_Namespace (s : State) :
  Namespace (Properties (jobTaskSpec (ctl (wait s).2)))
  = Namespace (Properties (jobTaskSpec (ctl s))).
Proof.
  unfold wait. run_step. repeat (case_match; simplify_eq/=); reflexivity.
Qed.

Lemma complete_cleanups (s : State) :
  cleanups (trace (complete s).2)
  = (Namespace (Properties (jobTaskSpec (ctl s))), jobLabelOf (ctl s))
    :: cleanups (trace s).
Proof.
  destruct (complete s) as [[] s'] eqn:E. simpl.
  revert E. unfold complete, complete_body. run_step.
  destruct (getJobOutput _ _ _ _ _) as [[outputs err1] w1]. simpl.
  destruct err1; simpl; run_write_outputs;
    destruct (saveContainerLog _ _ _ _ _ _ _ _) as [[err2|] w2]; simpl;
    try (destruct (SummarizeSteps _ _ _ _) as [[[err3|] p3] w3]; simpl);
    intros [= <-]; simpl; rewrite ?Ht, ?Hs; simpl;
    unfold cleanups; simpl; rewrite ?omap_app;
    fold (cleanups (rev (map (fun o => CallGlobalContextSet
         (output_key (JobTask_Name (job (ctl s))) (JobOutput_Name o))
         (JobOutput_Value o)) outputs)));
    rewrite ?cleanups_output_writes; reflexivity.
Qed.

(** C1, as the code has it: [Run] reaches [complete], and with it the
    scheduling of the cleanup, exactly when [prepare] and [run] both returned
    no error; then the cleanup is scheduled once, whatever [complete] meets.
    When [prepare] or [run] fails, [Run] returns in the state that phase
    left: no later phase runs and no cleanup is scheduled. *)
Theorem C1_cleanup_only_after_prepare_and_run (c : FreestyleJobCtl) (w : World) :
  let p := prepare (init c w) in
  let r := run p.2 in
  let s' := (Run (init c w)).2 in
  match p.1, r.1 with
  | None, None =>
      cleanups (trace s')
      = [(Namespace (Properties (jobTaskSpec (ctl r.2))), jobLabelOf c)]
  | Some _, _ => s' = p.2 /\ cleanups (trace s') = []
  | None, Some _ => s' = r.2 /\ cleanups (trace s') = []
  end.
Proof.
  cbv zeta. unfold Run. unfold mbind, M_bind.
  pose proof (prepare_quiet (init c w)) as [Hp1 Hp2].
  destruct (prepare (init c w)) as [perr s1]. simpl in *.
  destruct perr as [perr|]; simpl.
  { split; [reflexivity|]. exact Hp1. }
  pose proof (run_quiet s1) as [Hr1 Hr2].
  destruct (run s1) as [rerr s2]. simpl in *.
  destruct rerr as [rerr|]; simpl.
  { split; [reflexivity|]. by rewrite Hr1. }
  pose proof (wait_quiet s2) as [Hw1 Hw2].
  pose proof (wait_Namespace s2) as Hw3.
  destruct (wait s2) as [[] s3]. simpl in *.
  rewrite complete_cleanups, Hw1, Hr1, Hp1, Hw2, Hr2, Hp2, Hw3. reflexivity.
Qed.

Lemma Contains_Index (s substr : string) :
  Contains s substr = true <-> exists i, Index s substr = Some i.
Proof.
  unfold Contains. destruct (Index s substr); split; eauto; try done.
  by intros [? ?].
Qed.

(** C2, where the code departs from it: on the local cluster (cluster id
    empty or [LocalClusterID]) a docker host that already contains the
    process namespace is not left unchanged: [run] stores the empty
    string. *)
Theorem C2_local_host_with_namespace_is_cleared (clusterID host : string) :
  clusterID = "" \/ clusterID = LocalClusterID ->
  Contains host config_Namespace = true ->
  rewriteDockerHost clusterID host = "".
Proof.
  intros Hlocal Hns. unfold rewriteDockerHost. rewrite Hns. simpl.
  destruct Hlocal as [-> | ->]; simpl.
  - reflexivity.
  - rewrite String.eqb_refl. simpl. rewrite andb_false_r, orb_true_r.
    reflexivity.
Qed.

End controller_properties.

(** *** The controller on scripted worlds *)

Section controller_scenarios.
Import models GoStrings jobcontroller scripted.

(** C1 as it is stated fails: [updater.CreateJob] fails after the configmap
    was created; the job is failed, [complete] does not run and no cleanup
    is scheduled. *)
Lemma C1_counterexample_failed_run_skips_complete :
  let s' := (Run (start "" (script ["CreateJob"]))).2 in
  JobTask_Status (job (ctl s')) = StatusFailed
  /\ JobTask_Error (job (ctl s')) = "create job error: CreateJob failed"
  /\ configmaps (trace s') = [("zadig", "demo-7", None)]
  /\ log_ships (trace s') = []
  /\ cleanups (trace s') = [].
Proof. vm_compute. repeat split. Qed.

(** The same when [prepare] fails. *)
Example failed_prepare_skips_complete :
  let s' := (Run (start "" (script ["PrepareSteps"]))).2 in
  JobTask_Status (job (ctl s')) = StatusFailed
  /\ trace s' = [LogError "PrepareSteps failed";
                 CallPrepareSteps (Some (errorString "PrepareSteps failed"))].
Proof. vm_compute. repeat split. Qed.

(** C3 as it is stated fails: shipping the logs fails and [SummarizeSteps]
    is not called. *)
Lemma C3_counterexample_log_ship_failure_skips_summarization :
  let s' := (Run (start "" (script ["saveContainerLog"]))).2 in
  log_ships (trace s') = [Some (errorString "saveContainerLog failed")]
  /\ summaries (trace s') = []
  /\ JobTask_Error (job (ctl s')) = "saveContainerLog failed".
Proof. vm_compute. repeat split. Qed.

(** With no failure the steps are summarized. *)
Example summarization_after_log_ship :
  let s' := (Run (start "" (script []))).2 in
  log_ships (trace s') = [None] /\ summaries (trace s') = [None].
Proof. vm_compute. repeat split. Qed.

Lemma C3_witness_log_ship_failure :
  let c := controller "remote-1" in
  let s' := (complete (init c (script ["saveContainerLog"]))).2 in
  LogError "saveContainerLog failed" ∈ trace s'
  /\ JobTask_Error (job (ctl s')) = "saveContainerLog failed"
  /\ JobTask_Status (job (ctl s')) = StatusRunning
  /\ summaries (trace s') = []
  /\ cleanups (trace s') = [("", jobLabelOf c)].
Proof.
  apply (C3_log_ship_failure_ends_complete (EX := cluster) (controller "remote-1")
           (script ["saveContainerLog"]) "" "remote-1" "demo" "build" 7
           (errorString "saveContainerLog failed")).
  vm_compute. repeat constructor.
Defined.

Lemma C2_witness_local_host_cleared :
  rewriteDockerHost "" "tcp://dind-0.dind.zadig:2375" = "".
Proof.
  apply (C2_local_host_with_namespace_is_cleared (EX := cluster)).
  - left. reflexivity.
  - vm_compute. reflexivity.
Defined.

(** [run] on the local cluster: a host without the namespace gets it; a
    host that has it is replaced by the empty string, so rewriting what the
    first pass gave does not give it back. *)
Example run_clears_local_docker_host :
  let with_host host := {| failing := []; best_host := host; pod_outputs := [] |} in
  let stored host :=
    DockerHost (Properties (jobTaskSpec (ctl (Run (start "" (with_host host))).2))) in
  stored "tcp://dind-0.dind:2375" = "tcp://dind-0.dind.zadig:2375"
  /\ stored "tcp://dind-0.dind.zadig:2375" = ""
  /\ rewriteDockerHost "" (rewriteDockerHost "" "tcp://dind-0.dind:2375") = "".
Proof. vm_compute. repeat split. Qed.

(** On a remote cluster the namespace is added, or the process namespace
    replaced. *)
Example run_rewrites_remote_docker_host :
  rewriteDockerHost "remote-1" "tcp://dind-0.dind:2375"
  = "tcp://dind-0.dind.koderover-agent:2375"
  /\ rewriteDockerHost "remote-1" "tcp://dind-0.dind.zadig:2375"
     = "tcp://dind-0.dind.koderover-agent:2375".
Proof. vm_compute. repeat split. Qed.

End controller_scenarios.


(** ** The workflow task service *)

Section service_properties.
Import models GoStrings workflow.
Context {EP : ErrorsPkg} {EX : Externals}.

Ltac exec :=
  unfold mbind, M_bind, mret, M_ret, call, emit, peek, itoi, load, store,
    store_job, alloc, followed in *;
  simpl in *.

Lemma create_calls_app (a b : list Event) :
  create_calls (a ++ b) = create_calls a ++ create_calls b.
Proof. apply omap_app. Qed.

Lemma counter_calls_app (a b : list Event) :
  counter_calls (a ++ b) = counter_calls a ++ counter_calls b.
Proof. apply omap_app. Qed.

Lemma failures_app (a b : list Event) :
  failures (a ++ b) = failures a ++ failures b.
Proof. apply omap_app. Qed.

Lemma conversions_app (a b : list Event) :
  conversions (a ++ b) = conversions a ++ conversions b.
Proof. apply omap_app. Qed.

Lemma step_effects_refl (workflow : loc) (s : State) :
  step_effects workflow s s [].
Proof. repeat split; reflexivity. Qed.

Lemma step_effects_trans (workflow : loc) (s1 s2 s3 : State) (evs1 evs2 : list Event) :
  step_effects workflow s1 s2 evs1 ->
  step_effects workflow s2 s3 evs2 ->
  step_effects workflow s1 s3 (evs2 ++ evs1).
Proof.
  intros (Ht1 & Hh1 & Hc1 & Hn1) (Ht2 & Hh2 & Hc2 & Hn2).
  repeat split.
  - by rewrite Ht2, Ht1, app_assoc.
  - intros p Hp. by rewrite Hh2, Hh1.
  - by rewrite create_calls_app, Hc1, Hc2.
  - by rewrite counter_calls_app, Hn1, Hn2.
Qed.

Lemma builds_loop_spec (builds : list ServiceAndBuild) (s : State) :
  exists evs, setter_effects s (builds_loop builds s).2 evs
                (match (builds_loop builds s).1 with
                 | inl e => Some e | inr _ => None end).
Proof.
  revert s. induction builds as [|build rest IH]; intros s.
  - exists []. repeat split; reflexivity.
  - cbn [builds_loop]. exec.
    destruct (setManunalBuilds _ _ (world s)) as [[[err|] repos] w1]; simpl.
    + eexists [_]. repeat split; reflexivity.
    + match goal with |- context [builds_loop rest ?s1] =>
        destruct (IH s1) as (evs & Ht & Hh & Hc & Hn & Hv & Hf);
        destruct (builds_loop rest s1) as [[e|rest'] s2] end;
      simpl in *; exists (evs ++ [CallSetManunalBuilds None]);
      (repeat split; [ by rewrite Ht, <- app_assoc | done
                     | by rewrite create_calls_app, Hc
                     | by rewrite counter_calls_app, Hn
                     | by rewrite conversions_app, Hv
                     | by rewrite failures_app, Hf ]).
Qed.

Ltac setter_split Ht Hc Hn Hv Hf :=
  repeat split;
  [ by rewrite ?Ht, <- ?app_assoc | done
  | by rewrite ?create_calls_app, ?Hc
  | by rewrite ?counter_calls_app, ?Hn
  | by rewrite ?conversions_app, ?Hv
  | by rewrite ?failures_app, ?Hf ].

Lemma steps_loop_spec (steps : list Step) (s : State) :
  exists evs, setter_effects s (steps_loop steps s).2 evs
                (match (steps_loop steps s).1 with
                 | inl e => Some e | inr _ => None end).
Proof.
  revert s. induction steps as [|step rest IH]; intros s.
  - exists []. repeat split; reflexivity.
  - cbn [steps_loop]. destruct (negb _).
    + exec. destruct (IH s) as (evs & Ht & Hh & Hc & Hn & Hv & Hf).
      destruct (steps_loop rest s) as [[e|rest'] s2]; simpl in *;
        exists evs; repeat split; done.
    + exec. destruct (IToi_StepGitSpec _) as [err|stepSpec]; simpl.
      { eexists [_]. repeat split; reflexivity. }
      destruct (setManunalBuilds _ _ (world s)) as [[[err|] repos] w1]; simpl.
      { eexists [_; _]. repeat split; reflexivity. }
      match goal with |- context [steps_loop rest ?s1] =>
        destruct (IH s1) as (evs & Ht & Hh & Hc & Hn & Hv & Hf);
        destruct (steps_loop rest s1) as [[e|rest'] s2] end;
      simpl in *;
      exists (evs ++ [CallSetManunalBuilds None; CallIToi ToStepGitSpec None]);
      setter_split Ht Hc Hn Hv Hf.
Qed.

Lemma setZadigBuildRepos_spec (job : Job) (s : State) :
  let r := setZadigBuildRepos job s in
  (exists evs, setter_effects s r.2 evs r.1.1)
  /\ prepared job r.1.2
  /\ (r.1.1 <> None -> r.1.2 = job).
Proof.
  cbv zeta. unfold setZadigBuildRepos. exec.
  destruct (IToi_ZadigBuildJobSpec _) as [err|spec]; simpl.
  { split; [|by repeat split]. eexists [_]. repeat split; reflexivity. }
  match goal with |- context [builds_loop ?b ?s1] =>
    destruct (builds_loop_spec b s1) as (evs & Ht & Hh & Hc & Hn & Hv & Hf);
    destruct (builds_loop b s1) as [[e|builds] s2] end;
  simpl in *.
  all: split; [|by repeat split].
  all: exists (evs ++ [CallIToi ToZadigBuildJobSpec None]);
    setter_split Ht Hc Hn Hv Hf.
Qed.

Lemma setFreeStyleRepos_spec (job : Job) (s : State) :
  let r := setFreeStyleRepos job s in
  (exists evs, setter_effects s r.2 evs r.1.1)
  /\ prepared job r.1.2
  /\ (r.1.1 <> None -> r.1.2 = job).
Proof.
  cbv zeta. unfold setFreeStyleRepos. exec.
  destruct (IToi_FreestyleJobSpec _) as [err|spec]; simpl.
  { split; [|by repeat split]. eexists [_]. repeat split; reflexivity. }
  match goal with |- context [steps_loop ?b ?s1] =>
    destruct (steps_loop_spec b s1) as (evs & Ht & Hh & Hc & Hn & Hv & Hf);
    destruct (steps_loop b s1) as [[e|steps] s2] end;
  simpl in *.
  all: split; [|by repeat split].
  all: exists (evs ++ [CallIToi ToFreestyleJobSpec None]);
    setter_split Ht Hc Hn Hv Hf.
Qed.

Lemma bind_run {A B} (m : M A) (k : A -> M B) (s s1 : State) (a : A) :
  m s = (a, s1) -> (m ≫= k) s = k a s1.
Proof. intros E. unfold mbind, M_bind. by rewrite E. Qed.

Lemma prepared_refl (job : Job) : prepared job job.
Proof. by repeat split. Qed.

Lemma prepared_trans (a b c : Job) : prepared a b -> prepared b c -> prepared a c.
Proof.
  intros (? & ? & ?) (? & ? & ?). repeat split; congruence.
Qed.

Lemma convert_job_spec (workflow : loc) (nextTaskID : Z) (si ji : nat)
    (job : Job) (s : State) :
  let r := convert_job workflow nextTaskID si ji job s in
  exists evs, step_effects workflow s r.2 evs
    /\ match r.1 with
       | inl e => exists e', e = AddDesc ErrCreateTask (Error e')
                             /\ failures evs = [e'] /\ conversions evs = []
       | inr jobs => failures evs = []
                     /\ exists job', prepared job job'
                                     /\ conversions evs = [(job', jobs)]
       end.
Proof.
  cbv zeta. unfold convert_job.
  (* the preparation of a build job *)
  assert (exists evs1 s1 r1,
    (if String.eqb (Job_JobType job) JobZadigBuild
     then
       '(err, job) ← setZadigBuildRepos job;
       store_job workflow si ji job;;
       match err with
       | Some err =>
           emit (LogErrorf ("zadig build job set build info error: "
                            +:+ Error err));;
           mret (inl (AddDesc ErrCreateTask (Error err)))
       | None => mret (inr job)
       end
     else mret (inr job)) s = (r1, s1)
    /\ step_effects workflow s s1 evs1 /\ conversions evs1 = []
    /\ match r1 with
       | inl e => exists e', e = AddDesc ErrCreateTask (Error e')
                             /\ failures evs1 = [e']
       | inr job1 => failures evs1 = [] /\ prepared job job1
       end) as (evs1 & s1 & r1 & E1 & Hs1 & Hv1 & Hr1).
  { destruct (String.eqb _ JobZadigBuild).
    - pose proof (setZadigBuildRepos_spec job s) as
        ((evs & Ht & Hh & Hc & Hn & Hv & Hf) & Hp & _).
      exec. destruct (setZadigBuildRepos job s) as [[[err|] job1] s1]; simpl in *.
      + eexists (LogErrorf _ :: evs), _, _. split; [reflexivity|]. simpl.
        repeat split; simpl; try done.
        * by rewrite Ht.
        * intros p Hp'. by rewrite lookup_insert_ne, Hh.
        * eexists. split; [reflexivity|]. exact Hf.
      + eexists evs, _, _. split; [reflexivity|]. simpl.
        repeat split; simpl; try done; try apply Hp.
        intros p Hp'. by rewrite lookup_insert_ne, Hh.
    - exists [], s, (inr job). split; [reflexivity|].
      split; [apply step_effects_refl|]. simpl.
      repeat split; try done.
      }
  rewrite (bind_run _ _ _ _ _ E1). clear E1.
  destruct r1 as [e|job1]; simpl.
  { exists evs1. split; [exact Hs1|]. destruct Hr1 as (e' & -> & Hf).
    simpl. exists e'. done. }
  destruct Hr1 as [Hf1 Hp1].
  (* the preparation of a freestyle job *)
  assert (exists evs2 s2 r2,
    (if String.eqb (Job_JobType job1) JobFreestyle
     then
       '(err, job) ← setFreeStyleRepos job1;
       store_job workflow si ji job;;
       match err with
       | Some err =>
           emit (LogErrorf ("freestyle job set build info error: "
                            +:+ Error err));;
           mret (inl (AddDesc ErrCreateTask (Error err)))
       | None => mret (inr job)
       end
     else mret (inr job1)) s1 = (r2, s2)
    /\ step_effects workflow s1 s2 evs2 /\ conversions evs2 = []
    /\ match r2 with
       | inl e => exists e', e = AddDesc ErrCreateTask (Error e')
                             /\ failures evs2 = [e']
       | inr job2 => failures evs2 = [] /\ prepared job1 job2
       end) as (evs2 & s2 & r2 & E2 & Hs2 & Hv2 & Hr2).
  { destruct (String.eqb _ JobFreestyle).
    - pose proof (setFreeStyleRepos_spec job1 s1) as
        ((evs & Ht & Hh & Hc & Hn & Hv & Hf) & Hp & _).
      exec. destruct (setFreeStyleRepos job1 s1) as [[[err|] job2] s2]; simpl in *.
      + eexists (LogErrorf _ :: evs), _, _. split; [reflexivity|]. simpl.
        repeat split; simpl; try done.
        * by rewrite Ht.
        * intros p Hp'. by rewrite lookup_insert_ne, Hh.
        * eexists. split; [reflexivity|]. exact Hf.
      + eexists evs, _, _. split; [reflexivity|]. simpl.
        repeat split; simpl; try done; try apply Hp.
        intros p Hp'. by rewrite lookup_insert_ne, Hh.
    - exists [], s1, (inr job1). split; [reflexivity|].
      split; [apply step_effects_refl|]. simpl.
      repeat split; try done. }
  rewrite (bind_run _ _ _ _ _ E2). clear E2.
  pose proof (step_effects_trans _ _ _ _ _ _ Hs1 Hs2) as Hs12.
  destruct r2 as [e|job2]; simpl.
  { exists (evs2 ++ evs1). split; [exact Hs12|].
    destruct Hr2 as (e' & -> & Hf). simpl. exists e'.
    rewrite failures_app, conversions_app, Hf, Hf1, Hv1, Hv2. done. }
  destruct Hr2 as [Hf2 Hp2].
  exec.
  destruct (ToJobs job2 _ nextTaskID (world s2)) as [[err|jobs] w3]; simpl.
  - eexists (LogErrorf _ :: CallToJobs job2 nextTaskID (inl err) :: evs2 ++ evs1).
    destruct Hs12 as (Ht & Hh & Hc & Hn).
    split.
    + repeat split; simpl; try done. by rewrite Ht.
    + exists err. simpl.
      rewrite failures_app, conversions_app, Hf2, Hf1, Hv1, Hv2. done.
  - exists (CallToJobs job2 nextTaskID (inr jobs) :: evs2 ++ evs1).
    destruct Hs12 as (Ht & Hh & Hc & Hn).
    split.
    + repeat split; simpl; try done. by rewrite Ht.
    + simpl. rewrite failures_app, conversions_app, Hf2, Hf1, Hv1, Hv2.
      split; [done|]. exists job2. split; [|done].
      eapply prepared_trans; eauto.
Qed.

Lemma jobs_loop_spec (workflow : loc) (nextTaskID : Z) (si : nat)
    (jobs : list Job) (ji : nat) (stageJobs : list JobTask) (s : State) :
  let r := jobs_loop workflow nextTaskID si ji jobs stageJobs s in
  exists evs, step_effects workflow s r.2 evs
    /\ match r.1 with
       | inl e => exists e', e = AddDesc ErrCreateTask (Error e')
                             /\ failures evs = [e']
       | inr out =>
           failures evs = []
           /\ exists convs : list (Job * list JobTask),
                conversions evs = rev convs
                /\ Forall2 prepared
                     (List.filter (fun job => negb (Job_Skipped job)) jobs)
                     convs.*1
                /\ out = stageJobs ++ concat convs.*2
       end.
Proof.
  cbv zeta. revert ji stageJobs s.
  induction jobs as [|job rest IH]; intros ji stageJobs s.
  - exists []. split; [apply step_effects_refl|]. simpl.
    split; [done|]. exists []. simpl. by rewrite app_nil_r.
  - cbn [jobs_loop List.filter]. destruct (Job_Skipped job); simpl.
    { apply IH. }
    destruct (convert_job_spec workflow nextTaskID si ji job s)
      as (evs1 & Hs1 & Hr1).
    destruct (convert_job workflow nextTaskID si ji job s) as [r1 s1] eqn:E1.
    rewrite (bind_run _ _ _ _ _ E1). simpl in Hs1, Hr1.
    destruct r1 as [e|jobs1]; simpl.
    { exists evs1. split; [exact Hs1|]. destruct Hr1 as (e' & -> & Hf & _).
      exists e'. done. }
    destruct Hr1 as (Hf1 & job' & Hp & Hv1).
    destruct (IH (S ji) (stageJobs ++ jobs1) s1) as (evs2 & Hs2 & Hr2).
    exists (evs2 ++ evs1). split; [eapply step_effects_trans; eauto|].
    destruct (jobs_loop _ _ _ _ rest _ s1) as [[e|out] s2]; simpl in *.
    + destruct Hr2 as (e' & -> & Hf2). exists e'.
      by rewrite failures_app, Hf1, Hf2.
    + destruct Hr2 as (Hf2 & convs & Hv2 & HF & ->).
      split; [by rewrite failures_app, Hf1, Hf2|].
      exists ((job', jobs1) :: convs). simpl.
      rewrite conversions_app, Hv1, Hv2, <- app_assoc.
      repeat split; try done. by constructor.
Qed.

Lemma stages_loop_spec (workflow : loc) (nextTaskID : Z)
    (stages : list WorkflowStage) (si : nat) (taskStages : list StageTask)
    (s : State) :
  let r := stages_loop workflow nextTaskID si stages taskStages s in
  exists evs, step_effects workflow s r.2 evs
    /\ match r.1 with
       | inl e => exists e', e = AddDesc ErrCreateTask (Error e')
                             /\ failures evs = [e']
       | inr out =>
           failures evs = []
           /\ exists convss : list (list (Job * list JobTask)),
                conversions evs = rev (concat convss)
                /\ Forall2 (fun stage convs =>
                              Forall2 prepared (active_jobs stage) convs.*1)
                     stages convss
                /\ out = taskStages
                         ++ kept_stages
                              (zip_with (fun stage convs =>
                                           newStageTask stage (concat convs.*2))
                                 stages convss)
       end.
Proof.
  cbv zeta. revert si taskStages s.
  induction stages as [|stage rest IH]; intros si taskStages s.
  - exists []. split; [apply step_effects_refl|]. simpl.
    split; [done|]. exists []. simpl. by rewrite app_nil_r.
  - cbn [stages_loop].
    destruct (jobs_loop_spec workflow nextTaskID si
                (WorkflowStage_Jobs stage) 0 [] s) as (evs1 & Hs1 & Hr1).
    destruct (jobs_loop workflow nextTaskID si 0 _ [] s) as [r1 s1] eqn:E1.
    rewrite (bind_run _ _ _ _ _ E1). simpl in Hs1, Hr1.
    destruct r1 as [e|jobs1]; simpl.
    { exists evs1. split; [exact Hs1|]. exact Hr1. }
    destruct Hr1 as (Hf1 & convs & Hv1 & HF1 & Hout). simpl in Hout. subst jobs1.
    match goal with |- context [stages_loop _ _ _ rest ?acc s1] =>
      destruct (IH (S si) acc s1) as (evs2 & Hs2 & Hr2);
      destruct (stages_loop workflow nextTaskID (S si) rest acc s1)
        as [[e|out] s2] end; simpl in *.
    + exists (evs2 ++ evs1). split; [eapply step_effects_trans; eauto|].
      destruct Hr2 as (e' & -> & Hf2). exists e'.
      by rewrite failures_app, Hf1, Hf2.
    + exists (evs2 ++ evs1). split; [eapply step_effects_trans; eauto|].
      destruct Hr2 as (Hf2 & convss & Hv2 & HF & ->).
      split; [by rewrite failures_app, Hf1, Hf2|].
      exists (convs :: convss). simpl.
      rewrite conversions_app, Hv1, Hv2, rev_app_distr.
      repeat split; try done; [by constructor|].
      destruct (0 <? length (concat convs.*2))%nat; simpl;
        by rewrite <- ?app_assoc.
Qed.

Lemma lint_stages_spec (workflowName : string) (taskID : Z)
    (stages : list StageTask) (s : State) :
  let r := lint_stages workflowName taskID stages s in
  (r.1 = None <-> Forall (fun st => StageTask_Jobs st <> []) stages)
  /\ (forall e, r.1 = Some e -> exists desc, e = AddDesc ErrCreateTask desc)
  /\ reads_only (lint_stages workflowName taskID stages) s.
Proof.
  cbv zeta. induction stages as [|stage rest IH].
  - simpl. repeat split; try done. exists []. by repeat split.
  - cbn [lint_stages]. destruct (StageTask_Jobs stage) as [|j js] eqn:Ej; simpl.
    + exec. repeat split; try done.
      * intros HF. inversion HF; subst. congruence.
      * intros e [= <-]. eauto.
      * eexists [_]. by repeat split.
    + destruct IH as (IH1 & IH2 & IH3). repeat split; try apply IH3.
      * intros Hn. constructor; [by rewrite Ej|]. by apply IH1.
      * intros HF. inversion HF; subst. by apply IH1.
      * exact IH2.
Qed.

Lemma workflowTaskLint_spec {R} (t : WorkflowTask R) (s : State) :
  let r := workflowTaskLint t s in
  (r.1 = None <-> WorkflowTask_Stages t <> []
                  /\ Forall (fun st => StageTask_Jobs st <> [])
                       (WorkflowTask_Stages t))
  /\ (forall e, r.1 = Some e -> exists desc, e = AddDesc ErrCreateTask desc)
  /\ reads_only (workflowTaskLint t) s.
Proof.
  cbv zeta. unfold workflowTaskLint.
  destruct (WorkflowTask_Stages t) as [|st sts] eqn:Es;
    [simpl | cbn [length Nat.leb]].
  - exec. repeat split; try done.
    + by intros [? _].
    + intros e [= <-]. eauto.
    + eexists [_]. by repeat split.
  - destruct (lint_stages_spec (WorkflowTask_WorkflowName t)
                (WorkflowTask_TaskID t) (st :: sts) s) as (L1 & L2 & L3).
    split; [|split; [exact L2|exact L3]].
    rewrite L1. split; [intros HF; split; [done|exact HF]|by intros [_ HF]].
Qed.

Lemma create_task_spec (resp : CreateTaskV4Resp) (workflow : loc)
    (t : WorkflowTask loc) (s : State) :
  let r := create_task resp workflow t s in
  heap r.2 = heap s
  /\ exists evs,
       trace r.2 = evs ++ trace s
       /\ counter_calls evs = [] /\ failures evs = [] /\ conversions evs = []
       /\ ((exists desc, r.1 = (resp, Some (AddDesc ErrCreateTask desc))
                         /\ create_calls evs = []
                         /\ ~ well_staged (WorkflowTask_Stages t))
           \/ (exists cerr,
                 create_calls evs
                 = [(follow (heap s)
                       (with_WorkflowArgs_Status workflow StatusCreated t), cerr)]
                 /\ r.1 = (resp, (fun e => AddDesc ErrCreateTask (Error e)) <$> cerr)
                 /\ well_staged (WorkflowTask_Stages t)
                 /\ stored_in (follow (heap s)
                                 (with_WorkflowArgs_Status workflow StatusCreated t))
                      cerr (world r.2))).
Proof.
  cbv zeta. unfold create_task.
  destruct (workflowTaskLint_spec t s)
    as (L1 & L2 & Lh & Lw & evs0 & Lt & Lc & Ln & Lf & Lv).
  destruct (workflowTaskLint t s) as [[e|] s1] eqn:E1;
    rewrite (bind_run _ _ _ _ _ E1); simpl in *.
  - split; [exact Lh|]. exists evs0. split_and!; try done.
    left. destruct (L2 e eq_refl) as [desc ->]. exists desc.
    split_and!; try done. intros Hw. by apply L1 in Hw.
  - exec. rewrite Lh, Lw.
    assert (well_staged (WorkflowTask_Stages t)) as Hws by by apply L1.
    destruct (workflowcontroller_CreateTask _ (world s)) as [[cerr|] w1] eqn:EC;
      simpl.
    + split; [done|].
      eexists (LogErrorf _ :: CallCreateTask _ (Some cerr) :: evs0).
      simpl. rewrite Lt, Lc, Ln, Lf, Lv. split_and!; try done.
      right. exists (Some cerr). split_and!; try done.
      exists (world s), w1. by split.
    + destruct (UpdateWebhookCommentForWorkflowV4 _ w1) as [[e1|] w2] eqn:EW;
        simpl;
      destruct (UpdateGitCheckForWorkflowV4 _ _ _) as [[e2|] w3] eqn:EG; simpl;
      (split; [done|]); rewrite Lt;
      (assert (stored_in (follow (heap s)
                 (with_WorkflowArgs_Status workflow StatusCreated t)) None w3)
         as Hst by (exists (world s), w1; split; [done|]; intros _; simpl;
                    rewrite EW; simpl; by rewrite EG)).
      * eexists (LogWarnf _ :: CallUpdateGitCheck _ :: LogWarnf _
                 :: CallUpdateWebhookComment _ :: CallCreateTask _ None :: evs0).
        simpl. rewrite Lc, Ln, Lf, Lv. split_and!; try done.
        right. by exists None.
      * eexists (CallUpdateGitCheck _ :: LogWarnf _
                 :: CallUpdateWebhookComment _ :: CallCreateTask _ None :: evs0).
        simpl. rewrite Lc, Ln, Lf, Lv. split_and!; try done.
        right. by exists None.
      * eexists (LogWarnf _ :: CallUpdateGitCheck _
                 :: CallUpdateWebhookComment _ :: CallCreateTask _ None :: evs0).
        simpl. rewrite Lc, Ln, Lf, Lv. split_and!; try done.
        right. by exists None.
      * eexists (CallUpdateGitCheck _
                 :: CallUpdateWebhookComment _ :: CallCreateTask _ None :: evs0).
        simpl. rewrite Lc, Ln, Lf, Lv. split_and!; try done.
        right. by exists None.
Qed.

Lemma fresh_loc_ne (h : gmap loc WorkflowV4) (p : loc) (w0 : WorkflowV4) :
  h !! p = Some w0 -> fresh (dom h) <> p.
Proof.
  intros Hp Heq. apply (is_fresh (dom h)). rewrite Heq.
  apply elem_of_dom. eauto.
Qed.

Lemma CreateWorkflowTaskV4_spec (user : string) (workflow : loc)
    (h : gmap loc WorkflowV4) (w : World) (w0 : WorkflowV4) :
  h !! workflow = Some w0 ->
  let r := CreateWorkflowTaskV4 user workflow (init h w) in
  let tr := trace r.2 in
  let name := WorkflowTaskV4Fmt (WorkflowV4_Name w0) in
  match LintWorkflowV4 w0 with
  | Some e => r.1.2 = Some e
              /\ failures tr = [] /\ create_calls tr = [] /\ counter_calls tr = []
  | None =>
  match IToi_WorkflowV4 w0 with
  | inl e => r.1.2 = Some (AddDesc ErrCreateTask (Error e))
             /\ failures tr = [] /\ create_calls tr = [] /\ counter_calls tr = []
  | inr origin =>
  match GetNextSeq name w with
  | (inl e, _) => r.1.2 = Some (AddDesc ErrGetCounter (Error e))
                  /\ failures tr = [] /\ create_calls tr = []
                  /\ counter_calls tr = [(name, inl e)]
  | (inr id, w1) =>
  counter_calls tr = [(name, inr id)] /\ TaskID r.1.1 = id
  /\ heap r.2 !! fresh (dom h) = Some origin
  /\
  match RemoveFixedValueMarks w0 with
  | (Some e, _) => r.1.2 = Some (AddDesc ErrCreateTask (Error e))
                   /\ failures tr = [] /\ create_calls tr = []
  | (None, wa) =>
  match RenderGlobalVariables wa id user with
  | (Some e, _) => r.1.2 = Some (AddDesc ErrCreateTask (Error e))
                   /\ failures tr = [] /\ create_calls tr = []
  | (None, wb) =>
      (exists e', r.1.2 = Some (AddDesc ErrCreateTask (Error e'))
                  /\ failures tr = [e'] /\ create_calls tr = [])
      \/ (failures tr = []
          /\ exists convss,
               conversions tr = rev (concat convss)
               /\ stage_conversions (WorkflowV4_Stages wb) convss
               /\ let stages := converted_stages (WorkflowV4_Stages wb) convss in
                  ((exists desc, r.1.2 = Some (AddDesc ErrCreateTask desc)
                                 /\ create_calls tr = []
                                 /\ ~ well_staged stages)
                   \/ (exists cerr,
                         create_calls tr
                         = [(follow (heap r.2)
                               (with_WorkflowArgs_Status workflow StatusCreated
                                  (newWorkflowTask (fresh (dom h)) id user
                                     (time_Now_Unix w1) wb stages)), cerr)]
                         /\ r.1.2 = (fun e => AddDesc ErrCreateTask (Error e)) <$> cerr
                         /\ well_staged stages
                         /\ stored_in
                              (follow (heap r.2)
                                 (with_WorkflowArgs_Status workflow StatusCreated
                                    (newWorkflowTask (fresh (dom h)) id user
                                       (time_Now_Unix w1) wb stages)))
                              cerr (world r.2))))
  end end end end end.
Proof.
  intros Hw0. cbv zeta. unfold CreateWorkflowTaskV4, init. exec.
  rewrite Hw0. simpl.
  destruct (LintWorkflowV4 w0) as [e|]; simpl; [done|].
  destruct (IToi_WorkflowV4 w0) as [e|origin]; simpl; [done|].
  destruct (GetNextSeq _ w) as [[e|id] w1]; simpl; [done|].
  pose proof (fresh_loc_ne h workflow w0 Hw0) as Hne.
  rewrite lookup_insert_ne by done. rewrite Hw0. simpl.
  destruct (RemoveFixedValueMarks w0) as [[e|] wa]; simpl.
  { split_and!; try done. by simplify_map_eq. }
  destruct (RenderGlobalVariables wa id user) as [[e|] wb]; simpl.
  { split_and!; try done.
    by simplify_map_eq. }
  match goal with |- context [stages_loop workflow id 0%nat ?st [] ?s1] =>
    destruct (stages_loop_spec workflow id st 0 [] s1)
      as (evs & (Ht & Hh & Hc & Hn) & Hr);
    destruct (stages_loop workflow id 0 st [] s1) as [[e|stages] s2] eqn:E
  end; simpl in *.
  - destruct Hr as (e' & -> & Hf).
    rewrite Ht, Hh by done. simpl.
    rewrite counter_calls_app, failures_app, create_calls_app, Hn, Hf, Hc.
    simpl. split_and!; try done.
    + by simplify_map_eq.
    + left. by exists e'.
  - destruct Hr as (Hf & convss & Hv & HF & ->).
    match goal with |- context [create_task ?resp workflow ?t s2] =>
      destruct (create_task_spec resp workflow t s2)
        as (Hh2 & evs2 & Ht2 & Hn2 & Hf2 & Hv2 & Hcase);
      destruct (create_task resp workflow t s2) as [[resp' err] s3]
    end; simpl in *.
    rewrite Ht2, Ht, Hh2, Hh by done. simpl.
    rewrite !counter_calls_app, !failures_app, !create_calls_app, !conversions_app.
    rewrite Hn, Hf, Hc, Hn2, Hf2, Hv2, Hv. simpl.
    rewrite !app_nil_r.
    destruct Hcase as [(desc & Hr1 & Hc2 & Hnw)|(cerr & Hc2 & Hr1 & Hws & Hst)];
      injection Hr1 as -> ->; rewrite Hc2; simpl.
    + split_and!; try done.
      * by simplify_map_eq.
      * right. split; [done|]. exists convss. split_and!; try done.
        left. by exists desc.
    + split_and!; try done.
      * by simplify_map_eq.
      * right. split; [done|]. exists convss. split_and!; try done.
        right. by exists cerr.
Qed.

(** *** Which jobs reach [ToJobs] *)

Lemma conversion_calls_app (a b : list Event) :
  conversion_calls (a ++ b) = conversion_calls a ++ conversion_calls b.
Proof. apply omap_app. Qed.

Lemma conversion_calls_nil (evs : list Event) :
  conversions evs = [] -> failures evs = [] -> conversion_calls evs = [].
Proof.
  induction evs as [|e evs IH]; [done|].
  destruct e; simpl; try exact IH.
  - destruct target, err; simpl; try exact IH; done.
  - destruct err; simpl; [done|exact IH].
  - destruct r; done.
Qed.

Lemma builds_loop_converts_nothing (builds : list ServiceAndBuild) (s : State) :
  conversion_calls (trace (builds_loop builds s).2) = conversion_calls (trace s).
Proof.
  revert s. induction builds as [|build rest IH]; intros s; [done|].
  cbn [builds_loop]. exec.
  destruct (setManunalBuilds _ _ (world s)) as [[[err|] repos] w1]; simpl; [done|].
  match goal with |- context [builds_loop rest ?s1] =>
    specialize (IH s1); destruct (builds_loop rest s1) as [[e|rest'] s2] end;
  simpl in *; exact IH.
Qed.

Lemma steps_loop_converts_nothing (steps : list Step) (s : State) :
  conversion_calls (trace (steps_loop steps s).2) = conversion_calls (trace s).
Proof.
  revert s. induction steps as [|step rest IH]; intros s; [done|].
  cbn [steps_loop]. destruct (negb _).
  - exec. specialize (IH s).
    destruct (steps_loop rest s) as [[e|rest'] s2]; simpl in *; exact IH.
  - exec. destruct (IToi_StepGitSpec _) as [err|stepSpec]; simpl; [done|].
    destruct (setManunalBuilds _ _ (world s)) as [[[err|] repos] w1]; simpl; [done|].
    match goal with |- context [steps_loop rest ?s1] =>
      specialize (IH s1); destruct (steps_loop rest s1) as [[e|rest'] s2] end;
    simpl in *; exact IH.
Qed.

Lemma setZadigBuildRepos_converts_nothing (job : Job) (s : State) :
  conversion_calls (trace (setZadigBuildRepos job s).2) = conversion_calls (trace s).
Proof.
  unfold setZadigBuildRepos. exec.
  destruct (IToi_ZadigBuildJobSpec _) as [err|spec]; simpl; [done|].
  match goal with |- context [builds_loop ?b ?s1] =>
    pose proof (builds_loop_converts_nothing b s1) as Hb;
    destruct (builds_loop b s1) as [[e|builds] s2] end;
  simpl in *; exact Hb.
Qed.

Lemma setFreeStyleRepos_converts_nothing (job : Job) (s : State) :
  conversion_calls (trace (setFreeStyleRepos job s).2) = conversion_calls (trace s).
Proof.
  unfold setFreeStyleRepos. exec.
  destruct (IToi_FreestyleJobSpec _) as [err|spec]; simpl; [done|].
  match goal with |- context [steps_loop ?b ?s1] =>
    pose proof (steps_loop_converts_nothing b s1) as Hb;
    destruct (steps_loop b s1) as [[e|steps] s2] end;
  simpl in *; exact Hb.
Qed.

Lemma convert_job_calls (workflow : loc) (nextTaskID : Z) (si ji : nat)
    (job : Job) (s : State) :
  let r := convert_job workflow nextTaskID si ji job s in
  exists l, conversion_calls (trace r.2) = l ++ conversion_calls (trace s)
            /\ Forall (prepared job) l.
Proof.
  cbv zeta. unfold convert_job.
  assert (exists s1 r1,
    (if String.eqb (Job_JobType job) JobZadigBuild
     then
       '(err, job) ← setZadigBuildRepos job;
       store_job workflow si ji job;;
       match err with
       | Some err =>
           emit (LogErrorf ("zadig build job set build info error: "
                            +:+ Error err));;
           mret (inl (AddDesc ErrCreateTask (Error err)))
       | None => mret (inr job)
       end
     else mret (inr job)) s = (r1, s1)
    /\ conversion_calls (trace s1) = conversion_calls (trace s)
    /\ match r1 with
       | inl _ => True
       | inr job1 => prepared job job1
       end) as (s1 & r1 & E1 & Hc1 & Hp1).
  { destruct (String.eqb _ JobZadigBuild).
    - pose proof (setZadigBuildRepos_spec job s) as (_ & Hp & _).
      pose proof (setZadigBuildRepos_converts_nothing job s) as Hc.
      exec. destruct (setZadigBuildRepos job s) as [[[err|] job1] s1]; simpl in *;
        eexists _, _; (split; [reflexivity|]); simpl; done.
    - exists s, (inr job). split; [reflexivity|]. split; [done|].
      apply prepared_refl. }
  rewrite (bind_run _ _ _ _ _ E1). clear E1.
  destruct r1 as [e|job1]; simpl.
  { exists []. by split. }
  assert (exists s2 r2,
    (if String.eqb (Job_JobType job1) JobFreestyle
     then
       '(err, job) ← setFreeStyleRepos job1;
       store_job workflow si ji job;;
       match err with
       | Some err =>
           emit (LogErrorf ("freestyle job set build info error: "
                            +:+ Error err));;
           mret (inl (AddDesc ErrCreateTask (Error err)))
       | None => mret (inr job)
       end
     else mret (inr job1)) s1 = (r2, s2)
    /\ conversion_calls (trace s2) = conversion_calls (trace s1)
    /\ match r2 with
       | inl _ => True
       | inr job2 => prepared job1 job2
       end) as (s2 & r2 & E2 & Hc2 & Hp2).
  { destruct (String.eqb _ JobFreestyle).
    - pose proof (setFreeStyleRepos_spec job1 s1) as (_ & Hp & _).
      pose proof (setFreeStyleRepos_converts_nothing job1 s1) as Hc.
      exec. destruct (setFreeStyleRepos job1 s1) as [[[err|] job2] s2]; simpl in *;
        eexists _, _; (split; [reflexivity|]); simpl; done.
    - exists s1, (inr job1). split; [reflexivity|]. split; [done|].
      apply prepared_refl. }
  rewrite (bind_run _ _ _ _ _ E2). clear E2.
  destruct r2 as [e|job2]; simpl.
  { exists []. split; [by rewrite Hc2, Hc1|done]. }
  exec.
  destruct (ToJobs job2 _ nextTaskID (world s2)) as [[err|jobs] w3]; simpl;
    exists [job2]; (split; [by rewrite Hc2, Hc1|]);
    repeat constructor; eapply prepared_trans; eauto.
Qed.

Lemma jobs_loop_calls (workflow : loc) (nextTaskID : Z) (si : nat)
    (jobs : list Job) (ji : nat) (stageJobs : list JobTask) (s : State) :
  let r := jobs_loop workflow nextTaskID si ji jobs stageJobs s in
  exists l, conversion_calls (trace r.2) = l ++ conversion_calls (trace s)
            /\ Forall (fun job => Job_Skipped job = false) l.
Proof.
  cbv zeta. revert ji stageJobs s.
  induction jobs as [|job rest IH]; intros ji stageJobs s.
  - exists []. by split.
  - cbn [jobs_loop]. destruct (Job_Skipped job) eqn:Esk; simpl.
    { apply IH. }
    destruct (convert_job_calls workflow nextTaskID si ji job s) as (l1 & Hc1 & HF1).
    destruct (convert_job workflow nextTaskID si ji job s) as [r1 s1] eqn:E1.
    rewrite (bind_run _ _ _ _ _ E1). simpl in Hc1.
    assert (Forall (fun job => Job_Skipped job = false) l1) as HF1'.
    { eapply Forall_impl; [exact HF1|]. intros j (_ & _ & Hs). simpl in Hs. congruence. }
    destruct r1 as [e|jobs1]; simpl.
    { by exists l1. }
    destruct (IH (S ji) (stageJobs ++ jobs1) s1) as (l2 & Hc2 & HF2).
    exists (l2 ++ l1). split.
    + by rewrite Hc2, Hc1, app_assoc.
    + by apply Forall_app.
Qed.

Lemma stages_loop_calls (workflow : loc) (nextTaskID : Z)
    (stages : list WorkflowStage) (si : nat) (taskStages : list StageTask)
    (s : State) :
  let r := stages_loop workflow nextTaskID si stages taskStages s in
  exists l, conversion_calls (trace r.2) = l ++ conversion_calls (trace s)
            /\ Forall (fun job => Job_Skipped job = false) l.
Proof.
  cbv zeta. revert si taskStages s.
  induction stages as [|stage rest IH]; intros si taskStages s.
  - exists []. by split.
  - cbn [stages_loop].
    destruct (jobs_loop_calls workflow nextTaskID si
                (WorkflowStage_Jobs stage) 0 [] s) as (l1 & Hc1 & HF1).
    destruct (jobs_loop workflow nextTaskID si 0 _ [] s) as [r1 s1] eqn:E1.
    rewrite (bind_run _ _ _ _ _ E1). simpl in Hc1.
    destruct r1 as [e|jobs1]; simpl.
    { by exists l1. }
    match goal with |- context [stages_loop _ _ _ rest ?acc s1] =>
      destruct (IH (S si) acc s1) as (l2 & Hc2 & HF2) end.
    exists (l2 ++ l1). split.
    + by rewrite Hc2, Hc1, app_assoc.
    + by apply Forall_app.
Qed.

Lemma kept_stages_jobs (stages : list StageTask) :
  Forall (fun st => StageTask_Jobs st <> []) (kept_stages stages).
Proof.
  unfold kept_stages. apply List.Forall_forall. intros st Hin.
  apply List.filter_In in Hin as [_ Hlen].
  destruct (StageTask_Jobs st); [done|done].
Qed.

(** [CreateWorkflowTaskV4] either ends before the conversion of the jobs,
    or is the loop over the stages followed by [create_task], run in a
    state [s1] in which no job was converted and nothing was stored. *)
Lemma CreateWorkflowTaskV4_phases (user : string) (workflow : loc)
    (h : gmap loc WorkflowV4) (w : World) (w0 : WorkflowV4) :
  h !! workflow = Some w0 ->
  let r := CreateWorkflowTaskV4 user workflow (init h w) in
  (conversion_calls (trace r.2) = []
   /\ (LintWorkflowV4 w0 = None ->
       forall origin, IToi_WorkflowV4 w0 = inr origin ->
       forall id w1, GetNextSeq (WorkflowTaskV4Fmt (WorkflowV4_Name w0)) w
                     = (inr id, w1) ->
       forall wa, RemoveFixedValueMarks w0 = (None, wa) ->
       forall wb, RenderGlobalVariables wa id user = (None, wb) -> False))
  \/ exists origin id w1 wa wb s1,
       LintWorkflowV4 w0 = None
       /\ IToi_WorkflowV4 w0 = inr origin
       /\ GetNextSeq (WorkflowTaskV4Fmt (WorkflowV4_Name w0)) w = (inr id, w1)
       /\ RemoveFixedValueMarks w0 = (None, wa)
       /\ RenderGlobalVariables wa id user = (None, wb)
       /\ r = (let resp := {| ProjectName := WorkflowV4_Project w0;
                              WorkflowName := WorkflowV4_Name w0;
                              TaskID := id |} in
               let '(r0, s2) := stages_loop workflow id 0 (WorkflowV4_Stages wb)
                                  [] s1 in
               match r0 with
               | inl e => ((resp, Some e), s2)
               | inr stages =>
                   create_task resp workflow
                     (newWorkflowTask (fresh (dom h)) id user (time_Now_Unix w1)
                        wb stages) s2
               end)
       /\ conversion_calls (trace s1) = []
       /\ conversions (trace s1) = []
       /\ failures (trace s1) = []
       /\ create_calls (trace s1) = [].
Proof.
  intros Hw0. cbv zeta. unfold CreateWorkflowTaskV4, init. exec.
  rewrite Hw0. simpl.
  destruct (LintWorkflowV4 w0) as [e|]; simpl; [by left|].
  destruct (IToi_WorkflowV4 w0) as [e|origin]; simpl.
  { left. split; [done|]. by intros _ origin. }
  destruct (GetNextSeq _ w) as [[e|id] w1]; simpl.
  { left. split; [done|]. by intros _ origin' _ id w1'. }
  pose proof (fresh_loc_ne h workflow w0 Hw0) as Hne.
  rewrite lookup_insert_ne by done. rewrite Hw0. simpl.
  destruct (RemoveFixedValueMarks w0) as [[e|] wa]; simpl.
  { left. split; [done|]. intros _ origin' _ id' w1' _ wa'. done. }
  destruct (RenderGlobalVariables wa id user) as [[e|] wb] eqn:ER; simpl.
  { left. split; [done|]. intros _ origin' _ id' w1' [= <- <-] wa' [= <-] wb'.
    rewrite ER. done. }
  right.
  exists origin, id, w1, wa, wb,
    {| heap := <[workflow := wb]> (<[workflow := wa]> (<[fresh (dom h) := origin]> h));
       world := w1;
       trace := [CallRenderGlobalVariables id user None;
                 CallRemoveFixedValueMarks None;
                 CallGetNextSeq (WorkflowTaskV4Fmt (WorkflowV4_Name w0)) (inr id);
                 CallIToi ToWorkflowV4 None; CallLintWorkflowV4 None] |}.
  split_and!; try done.
  by destruct (stages_loop workflow id 0 _ [] _) as [[e|stages] s2].
Qed.


(** [ToJobs] is asked for no skipped job, on any path. *)
Lemma CreateWorkflowTaskV4_calls (user : string) (workflow : loc)
    (h : gmap loc WorkflowV4) (w : World) (w0 : WorkflowV4) :
  h !! workflow = Some w0 ->
  Forall (fun job => Job_Skipped job = false)
    (conversion_calls (trace (CreateWorkflowTaskV4 user workflow (init h w)).2)).
Proof.
  intros Hw0.
  destruct (CreateWorkflowTaskV4_phases user workflow h w w0 Hw0)
    as [[-> _]|(origin & id & w1 & wa & wb & s1 & _ & _ & _ & _ & _ & -> & Hc & _)];
    [done|].
  cbv zeta.
  destruct (stages_loop_calls workflow id (WorkflowV4_Stages wb) 0 [] s1)
    as (l & Hl & HF).
  destruct (stages_loop workflow id 0 _ [] s1) as [[e|stages] s2]; simpl in *.
  - by rewrite Hl, Hc, app_nil_r.
  - match goal with |- context [create_task ?resp workflow ?t s2] =>
      destruct (create_task_spec resp workflow t s2)
        as (_ & evs & -> & _ & Hf & Hv & _) end.
    rewrite conversion_calls_app, (conversion_calls_nil _ Hv Hf), Hl, Hc, app_nil_r.
    done.
Qed.

(** The outcome of the conversion: either a call of the preparation or
    the conversion failed and that error is returned, or the jobs that are
    not skipped were converted, stage by stage, and the task is stored with
    the stages that got a job task, or refused when there is none. *)
Lemma CreateWorkflowTaskV4_outcome (user : string) (workflow : loc)
    (h : gmap loc WorkflowV4) (w : World) (w0 : WorkflowV4)
    (origin : WorkflowV4) (id : Z) (w1 : World) (wa wb : WorkflowV4) :
  h !! workflow = Some w0 ->
  LintWorkflowV4 w0 = None ->
  IToi_WorkflowV4 w0 = inr origin ->
  GetNextSeq (WorkflowTaskV4Fmt (WorkflowV4_Name w0)) w = (inr id, w1) ->
  RemoveFixedValueMarks w0 = (None, wa) ->
  RenderGlobalVariables wa id user = (None, wb) ->
  let r := CreateWorkflowTaskV4 user workflow (init h w) in
  let tr := trace r.2 in
  (exists e', failures tr = [e']
              /\ r.1.2 = Some (AddDesc ErrCreateTask (Error e'))
              /\ create_calls tr = [])
  \/ (failures tr = []
      /\ exists convss,
           conversions tr = rev (concat convss)
           /\ stage_conversions (WorkflowV4_Stages wb) convss
           /\ match converted_stages (WorkflowV4_Stages wb) convss with
              | [] =>
                  create_calls tr = []
                  /\ r.1.2 = Some (AddDesc ErrCreateTask
                                     ("no stage found in workflow task: "
                                      +:+ WorkflowV4_Name wb
                                      +:+ ",taskID: " +:+ fmt_d id))
              | stages =>
                  exists t cerr,
                    create_calls tr = [(t, cerr)]
                    /\ WorkflowTask_Stages t = stages
                    /\ well_staged stages
                    /\ r.1.2 = (fun e => AddDesc ErrCreateTask (Error e)) <$> cerr
              end).
Proof.
  intros Hw0 HL HI HG HM HR. cbv zeta.
  destruct (CreateWorkflowTaskV4_phases user workflow h w w0 Hw0)
    as [[_ Hno]|(origin' & id' & w1' & wa' & wb' & s1 & _ & HI' & HG' & HM' & HR'
                 & -> & _ & Hv0 & Hf0 & Hc0)].
  { destruct (Hno HL origin HI id w1 HG wa HM wb HR). }
  rewrite HI in HI'. injection HI' as <-.
  rewrite HG in HG'. injection HG' as <- <-.
  rewrite HM in HM'. injection HM' as <-.
  rewrite HR in HR'. injection HR' as <-.
  cbv zeta.
  destruct (stages_loop_spec workflow id (WorkflowV4_Stages wb) 0 [] s1)
    as (evs & (Ht & _ & Hc & _) & Hr).
  destruct (stages_loop workflow id 0 _ [] s1) as [[e|stages] s2]; simpl in *.
  { left. destruct Hr as (e' & -> & Hf). exists e'.
    by rewrite Ht, failures_app, create_calls_app, Hf, Hf0, Hc, Hc0. }
  destruct Hr as (Hf & convss & Hv & HF & ->). right.
  fold (converted_stages (WorkflowV4_Stages wb) convss) in *.
  pose proof (kept_stages_jobs
                (zip_with (fun stage convs => newStageTask stage (concat convs.*2))
                   (WorkflowV4_Stages wb) convss)) as Hkept.
  fold (converted_stages (WorkflowV4_Stages wb) convss) in Hkept.
  destruct (converted_stages (WorkflowV4_Stages wb) convss) as [|st sts] eqn:Est.
  - unfold create_task, workflowTaskLint. exec.
    rewrite Ht, failures_app, conversions_app, create_calls_app.
    rewrite Hf, Hf0, Hv, Hv0, Hc, Hc0, app_nil_r.
    split; [done|]. exists convss. rewrite Est. cbv iota. split_and!; try done. by rewrite app_nil_r.
  - match goal with |- context [create_task ?resp workflow ?t s2] =>
      destruct (create_task_spec resp workflow t s2)
        as (_ & evs2 & Ht2 & _ & Hf2 & Hv2 & Hcase);
      destruct (create_task resp workflow t s2) as [[resp' err] s3]
    end; simpl in *.
    rewrite Ht2, Ht, !failures_app, !conversions_app, !create_calls_app.
    rewrite Hf2, Hf, Hf0, Hv2, Hv, Hv0, Hc, Hc0, !app_nil_r. simpl.
    split; [done|]. exists convss. rewrite Est. cbv iota. split_and!; try done.
    assert (well_staged (st :: sts)) as Hws by by split.
    destruct Hcase as [(desc & _ & _ & Hnw)|(cerr & -> & [= _ ->] & _)]; [done|].
    by eexists _, cerr.
Qed.

(** C8: in [CreateWorkflowTaskV4], a failure of the counter is returned as
    [ErrGetCounter] with the counter error's text as description, and a
    failure of a per-job preparation step (decoding the job or step spec,
    the repository lookup of a build or freestyle job, the conversion by
    [ToJobs]) is returned as [ErrCreateTask] with that error's text; in both
    cases the store was never called. *)
Theorem C8_errors_returned_before_the_task_is_stored (user : string)
    (workflow : loc) (h : gmap loc WorkflowV4) (w : World) (w0 : WorkflowV4) :
  h !! workflow = Some w0 ->
  let r := CreateWorkflowTaskV4 user workflow (init h w) in
  let tr := trace r.2 in
  (forall name e, (name, inl e) ∈ counter_calls tr ->
     r.1.2 = Some (AddDesc ErrGetCounter (Error e)) /\ create_calls tr = [])
  /\ (forall e, e ∈ failures tr ->
     r.1.2 = Some (AddDesc ErrCreateTask (Error e)) /\ create_calls tr = []).
Proof.
  intros Hw0. pose proof (CreateWorkflowTaskV4_spec user workflow h w w0 Hw0) as S.
  cbv zeta in *.
  destruct (LintWorkflowV4 w0) as [e0|].
  { destruct S as (_ & -> & _ & ->). split; intros; by set_solver. }
  destruct (IToi_WorkflowV4 w0) as [e0|origin].
  { destruct S as (_ & -> & _ & ->). split; intros; by set_solver. }
  destruct (GetNextSeq _ w) as [[e0|id] w1].
  { destruct S as (-> & -> & -> & ->). split.
    - intros name e Hin. apply list_elem_of_singleton in Hin as [= _ <-]. done.
    - intros; by set_solver. }
  destruct S as (-> & _ & _ & S). split.
  { intros name e Hin. by apply list_elem_of_singleton in Hin. }
  destruct (RemoveFixedValueMarks w0) as [[e0|] wa].
  { destruct S as (_ & -> & _). intros; by set_solver. }
  destruct (RenderGlobalVariables wa id user) as [[e0|] wb].
  { destruct S as (_ & -> & _). intros; by set_solver. }
  destruct S as [(e' & -> & -> & ->)|(-> & _)].
  - intros e Hin. by apply list_elem_of_singleton in Hin as ->.
  - intros; by set_solver.
Qed.

(** C5: in [CreateWorkflowTaskV4], [ToJobs] is never asked for a skipped
    job, on any path.  Once the workflow is rendered, either a call of the
    per-job preparation or of the conversion failed and that error is
    returned, or every job that is not skipped was converted, stage by stage
    and in order, and no other job; then the stage tasks are those of the
    stages whose conversions gave a job task, each holding the job tasks of
    its stage, and the stages left without one are dropped.  If no stage is
    left, the task is refused with [ErrCreateTask], "no stage found", and
    the store is not called; otherwise the store is called once, with a task
    that has exactly these stages, a stage and a job in every stage.  Every
    task handed to the store has that shape.  [workflowTaskLint] accepts
    exactly the tasks with a stage and a job in every stage and refuses the
    others with [ErrCreateTask], and a task it refuses is returned as that
    error without a call to the store. *)
Theorem C5_skipped_jobs_and_empty_stages_are_dropped (user : string)
    (workflow : loc) (h : gmap loc WorkflowV4) (w : World) (w0 : WorkflowV4) :
  h !! workflow = Some w0 ->
  let r := CreateWorkflowTaskV4 user workflow (init h w) in
  let tr := trace r.2 in
  Forall (fun job => Job_Skipped job = false) (conversion_calls tr)
  /\ (forall origin id w1 wa wb,
        LintWorkflowV4 w0 = None ->
        IToi_WorkflowV4 w0 = inr origin ->
        GetNextSeq (WorkflowTaskV4Fmt (WorkflowV4_Name w0)) w = (inr id, w1) ->
        RemoveFixedValueMarks w0 = (None, wa) ->
        RenderGlobalVariables wa id user = (None, wb) ->
        (exists e', failures tr = [e']
                    /\ r.1.2 = Some (AddDesc ErrCreateTask (Error e'))
                    /\ create_calls tr = [])
        \/ (failures tr = []
            /\ exists convss,
                 conversions tr = rev (concat convss)
                 /\ stage_conversions (WorkflowV4_Stages wb) convss
                 /\ match converted_stages (WorkflowV4_Stages wb) convss with
                    | [] =>
                        create_calls tr = []
                        /\ r.1.2 = Some (AddDesc ErrCreateTask
                                           ("no stage found in workflow task: "
                                            +:+ WorkflowV4_Name wb
                                            +:+ ",taskID: " +:+ fmt_d id))
                    | stages =>
                        exists t cerr,
                          create_calls tr = [(t, cerr)]
                          /\ WorkflowTask_Stages t = stages
                          /\ well_staged stages
                          /\ r.1.2 = (fun e => AddDesc ErrCreateTask (Error e))
                                       <$> cerr
                    end))
  /\ (forall t cerr, (t, cerr) ∈ create_calls tr ->
     let wa := (RemoveFixedValueMarks w0).2 in
     let wb := (RenderGlobalVariables wa (WorkflowTask_TaskID t) user).2 in
     exists convss,
       conversions tr = rev (concat convss)
       /\ stage_conversions (WorkflowV4_Stages wb) convss
       /\ WorkflowTask_Stages t = converted_stages (WorkflowV4_Stages wb) convss
       /\ well_staged (WorkflowTask_Stages t))
  /\ (forall (t : WorkflowTask loc) s,
        ((workflowTaskLint t s).1 = None <-> well_staged (WorkflowTask_Stages t))
        /\ (forall e, (workflowTaskLint t s).1 = Some e ->
                      exists desc, e = AddDesc ErrCreateTask desc))
  /\ (forall resp (t : WorkflowTask loc) s,
        ~ well_staged (WorkflowTask_Stages t) ->
        let c := create_task resp workflow t s in
        (exists desc, c.1 = (resp, Some (AddDesc ErrCreateTask desc)))
        /\ create_calls (trace c.2) = create_calls (trace s)).
Proof.
  intros Hw0. cbv zeta. split_and!.
  - by apply CreateWorkflowTaskV4_calls with w0.
  - intros origin id w1 wa wb HL HI HG HM HR.
    exact (CreateWorkflowTaskV4_outcome user workflow h w w0 origin id w1 wa wb
             Hw0 HL HI HG HM HR).
  - pose proof (CreateWorkflowTaskV4_spec user workflow h w w0 Hw0) as S.
    cbv zeta in S. intros t cerr Hin.
    destruct (LintWorkflowV4 w0) as [e0|].
    { destruct S as (_ & _ & Hc & _). rewrite Hc in Hin. by set_solver. }
    destruct (IToi_WorkflowV4 w0) as [e0|origin].
    { destruct S as (_ & _ & Hc & _). rewrite Hc in Hin. by set_solver. }
    destruct (GetNextSeq _ w) as [[e0|id] w1].
    { destruct S as (_ & _ & Hc & _). rewrite Hc in Hin. by set_solver. }
    destruct S as (_ & _ & _ & S).
    destruct (RemoveFixedValueMarks w0) as [[e0|] wa].
    { destruct S as (_ & _ & Hc). rewrite Hc in Hin. by set_solver. }
    destruct (RenderGlobalVariables wa id user) as [[e0|] wb] eqn:ER.
    { destruct S as (_ & _ & Hc). rewrite Hc in Hin. by set_solver. }
    destruct S as [(e' & _ & _ & Hc)|(_ & convss & Hv & HF & S)].
    { rewrite Hc in Hin. by set_solver. }
    destruct S as [(desc & _ & Hc & _)|(cerr' & Hc & _ & Hws & _)].
    { rewrite Hc in Hin. by set_solver. }
    rewrite Hc in Hin. apply list_elem_of_singleton in Hin as [= -> ->].
    simpl. rewrite ER. simpl. by exists convss.
  - intros t s. destruct (workflowTaskLint_spec t s) as (L1 & L2 & _). by split.
  - intros resp t s Hnw.
    destruct (create_task_spec resp workflow t s)
      as (_ & evs & Ht & _ & _ & _ & [(desc & Hr & Hc & _)|(cerr & _ & _ & Hws & _)]).
    + split; [by exists desc|]. by rewrite Ht, create_calls_app, Hc.
    + done.
Qed.

(** C4: on success [CreateWorkflowTaskV4] stored one task, and its
    [origin_workflow_args] is the copy [IToi] made of the caller's workflow
    as it was on entry: it was made before [RemoveFixedValueMarks] and
    [RenderGlobalVariables] ran, it lives at a location of its own, and that
    location still holds it when the function returns.  When the store
    returns what was created, and the SCM notifications leave it alone,
    [CloneWorkflowTaskV4] of the stored task's workflow name and task id
    returns that copy. *)
Theorem C4_origin_workflow_args_is_the_copy_made_on_entry (user : string)
    (workflow : loc) (h : gmap loc WorkflowV4) (w : World) (w0 : WorkflowV4) :
  (forall t wd wd',
     workflowcontroller_CreateTask t wd = (None, wd') ->
     exists t', Find (WorkflowTask_WorkflowName t) (WorkflowTask_TaskID t) wd'
                = inr t'
                /\ WorkflowTask_OriginWorkflowArgs t'
                   = WorkflowTask_OriginWorkflowArgs t) ->
  (forall t wd name id,
     Find name id (UpdateWebhookCommentForWorkflowV4 t wd).2 = Find name id wd) ->
  (forall a i wd name id,
     Find name id (UpdateGitCheckForWorkflowV4 a i wd).2 = Find name id wd) ->
  h !! workflow = Some w0 ->
  let r := CreateWorkflowTaskV4 user workflow (init h w) in
  r.1.2 = None ->
  exists origin t,
    IToi_WorkflowV4 w0 = inr origin
    /\ create_calls (trace r.2) = [(t, None)]
    /\ WorkflowTask_OriginWorkflowArgs t = Some origin
    /\ WorkflowTask_TaskID t = TaskID r.1.1
    /\ fresh (dom h) <> workflow
    /\ heap r.2 !! fresh (dom h) = Some origin
    /\ (CloneWorkflowTaskV4 (WorkflowTask_WorkflowName t)
          (WorkflowTask_TaskID t) r.2).1 = (Some origin, None).
Proof.
  intros Hcreate Hcomment Hcheck Hw0.
  pose proof (CreateWorkflowTaskV4_spec user workflow h w w0 Hw0) as S.
  pose proof (fresh_loc_ne h workflow w0 Hw0) as Hne.
  cbv zeta in *. intros Hok.
  destruct (LintWorkflowV4 w0) as [e0|].
  { destruct S as (S & _). by rewrite S in Hok. }
  destruct (IToi_WorkflowV4 w0) as [e0|origin].
  { destruct S as (S & _). by rewrite S in Hok. }
  destruct (GetNextSeq _ w) as [[e0|id] w1].
  { destruct S as (S & _). by rewrite S in Hok. }
  destruct S as (_ & Hid & Horigin & S).
  destruct (RemoveFixedValueMarks w0) as [[e0|] wa].
  { destruct S as (S & _). by rewrite S in Hok. }
  destruct (RenderGlobalVariables wa id user) as [[e0|] wb].
  { destruct S as (S & _). by rewrite S in Hok. }
  destruct S as [(e' & S & _)|(_ & convss & _ & _ & S)].
  { by rewrite S in Hok. }
  destruct S as [(desc & S & _)|(cerr & Hc & Hr & _ & Hst)].
  { by rewrite S in Hok. }
  rewrite Hr in Hok. destruct cerr as [cerr|]; [done|].
  eexists origin, _. split_and!; try done.
  destruct Hst as (wd & wd1 & HC & Hwd). specialize (Hwd eq_refl).
  destruct (Hcreate _ _ _ HC) as (t' & Hfind & Ht').
  unfold CloneWorkflowTaskV4.
  unfold mbind, M_bind, mret, M_ret, call, emit. simpl in *.
  rewrite Hwd, Hcheck, Hcomment, Hfind. simpl. rewrite Ht'. simpl.
  by rewrite Horigin.
Qed.

(** C9: [ApproveStage] with an empty workflow name, an empty stage name or
    task id 0 returns [ErrApproveTask] with a description and never calls
    the workflow controller; otherwise it calls the controller once, with
    its own arguments, and returns [nil] when the controller does and the
    controller's error wrapped in [ErrApproveTask] when it fails. *)
Theorem C9_ApproveStage_guards_then_delegates
    (workflowName stageName userName userID comment : string) (taskID : Z)
    (approve : bool) (h : gmap loc WorkflowV4) (w : World) :
  let r := ApproveStage workflowName stageName userName userID comment taskID
             approve (init h w) in
  (workflowName = "" \/ stageName = "" \/ taskID = 0 ->
   (exists desc, r.1 = Some (AddDesc ErrApproveTask desc))
   /\ approvals (trace r.2) = [] /\ world r.2 = w)
  /\ (workflowName <> "" /\ stageName <> "" /\ taskID <> 0 ->
      let c := workflowcontroller_ApproveStage workflowName stageName userName
                 userID comment taskID approve w in
      r.1 = AddErr ErrApproveTask <$> c.1
      /\ approvals (trace r.2)
         = [(workflowName, stageName, userName, userID, comment, taskID,
             approve, c.1)]
      /\ world r.2 = c.2).
Proof.
  cbv zeta. unfold ApproveStage, init. split.
  - intros Hbad.
    assert (String.eqb workflowName "" || String.eqb stageName ""
            || (taskID =? 0) = true) as ->.
    { destruct Hbad as [->| [->| ->]]; simpl; [done| |].
      - by rewrite orb_true_r.
      - by rewrite orb_true_r. }
    exec. split_and!; try done. eauto.
  - intros (Hw & Hs & Ht).
    assert (String.eqb workflowName "" || String.eqb stageName ""
            || (taskID =? 0) = false) as ->.
    { apply String.eqb_neq in Hw, Hs. apply Z.eqb_neq in Ht.
      by rewrite Hw, Hs, Ht. }
    exec.
    destruct (workflowcontroller_ApproveStage _ _ _ _ _ _ _ w) as [[e|] w1];
      simpl; by split_and!.
Qed.

End service_properties.

(** *** The service on scripted worlds *)

Section service_scenarios.
Import models GoStrings workflow scripted.

Lemma memory_lookup (w : WorkflowV4) : memory w !! 1%positive = Some w.
Proof. apply lookup_singleton_eq. Qed.

(** The scripted store returns what was created, and the notifications do
    not touch it. *)
Lemma store_returns_created (t : StoredTask) (wd wd' : Store) :
  workflowcontroller_CreateTask t wd = (None, wd') ->
  exists t', Find (WorkflowTask_WorkflowName t) (WorkflowTask_TaskID t) wd'
             = inr t'
             /\ WorkflowTask_OriginWorkflowArgs t'
                = WorkflowTask_OriginWorkflowArgs t.
Proof.
  simpl. destruct (breaks "CreateTask" wd); intros [= <-]. exists t. simpl.
  unfold has_key. by rewrite String.eqb_refl, Z.eqb_refl.
Qed.

Lemma comment_keeps_store (t : StoredTask) (wd : Store) (name : string) (id : Z) :
  Find name id (UpdateWebhookCommentForWorkflowV4 t wd).2 = Find name id wd.
Proof. reflexivity. Qed.

Lemma check_keeps_store (a : option WorkflowV4) (i : Z) (wd : Store)
    (name : string) (id : Z) :
  Find name id (UpdateGitCheckForWorkflowV4 a i wd).2 = Find name id wd.
Proof. reflexivity. Qed.

Lemma C4_witness_clone_returns_origin :
  let r := CreateWorkflowTaskV4 "ann" 1%positive
             (init (memory (demo demo_stages)) (store [])) in
  (CloneWorkflowTaskV4 "demo" 7 r.2).1 = (Some (demo demo_stages), None)
  /\ (WorkflowV4_Description <$> heap r.2 !! 1%positive) = Some "task 7 of ann".
Proof.
  destruct (C4_origin_workflow_args_is_the_copy_made_on_entry (EX := service) "ann" 1%positive
              (memory (demo demo_stages)) (store []) (demo demo_stages)
              store_returns_created comment_keeps_store check_keeps_store
              (memory_lookup _) eq_refl)
    as (origin & t & HI & Hc & _ & _ & _ & _ & Hclone).
  injection HI as <-.
  vm_compute in Hc. injection Hc as <-.
  split; [exact Hclone|]. vm_compute. reflexivity.
Defined.

Lemma C5_witness_stored_task_has_the_kept_stages :
  let r := CreateWorkflowTaskV4 "ann" 1%positive
             (init (memory (demo demo_stages)) (store [])) in
  map Job_Name (conversion_calls (trace r.2)) = ["compile"]
  /\ Forall (fun job => Job_Skipped job = false) (conversion_calls (trace r.2))
  /\ exists t cerr,
       create_calls (trace r.2) = [(t, cerr)]
       /\ map StageTask_Name (WorkflowTask_Stages t) = ["build"]
       /\ map JobTask_Name (concat (map StageTask_Jobs (WorkflowTask_Stages t)))
          = ["compile"]
       /\ well_staged (WorkflowTask_Stages t).
Proof.
  cbv zeta.
  destruct (C5_skipped_jobs_and_empty_stages_are_dropped (EX := service) "ann" 1%positive
              (memory (demo demo_stages)) (store []) (demo demo_stages)
              (memory_lookup _)) as (Hcalls & Hout & _).
  split; [vm_compute; reflexivity|]. split; [exact Hcalls|].
  destruct (Hout (demo demo_stages) 7
              {| next_seq := 7; tasks := []; broken := [] |}
              (demo demo_stages) (described "task 7 of ann" (demo demo_stages))
              eq_refl eq_refl eq_refl eq_refl eq_refl)
    as [(e' & Hf & _)|(_ & convss & Hv & Hsc & Hm)].
  { vm_compute in Hf. discriminate Hf. }
  unfold stage_conversions in Hsc. simpl in Hsc.
  apply Forall2_cons_inv_l in Hsc as (c1 & cs & H1 & Hsc & ->).
  apply Forall2_cons_inv_l in Hsc as (c2 & cs' & H2 & Hsc & ->).
  apply Forall2_nil_inv_l in Hsc as ->.
  unfold active_jobs in H1, H2. simpl in H1, H2.
  apply Forall2_cons_inv_l in H1 as (j & js & _ & H1 & Ej).
  apply Forall2_nil_inv_l in H1 as ->.
  apply Forall2_nil_inv_l in H2.
  destruct c1 as [|[j1 jts] [|? ?]]; try discriminate Ej.
  destruct c2 as [|? ?]; try discriminate H2.
  vm_compute in Hv. injection Hv as <- <-.
  simpl in Hm. destruct Hm as (t & cerr & Hc & Hst & Hws & _).
  exists t, cerr. rewrite Hst. split_and!; [exact Hc|reflexivity|reflexivity|exact Hws].
Defined.

(** A workflow whose jobs are all skipped gives no stage: the lint refuses
    the task and nothing is stored. *)
Example all_jobs_skipped_is_refused :
  let r := CreateWorkflowTaskV4 "ann" 1%positive
             (init (memory (demo [stage "notify" [plain_job "mail" true]]))
                (store [])) in
  r.1.2 = Some (AddDesc ErrCreateTask "no stage found in workflow task: demo,taskID: 7")
  /\ create_calls (trace r.2) = [] /\ conversions (trace r.2) = [].
Proof. vm_compute. repeat split. Qed.

Lemma C8_witness_counter_and_job_failures :
  let run broken := CreateWorkflowTaskV4 "ann" 1%positive
                      (init (memory (demo demo_stages)) (store broken)) in
  ((run ["GetNextSeq"]).1.2 = Some (AddDesc ErrGetCounter "GetNextSeq failed")
   /\ create_calls (trace (run ["GetNextSeq"]).2) = [])
  /\ ((run ["compile"]).1.2 = Some (AddDesc ErrCreateTask "compile failed")
      /\ create_calls (trace (run ["compile"]).2) = [])
  /\ ((run ["setManunalBuilds"]).1.2
        = Some (AddDesc ErrCreateTask "setManunalBuilds failed")
      /\ create_calls (trace (run ["setManunalBuilds"]).2) = []).
Proof.
  cbv zeta. split_and!.
  - apply (proj1 (C8_errors_returned_before_the_task_is_stored (EX := service) "ann" 1%positive
             (memory (demo demo_stages)) (store ["GetNextSeq"]) (demo demo_stages)
             (memory_lookup _)) "WorkflowTaskV4:demo" (errorString "GetNextSeq failed")).
    vm_compute. repeat constructor.
  - apply (proj1 (C8_errors_returned_before_the_task_is_stored (EX := service) "ann" 1%positive
             (memory (demo demo_stages)) (store ["GetNextSeq"]) (demo demo_stages)
             (memory_lookup _)) "WorkflowTaskV4:demo" (errorString "GetNextSeq failed")).
    vm_compute. repeat constructor.
  - apply (proj2 (C8_errors_returned_before_the_task_is_stored (EX := service) "ann" 1%positive
             (memory (demo demo_stages)) (store ["compile"]) (demo demo_stages)
             (memory_lookup _)) (errorString "compile failed")).
    vm_compute. repeat constructor.
  - apply (proj2 (C8_errors_returned_before_the_task_is_stored (EX := service) "ann" 1%positive
             (memory (demo demo_stages)) (store ["compile"]) (demo demo_stages)
             (memory_lookup _)) (errorString "compile failed")).
    vm_compute. repeat constructor.
  - apply (proj2 (C8_errors_returned_before_the_task_is_stored (EX := service) "ann" 1%positive
             (memory (demo demo_stages)) (store ["setManunalBuilds"])
             (demo demo_stages) (memory_lookup _))
             (errorString "setManunalBuilds failed")).
    vm_compute. repeat constructor.
  - apply (proj2 (C8_errors_returned_before_the_task_is_stored (EX := service) "ann" 1%positive
             (memory (demo demo_stages)) (store ["setManunalBuilds"])
             (demo demo_stages) (memory_lookup _))
             (errorString "setManunalBuilds failed")).
    vm_compute. repeat constructor.
Defined.

Lemma C9_witness_guard_and_delegation :
  let approve name stage id broken :=
    ApproveStage name stage "ann" "u-1" "ok" id true (init ∅ (store broken)) in
  (exists desc, (approve "" "deploy" 7 []).1 = Some (AddDesc ErrApproveTask desc))
  /\ approvals (trace (approve "demo" "deploy" 0 []).2) = []
  /\ (approve "demo" "deploy" 7 []).1 = None
  /\ (approve "demo" "deploy" 7 ["ApproveStage"]).1
     = Some (AddErr ErrApproveTask (errorString "ApproveStage failed")).
Proof.
  cbv zeta. split_and!.
  - apply (proj1 (C9_ApproveStage_guards_then_delegates (EX := service) "" "deploy" "ann" "u-1"
                    "ok" 7 true ∅ (store []))). by left.
  - apply (proj1 (C9_ApproveStage_guards_then_delegates (EX := service) "demo" "deploy" "ann"
                    "u-1" "ok" 0 true ∅ (store []))). by right; right.
  - apply (proj2 (C9_ApproveStage_guards_then_delegates (EX := service) "demo" "deploy" "ann"
                    "u-1" "ok" 7 true ∅ (store []))). by split_and!.
  - apply (proj2 (C9_ApproveStage_guards_then_delegates (EX := service) "demo" "deploy" "ann"
                    "u-1" "ok" 7 true ∅ (store ["ApproveStage"]))). by split_and!.
Defined.

End service_scenarios.

(** ** The ingress getter *)

Section ingress_properties.
Import models getter.
Context {EX : Externals}.

(** The list both functions hand to [ListResourceInCache]. *)
Lemma ListIngresses_items (namespace : string) (cl : Client) (lessThan122 : bool) :
  (ListIngresses namespace cl lessThan122).1
  = (ListResourceInCache namespace Everything
       {| UnstructuredList_gvk := ingressGVK lessThan122;
          UnstructuredList_Items := [] |} cl).2.
Proof.
  unfold ListIngresses, SetGroupVersionKind. simpl.
  by destruct (ListResourceInCache _ _ _ _) as [[e|] u].
Qed.

(** C10: whenever the list call on the cache succeeds, [ListIngressesFormat]
    returns no ingress and no error, whatever the call put in the list it
    was given (which is what [ListIngresses] returns): the result is built
    from an [IngressList] that the call never sees. *)
Theorem C10_ListIngressesFormat_returns_no_ingress (namespace : string)
    (cl : Client) (lessThan122 : bool) (u : UnstructuredList) :
  ListResourceInCache namespace Everything
    {| UnstructuredList_gvk := ingressGVK lessThan122;
       UnstructuredList_Items := [] |} cl = (None, u) ->
  ListIngressesFormat namespace cl lessThan122 = ([], None)
  /\ ListIngresses namespace cl lessThan122 = (u, None).
Proof.
  intros Hlist. unfold ListIngressesFormat, ListIngresses, SetGroupVersionKind.
  simpl. rewrite Hlist. split; reflexivity.
Qed.

End ingress_properties.

Section ingress_scenarios.
Import models getter scripted.

Lemma C10_witness_two_ingresses_none_returned :
  ListIngressesFormat "prod" three_ingresses false = ([], None)
  /\ ListIngresses "prod" three_ingresses false
     = ({| UnstructuredList_gvk := networking_v1;
           UnstructuredList_Items := [DString "shop"; DString "api"] |}, None).
Proof.
  apply (C10_ListIngressesFormat_returns_no_ingress (EX := cache)).
  vm_compute. reflexivity.
Defined.

End ingress_scenarios.


(** ** More on the freestyle job controller *)

Section controller_phases.
Import models GoStrings jobcontroller.
Context {EP : ErrorsPkg} {EX : Externals}.

Ltac run_step :=
  unfold mbind, M_bind, mret, M_ret, call, emit, assign, this, peek, fail_with in *;
  simpl in *.

(** After [prepare], whether it failed or not, the timeout is positive: a
    timeout that was set is kept and one that was not is 600; an empty
    resource request is [MinRequest] and an empty cluster id the local
    cluster's, and one that was set is kept. *)
Theorem prepare_applies_defaults (s : State) :
  let p := Properties (jobTaskSpec (ctl s)) in
  let p' := Properties (jobTaskSpec (ctl (prepare s).2)) in
  0 < Timeout p'
  /\ Timeout p' = (if Timeout p <=? 0 then 600 else Timeout p)
  /\ ResourceRequest p'
     = (if String.eqb (ResourceRequest p) "" then MinRequest else ResourceRequest p)
  /\ ClusterID p' = cluster_of (ClusterID p)
  /\ Envs p' = Envs p /\ Namespace p' = Namespace p
  /\ DockerHost p' = DockerHost p.
Proof.
  cbv zeta. unfold prepare, cluster_of. run_step.
  repeat (case_match; simplify_eq/=); split_and!; try done; lia.
Qed.

Lemma run_launch_error_fails_the_job (s : State) :
  let r := run_launch s in
  match r.1 with
  | Some err => JobTask_Status (job (ctl r.2)) = StatusFailed
                /\ JobTask_Error (job (ctl r.2)) = Error err
                /\ JobTask_EndTime (job (ctl r.2)) = JobTask_EndTime (job (ctl s))
  | None => job (ctl r.2) = job (ctl s)
  end.
Proof.
  cbv zeta. unfold run_launch. run_step.
  repeat (case_match; simplify_eq/=); by split_and?.
Qed.

(** When [run] returns an error, whichever step failed, the job is failed
    and its [Error] is the text of the error returned; the end time is
    stamped only when the cluster clients could not be resolved.  When
    [run] returns no error the job is as it was. *)
Theorem run_error_fails_the_job (s : State) :
  let r := run s in
  match r.1 with
  | Some err => JobTask_Status (job (ctl r.2)) = StatusFailed
                /\ JobTask_Error (job (ctl r.2)) = Error err
                /\ (JobTask_EndTime (job (ctl r.2)) = JobTask_EndTime (job (ctl s))
                    \/ exists cid, CallGetK8sClients cid (Some err) ∈ trace r.2
                                   /\ JobTask_EndTime (job (ctl r.2))
                                      = time_Now_Unix (world r.2))
  | None => job (ctl r.2) = job (ctl s)
  end.
Proof.
  cbv zeta. unfold run. run_step.
  destruct (String.eqb _ LocalClusterID); simpl.
  - match goal with |- context [run_launch ?s1] =>
      pose proof (run_launch_error_fails_the_job s1) as L;
      destruct (run_launch s1) as [[err|] s2] end; simpl in *.
    + destruct L as (? & ? & ?). split_and!; try done. by left.
    + done.
  - destruct (GetK8sClients _ _ _) as [[err|[[a b] d]] w1]; simpl.
    + split_and!; try done. right. eexists. split; [|done].
      apply list_elem_of_here.
    + match goal with |- context [run_launch ?s1] =>
        pose proof (run_launch_error_fails_the_job s1) as L;
        destruct (run_launch s1) as [[err|] s2] end; simpl in *.
      * destruct L as (? & ? & ?). split_and!; try done. by left.
      * done.
Qed.



Lemma prepare_failed (s : State) :
  (prepare s).1 <> None ->
  JobTask_Status (job (ctl (prepare s).2)) = StatusFailed.
Proof.
  unfold prepare. run_step.
  by repeat (case_match; simplify_eq/=).
Qed.

Lemma run_failed (s : State) :
  (run s).1 <> None -> JobTask_Status (job (ctl (run s).2)) = StatusFailed.
Proof.
  unfold run. run_step.
  destruct (String.eqb _ LocalClusterID); simpl.
  - match goal with |- context [run_launch ?s1] =>
      pose proof (run_launch_error_fails_the_job s1) as L;
      destruct (run_launch s1) as [[err|] s2] end; simpl in *; [|done].
    by destruct L.
  - destruct (GetK8sClients _ _ _) as [[err|[[a b] d]] w1]; simpl; [done|].
    match goal with |- context [run_launch ?s1] =>
      pose proof (run_launch_error_fails_the_job s1) as L;
      destruct (run_launch s1) as [[err|] s2] end; simpl in *; [|done].
    by destruct L.
Qed.

(** What a phase does to the namespaces named in the trace, to the calls
    to [waitJobEndWithFile] and to the namespace and cluster of the job. *)
Lemma prepare_frame (s : State) :
  let s' := (prepare s).2 in
  namespaces (trace s') = namespaces (trace s)
  /\ waits (trace s') = waits (trace s).
Proof.
  cbv zeta. unfold prepare. run_step.
  repeat (case_match; simplify_eq/=); by split_and!.
Qed.

Lemma run_frame (s : State) :
  let s' := (run s).2 in
  let ns := namespace_of (ClusterID (Properties (jobTaskSpec (ctl s)))) in
  (exists nss, namespaces (trace s') = nss ++ namespaces (trace s)
               /\ Forall (eq ns) nss)
  /\ waits (trace s') = waits (trace s)
  /\ Namespace (Properties (jobTaskSpec (ctl s'))) = ns.
Proof.
  cbv zeta. unfold run, run_launch, namespace_of. run_step.
  repeat (case_match; simplify_eq/=);
    (split_and!; [|done|done]);
    first [ exists []; split; [reflexivity|by repeat constructor]
          | eexists [_]; split; [reflexivity|by repeat constructor]
          | eexists [_; _]; split; [reflexivity|by repeat constructor]
          | eexists [_; _; _]; split; [reflexivity|by repeat constructor] ].
Qed.

Lemma wait_frame (s : State) :
  let s' := (wait s).2 in
  let ns := Namespace (Properties (jobTaskSpec (ctl s))) in
  namespaces (trace s') = ns :: namespaces (trace s)
  /\ waits (trace s') = JobTask_Status (job (ctl s')) :: waits (trace s)
  /\ Namespace (Properties (jobTaskSpec (ctl s'))) = ns.
Proof.
  cbv zeta. unfold wait. run_step.
  repeat (case_match; simplify_eq/=); by split_and!.
Qed.

Lemma omap_output_writes {B} (f : Event -> option B) (jobname : string)
    (outputs : list JobOutput) :
  (forall k v, f (CallGlobalContextSet k v) = None) ->
  omap f (rev (map (fun o => CallGlobalContextSet
                               (output_key jobname (JobOutput_Name o))
                               (JobOutput_Value o)) outputs)) = [].
Proof.
  intros Hf. induction outputs as [|o outputs IH]; [done|].
  simpl. rewrite omap_app, IH. simpl. by rewrite Hf.
Qed.

Ltac run_write_outputs :=
  match goal with
  | |- context [write_outputs ?n ?o ?s0] =>
      let Hw := fresh "Hw" in
      pose proof (write_outputs_spec n o s0) as Hw;
      destruct (write_outputs n o s0) as [[] ?s1];
      simpl in Hw;
      destruct Hw as (?Ht & ?Hw & ?Hj & ?Hs & ?Hk & ?Hn & ?Hi & ?Hg)
  end.

Lemma complete_frame (s : State) :
  let s' := (complete s).2 in
  let ns := Namespace (Properties (jobTaskSpec (ctl s))) in
  namespaces (trace s') = [ns; ns; ns] ++ namespaces (trace s)
  /\ waits (trace s') = waits (trace s)
  /\ JobTask_Status (job (ctl s')) = JobTask_Status (job (ctl s)).
Proof.
  cbv zeta. destruct (complete s) as [[] s'] eqn:E. simpl.
  revert E. unfold complete, complete_body. run_step.
  destruct (getJobOutput _ _ _ _ _) as [[outputs err1] w1]. simpl.
  destruct err1; simpl; run_write_outputs;
    destruct (saveContainerLog _ _ _ _ _ _ _ _) as [[err2|] w2]; simpl;
    try (destruct (SummarizeSteps _ _ _ _) as [[[err3|] p3] w3]; simpl);
    intros [= <-]; simpl; rewrite ?Ht, ?Hs, ?Hj; simpl;
    unfold namespaces, waits; simpl;
    rewrite !omap_app, !omap_output_writes by done; done.
Qed.

(** [complete] goes on after a failure to read the outputs: it ships the
    logs exactly once whatever [getJobOutput] returned.  It never changes
    the job's status, and the [Error] it leaves is the text of the last
    error that one of its three calls returned, or the [Error] it found
    when none failed. *)
Theorem complete_keeps_the_last_error (c : FreestyleJobCtl) (w : World) :
  let s' := (complete (init c w)).2 in
  length (log_ships (trace s')) = 1%nat
  /\ JobTask_Status (job (ctl s')) = JobTask_Status (job c)
  /\ JobTask_Error (job (ctl s'))
     = match last (complete_errors (trace s')) with
       | Some e => Error e
       | None => JobTask_Error (job c)
       end.
Proof.
  cbv zeta. destruct (complete (init c w)) as [[] s'] eqn:E. simpl.
  revert E. unfold complete, complete_body, init. run_step.
  destruct (getJobOutput _ _ _ _ _) as [[outputs err1] w1]. simpl.
  destruct err1; simpl; run_write_outputs;
    destruct (saveContainerLog _ _ _ _ _ _ _ _) as [[err2|] w2]; simpl;
    try (destruct (SummarizeSteps _ _ _ _) as [[[err3|] p3] w3]; simpl);
    intros [= <-]; simpl; rewrite ?Ht, ?Hs, ?Hj; simpl;
    unfold log_ships, complete_errors; simpl;
    rewrite ?rev_app_distr, ?rev_involutive; simpl;
    rewrite ?omap_app, ?omap_output_writes by done; simpl;
    rewrite <- ?app_assoc; simpl.
  all: match goal with |- context [omap ?f (map ?g ?os)] =>
         assert (omap f (map g os) = []) as ->
           by (clear; induction os; [done|simpl; done])
       end.
  all: by split_and!.
Qed.


(** [Run] leaves the job failed when [prepare] or [run] returns an error,
    without having waited for it; otherwise it waits once and leaves the
    job in the status that [waitJobEndWithFile] returned, which [complete]
    does not change. *)
Theorem Run_final_status (c : FreestyleJobCtl) (w : World) :
  let p := prepare (init c w) in
  let r := run p.2 in
  let s' := (Run (init c w)).2 in
  match p.1, r.1 with
  | None, None => waits (trace s') = [JobTask_Status (job (ctl s'))]
  | _, _ => waits (trace s') = []
            /\ JobTask_Status (job (ctl s')) = StatusFailed
  end.
Proof.
  cbv zeta. unfold Run. unfold mbind, M_bind.
  pose proof (prepare_frame (init c w)) as [_ Hp1].
  pose proof (prepare_failed (init c w)) as Hp2.
  destruct (prepare (init c w)) as [perr s1]. simpl in *.
  destruct perr as [perr|]; simpl.
  { split; [done|]. by apply Hp2. }
  pose proof (run_frame s1) as (_ & Hr1 & _).
  pose proof (run_failed s1) as Hr2.
  destruct (run s1) as [rerr s2]. simpl in *.
  destruct rerr as [rerr|]; simpl.
  { split; [by rewrite Hr1|]. by apply Hr2. }
  pose proof (wait_frame s2) as (_ & Hw1 & _).
  destruct (wait s2) as [[] s3]. simpl in *.
  pose proof (complete_frame s3) as (_ & Hc1 & Hc2).
  by rewrite Hc1, Hw1, Hr1, Hp1, Hc2.
Qed.

End controller_phases.


(** ** The docker host that [run] stores *)

Section docker_host.
Import models GoStrings jobcontroller.
Context {EX : Externals}.

Lemma HasPrefix_refl_app (s t : string) : HasPrefix (s +:+ t) s = true.
Proof.
  induction s as [|a s IH].
  - destruct t; reflexivity.
  - simpl. by rewrite Ascii.eqb_refl.
Qed.

Lemma HasPrefix_app_l (s t x : string) :
  HasPrefix s x = true -> HasPrefix (s +:+ t) x = true.
Proof.
  revert s. induction x as [|a x IH]; intros s.
  - intros _. by destruct (s +:+ t).
  - destruct s as [|b s]; simpl; [done|].
    destruct (Ascii.eqb a b); [apply IH|done].
Qed.

Lemma Index_unfold (s x : string) :
  Index s x = if HasPrefix s x then Some 0%nat
              else match s with
                   | EmptyString => None
                   | String _ s' => S <$> Index s' x
                   end.
Proof. by destruct s. Qed.

Lemma Contains_app_l (s t x : string) :
  Contains s x = true -> Contains (s +:+ t) x = true.
Proof.
  unfold Contains. induction s as [|a s IH].
  - rewrite (Index_unfold "" x). destruct (HasPrefix "" x) eqn:E; [|done].
    intros _. rewrite (Index_unfold ("" +:+ t) x).
    by rewrite (HasPrefix_app_l "" t x E).
  - rewrite (Index_unfold (String a s) x), (Index_unfold (String a s +:+ t) x).
    destruct (HasPrefix (String a s) x) eqn:E.
    + intros _. by rewrite (HasPrefix_app_l _ t x E).
    + destruct (HasPrefix (String a s +:+ t) x); [done|].
      simpl. destruct (Index s x); [|done]. intros _.
      destruct (Index (s +:+ t) x); [done|]. by apply IH.
Qed.

Lemma Contains_app_r (s t x : string) :
  Contains t x = true -> Contains (s +:+ t) x = true.
Proof.
  unfold Contains. intros Ht. induction s as [|a s IH]; [done|].
  change (String a s +:+ t) with (String a (s +:+ t)).
  rewrite (Index_unfold (String a (s +:+ t)) x).
  destruct (HasPrefix _ x); [done|].
  by destruct (Index (s +:+ t) x).
Qed.

Lemma Contains_refl_app (s t : string) : Contains (s +:+ t) s = true.
Proof.
  unfold Contains. rewrite Index_unfold. by rewrite HasPrefix_refl_app.
Qed.

Lemma Contains_refl (s : string) : Contains s s = true.
Proof.
  unfold Contains. rewrite Index_unfold.
  assert (HasPrefix s s = true) as ->; [|done].
  induction s as [|a s IH]; simpl; [done|]. by rewrite Ascii.eqb_refl.
Qed.

(** What [strings.Replace(s, old, new, 1)] leaves contains [x] when [new]
    does and [old] occurs in [s]. *)
Lemma Replace1_Contains (s old new x : string) :
  Contains s old = true -> Contains new x = true -> old <> new ->
  Contains (Replace1 s old new) x = true.
Proof.
  intros Hs Hx Hne. unfold Replace1.
  apply String.eqb_neq in Hne. rewrite Hne.
  unfold Contains in Hs. destruct (Index s old) as [j|]; [|done].
  apply Contains_app_r, Contains_app_l, Hx.
Qed.

(** On a remote cluster, a docker host that contains the process namespace
    or [.dind] is stored with the namespace [koderover-agent] in it. *)
Theorem remote_docker_host_names_the_agent_namespace (clusterID host : string) :
  clusterID <> "" -> clusterID <> LocalClusterID ->
  Contains host config_Namespace = true \/ Contains host ".dind" = true ->
  Contains (rewriteDockerHost clusterID host) KoderoverAgentNamespace = true.
Proof.
  intros H1 H2 Hc. unfold rewriteDockerHost.
  apply String.eqb_neq in H1, H2. rewrite H1, H2. simpl.
  destruct (Contains host config_Namespace) eqn:Ens.
  - destruct (String.eqb_spec config_Namespace KoderoverAgentNamespace) as [Heq|Hne].
    + unfold Replace1. apply String.eqb_eq in Heq as Heq'. rewrite Heq'.
      by rewrite <- Heq.
    + by apply Replace1_Contains.
  - destruct Hc as [Hc|Hc]; [done|].
    by apply Replace1_Contains.
Qed.

(** On the local cluster, a docker host that contains [.dind] and not the
    process namespace is stored with the process namespace in it. *)
Theorem local_docker_host_gets_the_process_namespace (clusterID host : string) :
  clusterID = "" \/ clusterID = LocalClusterID ->
  Contains host config_Namespace = false -> Contains host ".dind" = true ->
  Contains (rewriteDockerHost clusterID host) config_Namespace = true.
Proof.
  intros Hl Hns Hd. unfold rewriteDockerHost. rewrite Hns. simpl.
  assert (negb (String.eqb clusterID "")
          && negb (String.eqb clusterID LocalClusterID) = false) as ->.
  { destruct Hl as [-> | ->]; [done|].
    by rewrite String.eqb_refl, andb_false_r. }
  assert (String.eqb clusterID "" || String.eqb clusterID LocalClusterID = true)
    as ->.
  { destruct Hl as [-> | ->]; [done|]. by rewrite String.eqb_refl, orb_true_r. }
  apply Replace1_Contains; try done.
  apply (Contains_app_r ".dind." config_Namespace config_Namespace).
  apply Contains_refl.
Qed.

End docker_host.


(** ** More on task materialization *)

Section materialization.
Import models GoStrings workflow.
Context {EP : ErrorsPkg} {EX : Externals}.

Ltac exec :=
  unfold mbind, M_bind, mret, M_ret, call, emit, peek, itoi, load, store,
    store_job, alloc, followed in *;
  simpl in *.



(** The counter is asked only after the lint and the copy of the workflow
    succeeded, and then once, for the name made from the workflow's name on
    entry.  The response names the project and workflow as they were on
    entry, and its task id is the counter's value once the counter gave
    one, whatever fails later, and 0 before. *)
Theorem task_id_is_taken_after_lint_and_copy (user : string) (workflow : loc)
    (h : gmap loc WorkflowV4) (w : World) (w0 : WorkflowV4) :
  h !! workflow = Some w0 ->
  let r := CreateWorkflowTaskV4 user workflow (init h w) in
  let name := WorkflowTaskV4Fmt (WorkflowV4_Name w0) in
  ProjectName r.1.1 = WorkflowV4_Project w0
  /\ WorkflowName r.1.1 = WorkflowV4_Name w0
  /\ match LintWorkflowV4 w0, IToi_WorkflowV4 w0 with
     | None, inr _ =>
         counter_calls (trace r.2) = [(name, (GetNextSeq name w).1)]
         /\ TaskID r.1.1 = match (GetNextSeq name w).1 with
                           | inr id => id
                           | inl _ => 0
                           end
     | _, _ => counter_calls (trace r.2) = [] /\ TaskID r.1.1 = 0
     end.
Proof.
  intros Hw0. cbv zeta. unfold CreateWorkflowTaskV4, init. exec.
  rewrite Hw0. simpl.
  destruct (LintWorkflowV4 w0) as [e0|]; simpl; [by split_and!|].
  destruct (IToi_WorkflowV4 w0) as [e0|origin]; simpl; [by split_and!|].
  destruct (GetNextSeq _ w) as [[e0|id] w1]; simpl; [by split_and!|].
  pose proof (fresh_loc_ne h workflow w0 Hw0) as Hne.
  rewrite lookup_insert_ne by done. rewrite Hw0. simpl.
  destruct (RemoveFixedValueMarks w0) as [[e0|] wa]; simpl; [by split_and!|].
  destruct (RenderGlobalVariables wa id user) as [[e0|] wb]; simpl;
    [by split_and!|].
  match goal with |- context [stages_loop workflow id 0%nat ?st [] ?s1] =>
    destruct (stages_loop_spec workflow id st 0 [] s1)
      as (evs & (Ht & _ & _ & Hn) & _);
    destruct (stages_loop workflow id 0 st [] s1) as [[e|stages] s2]
  end; simpl in *.
  { rewrite Ht, counter_calls_app, Hn. by split_and!. }
  match goal with |- context [create_task ?resp workflow ?t s2] =>
    destruct (create_task_spec resp workflow t s2)
      as (_ & evs2 & Ht2 & Hn2 & _ & _ & Hcase);
    destruct (create_task resp workflow t s2) as [[resp' err] s3]
  end; simpl in *.
  rewrite Ht2, Ht, !counter_calls_app, Hn2, Hn.
  destruct Hcase as [(desc & [= -> _] & _)|(cerr & _ & [= -> _] & _)];
    by split_and!.
Qed.

End materialization.


(** ** The repository setters *)

Section setters.
Import models GoStrings workflow.
Context {EP : ErrorsPkg} {EX : Externals}.

Ltac exec :=
  unfold mbind, M_bind, mret, M_ret, call, emit, peek, itoi, load, store,
    store_job, alloc, followed in *;
  simpl in *.

Lemma builds_loop_filled (builds : list ServiceAndBuild) (s : State) :
  match (builds_loop builds s).1 with
  | inl _ => True
  | inr builds' => Forall2 build_filled builds builds'
  end.
Proof.
  revert s. induction builds as [|build rest IH]; intros s; [by constructor|].
  cbn [builds_loop]. exec.
  destruct (setManunalBuilds _ _ (world s)) as [[[err|] repos] w1] eqn:E;
    simpl; [done|].
  match goal with |- context [builds_loop rest ?s1] =>
    specialize (IH s1); destruct (builds_loop rest s1) as [[e|rest'] s2] end;
  simpl in *; [done|].
  constructor; [|exact IH]. split_and!; try done.
  exists (world s). by rewrite E.
Qed.

Lemma steps_loop_filled (steps : list Step) (s : State) :
  match (steps_loop steps s).1 with
  | inl _ => True
  | inr steps' => Forall2 step_filled steps steps'
  end.
Proof.
  revert s. induction steps as [|step rest IH]; intros s; [by constructor|].
  cbn [steps_loop]. destruct (String.eqb_spec (Step_StepType step) StepGit)
    as [Hgit|Hgit]; simpl.
  - exec. destruct (IToi_StepGitSpec _) as [err|stepSpec] eqn:EI; simpl; [done|].
    destruct (setManunalBuilds _ _ (world s)) as [[[err|] repos] w1] eqn:E;
      simpl; [done|].
    match goal with |- context [steps_loop rest ?s1] =>
      specialize (IH s1); destruct (steps_loop rest s1) as [[e|rest'] s2] end;
    simpl in *; [done|].
    constructor; [|exact IH]. split_and!; try done.
    intros _. exists stepSpec, repos, (world s). by rewrite E.
  - exec. specialize (IH s).
    destruct (steps_loop rest s) as [[e|rest'] s2]; simpl in *; [done|].
    constructor; [|exact IH]. by split_and!.
Qed.

(** [setZadigBuildRepos] either fails and leaves the job as it was, with
    the error of the decoding or of the repository lookup that failed, or
    gives the job the decoded build spec in which every build, in order,
    has the repositories [setManunalBuilds] gave for its own and is
    otherwise unchanged.  The job keeps its name, type and skip flag, and no
    document is written. *)
Theorem setZadigBuildRepos_fills_every_build (job : Job) (s : State) :
  let r := setZadigBuildRepos job s in
  heap r.2 = heap s
  /\ match r.1.1 with
     | Some e => r.1.2 = job /\ failures (trace r.2) = e :: failures (trace s)
     | None =>
         exists spec builds,
           IToi_ZadigBuildJobSpec (Job_Spec job) = inr spec
           /\ Forall2 build_filled (ZadigBuildJobSpec_ServiceAndBuilds spec) builds
           /\ r.1.2
              = {| Job_Name := Job_Name job; Job_JobType := Job_JobType job;
                   Job_Skipped := Job_Skipped job;
                   Job_Spec := JobSpecZadigBuild
                     {| ZadigBuildJobSpec_DockerRegistryID :=
                          ZadigBuildJobSpec_DockerRegistryID spec;
                        ZadigBuildJobSpec_ServiceAndBuilds := builds |} |}
     end.
Proof.
  cbv zeta.
  destruct (setZadigBuildRepos_spec job s)
    as ((evs & Ht & Hh & _ & _ & _ & Hf) & _ & _).
  split; [exact Hh|]. rewrite Ht, failures_app, Hf. clear Ht Hh Hf.
  unfold setZadigBuildRepos. exec.
  destruct (IToi_ZadigBuildJobSpec _) as [err|spec]; simpl; [done|].
  match goal with |- context [builds_loop ?b ?s1] =>
    pose proof (builds_loop_filled b s1) as HF;
    destruct (builds_loop b s1) as [[e|builds] s2] end;
  simpl in *; [done|].
  by exists spec, builds.
Qed.

(** [setFreeStyleRepos] either fails and leaves the job as it was, or gives
    the job the decoded freestyle spec with the same properties and outputs
    and the same steps in the same order: a step that is not a git step is
    untouched and a git step carries the repositories [setManunalBuilds]
    gave for its own.  No document is written. *)
Theorem setFreeStyleRepos_fills_the_git_steps (job : Job) (s : State) :
  let r := setFreeStyleRepos job s in
  heap r.2 = heap s
  /\ match r.1.1 with
     | Some e => r.1.2 = job /\ failures (trace r.2) = e :: failures (trace s)
     | None =>
         exists spec steps,
           IToi_FreestyleJobSpec (Job_Spec job) = inr spec
           /\ Forall2 step_filled (FreestyleJobSpec_Steps spec) steps
           /\ r.1.2
              = {| Job_Name := Job_Name job; Job_JobType := Job_JobType job;
                   Job_Skipped := Job_Skipped job;
                   Job_Spec := JobSpecFreestyle
                     {| FreestyleJobSpec_Properties :=
                          FreestyleJobSpec_Properties spec;
                        FreestyleJobSpec_Steps := steps;
                        FreestyleJobSpec_Outputs :=
                          FreestyleJobSpec_Outputs spec |} |}
     end.
Proof.
  cbv zeta.
  destruct (setFreeStyleRepos_spec job s)
    as ((evs & Ht & Hh & _ & _ & _ & Hf) & _ & _).
  split; [exact Hh|]. rewrite Ht, failures_app, Hf. clear Ht Hh Hf.
  unfold setFreeStyleRepos. exec.
  destruct (IToi_FreestyleJobSpec _) as [err|spec]; simpl; [done|].
  match goal with |- context [steps_loop ?b ?s1] =>
    pose proof (steps_loop_filled b s1) as HF;
    destruct (steps_loop b s1) as [[e|steps] s2] end;
  simpl in *; [done|].
  by exists spec, steps.
Qed.

End setters.


(** ** The preview of a stored task *)

Section preview_properties.
Import models GoStrings workflow preview.
Context {EP : ErrorsPkg} {EX : Externals} {DE : Decoders}.

Ltac exec :=
  unfold mbind, M_bind, mret, M_ret, call, emit, peek, itoi, load, store,
    store_job, alloc, followed in *;
  simpl in *.

Lemma JobTask_with_own_JobType (job : JobTask) :
  JobTask_with_JobType (JobTask_JobType job) job = job.
Proof. by destruct job. Qed.

(** One turn of the loop: it reads and logs only, leaves the job as it
    was but for the type of a helm deploy, and appends a preview exactly
    when the spec decodes. *)
Lemma preview_job_spec (job : JobTask) (s : State) :
  let r := preview_job job s in
  heap r.2 = heap s /\ world r.2 = world s
  /\ r.1.1 = JobTask_with_JobType (shown_type (JobTask_JobType job)) job
  /\ match r.1.2 with
     | Some p => decodes job = true /\ copied job p
     | None => decodes job = false
     end.
Proof.
  cbv zeta. unfold preview_job, decodes, copied. unfold shown_type.
  destruct (String.eqb_spec (JobTask_JobType job) FreestyleType) as [Hf|Hf];
    simpl.
  { rewrite andb_false_r, JobTask_with_own_JobType.
    destruct (IToi_JobTaskBuildSpec _); exec; by split_and!. }
  rewrite andb_true_r.
  destruct (String.eqb_spec (JobTask_JobType job) JobZadigBuild) as [Hb|Hb];
    simpl.
  { destruct (String.eqb_spec (JobTask_JobType job) JobZadigHelmDeploy)
      as [Hh|Hh]; [by rewrite Hb in Hh|].
    rewrite JobTask_with_own_JobType.
    destruct (IToi_JobTaskBuildSpec _); exec; by split_and!. }
  destruct (String.eqb_spec (JobTask_JobType job) JobZadigDeploy) as [Hd|Hd];
    simpl.
  { destruct (String.eqb_spec (JobTask_JobType job) JobZadigHelmDeploy)
      as [Hh|Hh]; [by rewrite Hd in Hh|].
    rewrite JobTask_with_own_JobType.
    destruct (IToi_JobTaskDeploySpec _); exec; by split_and!. }
  destruct (String.eqb_spec (JobTask_JobType job) JobZadigHelmDeploy) as [Hh|Hh];
    simpl.
  { destruct (IToi_JobTaskHelmDeploySpec _); exec; by split_and!. }
  rewrite JobTask_with_own_JobType.
  destruct (String.eqb_spec (JobTask_JobType job) JobPlugin) as [Hp|Hp]; simpl.
  { destruct (IToi_JobTaskPluginSpec _); exec; by split_and!. }
  destruct (String.eqb_spec (JobTask_JobType job) JobCustomDeploy) as [Hc|Hc];
    simpl; [|exec; by split_and!].
  destruct (IToi_JobTaskCustomDeploySpec _) as [e|t]; simpl;
    [exec; by split_and!|].
  exec. destruct (K8SClusterColl_Get _ _); exec; by split_and!.
Qed.

Lemma previews_loop_spec (jobs : list JobTask) (resp : list JobTaskPreview)
    (s : State) :
  let r := previews_loop jobs resp s in
  heap r.2 = heap s /\ world r.2 = world s
  /\ r.1.1 = (fun job => JobTask_with_JobType (shown_type (JobTask_JobType job)) job)
               <$> jobs
  /\ exists new, r.1.2 = resp ++ new
                 /\ Forall2 copied (List.filter decodes jobs) new.
Proof.
  cbv zeta. revert resp s. induction jobs as [|job rest IH]; intros resp s.
  - simpl. split_and!; try done. exists []. by rewrite app_nil_r.
  - cbn [previews_loop List.filter fmap list_fmap].
    destruct (preview_job_spec job s) as (Hh & Hw & Hj & Hp).
    destruct (preview_job job s) as [[job' p] s1] eqn:E1.
    rewrite (bind_run _ _ _ _ _ E1). simpl in *.
    match goal with |- context [previews_loop rest ?acc] =>
      destruct (IH acc s1) as (Hh2 & Hw2 & Hj2 & new & Hn & HF);
      destruct (previews_loop rest acc s1) as [[rest' resp'] s2] eqn:E2;
      rewrite (bind_run _ _ _ _ _ E2)
    end. simpl in *. subst job' rest'.
    split_and!; [congruence|congruence|done|].
    destruct p as [p|].
    + destruct Hp as [-> Hc]. exists (p :: new).
      split; [by rewrite Hn, <- app_assoc|by constructor].
    + rewrite Hp. by exists new.
Qed.

Lemma previews_of_the_jobs_that_decode (jobs : list JobTask)
    (s : State) :
  let r := jobsToJobPreviews jobs s in
  Forall2 copied (List.filter decodes jobs) r.1.2
  /\ heap r.2 = heap s /\ world r.2 = world s.
Proof.
  cbv zeta. unfold jobsToJobPreviews.
  destruct (previews_loop_spec jobs [] s) as (Hh & Hw & _ & new & -> & HF).
  by split_and!.
Qed.


(** [jobsToJobPreviews] writes to the jobs it is given: a helm deploy job
    leaves with the type of a deploy job, whether its spec decodes or not;
    nothing else of any job is changed. *)
Theorem jobsToJobPreviews_retypes_helm_jobs (jobs : list JobTask) (s : State) :
  (jobsToJobPreviews jobs s).1.1
  = (fun job => JobTask_with_JobType (shown_type (JobTask_JobType job)) job)
      <$> jobs.
Proof.
  unfold jobsToJobPreviews.
  by destruct (previews_loop_spec jobs [] s) as (_ & _ & -> & _).
Qed.

Lemma fold_env_step (envs : list KeyVal) (spec : ZadigBuildJobSpec) :
  let spec' := fold_left env_step envs spec in
  let pick key old :=
    match last (KeyVal_Value <$>
                  List.filter (fun arg => String.eqb (KeyVal_Key arg) key) envs) with
    | Some v => v
    | None => old
    end in
  ZadigBuildJobSpec_Image spec' = pick "IMAGE" (ZadigBuildJobSpec_Image spec)
  /\ ZadigBuildJobSpec_ServiceName spec'
     = pick "SERVICE" (ZadigBuildJobSpec_ServiceName spec)
  /\ ZadigBuildJobSpec_ServiceModule spec'
     = pick "SERVICE_MODULE" (ZadigBuildJobSpec_ServiceModule spec)
  /\ ZadigBuildJobSpec_Repos spec' = ZadigBuildJobSpec_Repos spec
  /\ ZadigBuildJobSpec_Envs spec' = ZadigBuildJobSpec_Envs spec.
Proof.
  cbv zeta. revert spec. induction envs as [|arg envs IH]; intros spec; [done|].
  cbn [fold_left List.filter].
  destruct (IH (env_step spec arg)) as (H1 & H2 & H3 & H4 & H5).
  rewrite H1, H2, H3, H4, H5. clear IH H1 H2 H3 H4 H5.
  unfold env_step.
  destruct (String.eqb_spec (KeyVal_Key arg) "IMAGE") as [->|Hi]; simpl.
  { split_and!; try done.
    rewrite last_cons. unfold fmap. by destruct (last _). }
  destruct (String.eqb_spec (KeyVal_Key arg) "SERVICE") as [->|Hs]; simpl.
  { split_and!; try done.
    rewrite last_cons. unfold fmap. by destruct (last _). }
  destruct (String.eqb_spec (KeyVal_Key arg) "SERVICE_MODULE") as [Hm|Hm]; simpl.
  { split_and!; try done.
    rewrite last_cons. unfold fmap. by destruct (last _). }
  done.
Qed.

Lemma fold_step_step (steps : list StepTask) (spec : ZadigBuildJobSpec) :
  let spec' := fold_left step_step steps spec in
  ZadigBuildJobSpec_Image spec' = ZadigBuildJobSpec_Image spec
  /\ ZadigBuildJobSpec_ServiceName spec' = ZadigBuildJobSpec_ServiceName spec
  /\ ZadigBuildJobSpec_ServiceModule spec' = ZadigBuildJobSpec_ServiceModule spec
  /\ ZadigBuildJobSpec_Envs spec' = ZadigBuildJobSpec_Envs spec
  /\ ZadigBuildJobSpec_Repos spec'
     = match last (List.filter (fun step => String.eqb (StepTask_StepType step) StepGit)
                     steps) with
       | Some step => StepGitSpec_Repos (IToi_StepGitSpec_left (StepTask_Spec step))
       | None => ZadigBuildJobSpec_Repos spec
       end.
Proof.
  cbv zeta. revert spec. induction steps as [|step steps IH]; intros spec; [done|].
  cbn [fold_left List.filter].
  destruct (IH (step_step spec step)) as (H1 & H2 & H3 & H4 & H5).
  rewrite H1, H2, H3, H4, H5. clear IH H1 H2 H3 H4 H5.
  unfold step_step.
  destruct (String.eqb (StepTask_StepType step) StepGit); simpl; [|done].
  split_and!; try done.
  rewrite last_cons. by destruct (last _).
Qed.

(** The preview of a build or freestyle job whose spec decodes shows, as
    image, service and service module, the value of the last variable named
    [IMAGE], [SERVICE] and [SERVICE_MODULE] among the job's variables, or
    nothing when there is none; as variables the job's custom variables;
    and as repositories those of its last git step, or none. *)
Theorem build_preview_reads_the_last_values (job : JobTask)
    (taskJobSpec : JobTaskBuildSpec) (s : State) :
  String.eqb (JobTask_JobType job) FreestyleType
  || String.eqb (JobTask_JobType job) JobZadigBuild = true ->
  IToi_JobTaskBuildSpec (JobTask_Spec job) = inr taskJobSpec ->
  exists spec,
    (preview_job job s).1.2
    = Some (with_Spec (SpecZadigBuild spec) (newJobTaskPreview job))
    /\ let envs := Envs (Properties taskJobSpec) in
       ZadigBuildJobSpec_Image spec = last_value "IMAGE" envs
       /\ ZadigBuildJobSpec_ServiceName spec = last_value "SERVICE" envs
       /\ ZadigBuildJobSpec_ServiceModule spec = last_value "SERVICE_MODULE" envs
       /\ ZadigBuildJobSpec_Envs spec = CustomEnvs (Properties taskJobSpec)
       /\ ZadigBuildJobSpec_Repos spec
          = match last (List.filter
                          (fun step => String.eqb (StepTask_StepType step) StepGit)
                          (Steps taskJobSpec)) with
            | Some step =>
                StepGitSpec_Repos (IToi_StepGitSpec_left (StepTask_Spec step))
            | None => []
            end.
Proof.
  intros Hty Hdec. unfold preview_job. rewrite Hty, Hdec. simpl.
  eexists. split; [reflexivity|]. cbv zeta. unfold buildSpec, last_value.
  match goal with |- context [fold_left step_step ?st ?sp] =>
    destruct (fold_step_step st sp) as (H1 & H2 & H3 & H4 & H5) end.
  rewrite H1, H2, H3, H4, H5. simpl.
  match goal with |- context [fold_left env_step ?en ?sp] =>
    destruct (fold_env_step en sp) as (G1 & G2 & G3 & G4 & G5) end.
  rewrite G1, G2, G3, G4. simpl.
  split_and!; try done;
    by destruct (last (KeyVal_Value <$> List.filter _ _)).
Qed.

Lemma stage_previews_spec (stages : list StageTask) (resp : list StageTaskPreview)
    (s : State) :
  let r := stage_previews stages resp s in
  heap r.2 = heap s /\ world r.2 = world s
  /\ exists new, r.1 = resp ++ new /\ Forall2 staged stages new.
Proof.
  cbv zeta. revert resp s. induction stages as [|stage rest IH]; intros resp s.
  - simpl. split_and!; try done. exists []. by rewrite app_nil_r.
  - cbn [stage_previews].
    destruct (previews_of_the_jobs_that_decode (StageTask_Jobs stage) s)
      as (HF & Hh & Hw).
    destruct (jobsToJobPreviews (StageTask_Jobs stage) s) as [[jobs' ps] s1] eqn:E1.
    rewrite (bind_run _ _ _ _ _ E1). simpl in *.
    match goal with |- context [stage_previews rest ?acc s1] =>
      destruct (IH acc s1) as (Hh2 & Hw2 & new & -> & HF2) end.
    split_and!; [congruence|congruence|].
    eexists (_ :: new). split; [by rewrite <- app_assoc|].
    constructor; [|exact HF2]. by split_and!.
Qed.

(** [GetWorkflowTaskV4] returns the error of the lookup as it is, with no
    preview; otherwise it returns no error and a preview with the header of
    the stored task and one stage per stage of the task, in order, each
    with the header of its stage and the previews of those of its jobs that
    decode, so that a stage whose jobs all fail to decode is listed with no
    job.  It only reads. *)
Theorem GetWorkflowTaskV4_previews_every_stage (workflowName : string)
    (taskID : Z) (h : gmap loc WorkflowV4) (w : World) :
  let r := GetWorkflowTaskV4 workflowName taskID (init h w) in
  heap r.2 = h /\ world r.2 = w
  /\ match Find workflowName taskID w with
     | inl err => r.1 = (None, Some err)
     | inr task =>
         r.1.2 = None
         /\ exists p,
              r.1.1 = Some p
              /\ WorkflowTaskPreview_TaskID p = WorkflowTask_TaskID task
              /\ WorkflowTaskPreview_WorkflowName p = WorkflowTask_WorkflowName task
              /\ WorkflowTaskPreview_ProjectName p = WorkflowTask_ProjectName task
              /\ WorkflowTaskPreview_Status p = WorkflowTask_Status task
              /\ WorkflowTaskPreview_Params p = WorkflowTask_Params task
              /\ WorkflowTaskPreview_TaskCreator p = WorkflowTask_TaskCreator task
              /\ WorkflowTaskPreview_TaskRevoker p = WorkflowTask_TaskRevoker task
              /\ WorkflowTaskPreview_CreateTime p = WorkflowTask_CreateTime task
              /\ WorkflowTaskPreview_StartTime p = WorkflowTask_StartTime task
              /\ WorkflowTaskPreview_EndTime p = WorkflowTask_EndTime task
              /\ WorkflowTaskPreview_Error p = WorkflowTask_Error task
              /\ WorkflowTaskPreview_IsRestart p = WorkflowTask_IsRestart task
              /\ Forall2 staged (WorkflowTask_Stages task)
                   (WorkflowTaskPreview_Stages p)
     end.
Proof.
  cbv zeta. unfold GetWorkflowTaskV4, init. exec.
  destruct (Find workflowName taskID w) as [err|task]; simpl; [done|].
  match goal with |- context [stage_previews ?st [] ?s1] =>
    destruct (stage_previews_spec st [] s1) as (Hh & Hw & new & Hn & HF);
    destruct (stage_previews st [] s1) as [stages s2] end.
  simpl in *. subst stages. split_and!; try done.
  eexists. split; [reflexivity|]. simpl. by split_and!.
Qed.

End preview_properties.


(** *** The phases on scripted worlds *)

Section more_scenarios.
Import models GoStrings scripted.

Lemma remote_docker_host_witness :
  GoStrings.Contains
    (jobcontroller.rewriteDockerHost "remote-1" "tcp://dind-0.dind:2375")
    jobcontroller.KoderoverAgentNamespace = true.
Proof.
  apply (remote_docker_host_names_the_agent_namespace (EX := cluster)).
  - done.
  - done.
  - right. reflexivity.
Defined.

Lemma local_docker_host_witness :
  GoStrings.Contains
    (jobcontroller.rewriteDockerHost "" "tcp://dind-0.dind:2375")
    jobcontroller.config_Namespace = true.
Proof.
  apply (local_docker_host_gets_the_process_namespace (EX := cluster)).
  - by left.
  - reflexivity.
  - reflexivity.
Defined.



(** The response carries the task id although the conversion fails. *)
Lemma task_id_witness :
  let r := workflow.CreateWorkflowTaskV4 "ann" 1%positive
             (workflow.init (memory (demo demo_stages)) (store ["compile"])) in
  workflow.ProjectName r.1.1 = "shop"
  /\ workflow.WorkflowName r.1.1 = "demo"
  /\ workflow.counter_calls (workflow.trace r.2) = [("WorkflowTaskV4:demo", inr 7)]
     /\ workflow.TaskID r.1.1 = 7.
Proof.
  exact (task_id_is_taken_after_lint_and_copy (EX := service) "ann" 1%positive
           (memory (demo demo_stages)) (store ["compile"]) (demo demo_stages)
           (memory_lookup _)).
Defined.

End more_scenarios.


Section preview_scenarios.
Import models GoStrings workflow preview scripted.

Lemma build_preview_witness :
  exists spec,
    (preview_job built_job (init ∅ (store []))).1.2
    = Some (with_Spec (SpecZadigBuild spec) (newJobTaskPreview built_job))
    /\ ZadigBuildJobSpec_Image spec = "shop:2"
    /\ ZadigBuildJobSpec_ServiceName spec = "shop"
    /\ ZadigBuildJobSpec_ServiceModule spec = "".
Proof.
  destruct (build_preview_reads_the_last_values (EX := service) (DE := decoders) built_job
              {| Properties :=
                   env_properties
                     (variable <$> [ ("IMAGE", DString "shop:1");
                                     ("SERVICE", DString "shop");
                                     ("IMAGE", DString "shop:2") ]);
                 Steps := [] |}
              (@init service ∅ (store [])) eq_refl eq_refl)
    as (spec & Hp & Hi & Hs & Hm & _).
  exists spec. split_and!; [exact Hp|by rewrite Hi|by rewrite Hs|by rewrite Hm].
Defined.

End preview_scenarios.


(** ** The timeout [Run] waits with *)

Section controller_timeout.
Import models GoStrings jobcontroller.
Context {EP : ErrorsPkg} {EX : Externals}.

Ltac run_step :=
  unfold mbind, M_bind, mret, M_ret, call, emit, assign, this, peek, fail_with in *;
  simpl in *.

Lemma prepare_Timeout (s : State) :
  let s' := (prepare s).2 in
  let t := Timeout (Properties (jobTaskSpec (ctl s))) in
  Timeout (Properties (jobTaskSpec (ctl s'))) = (if t <=? 0 then 600 else t)
  /\ wait_timeouts (trace s') = wait_timeouts (trace s).
Proof.
  cbv zeta. unfold prepare. run_step.
  by repeat (case_match; simplify_eq/=).
Qed.

Lemma run_Timeout (s : State) :
  let s' := (run s).2 in
  Timeout (Properties (jobTaskSpec (ctl s')))
  = Timeout (Properties (jobTaskSpec (ctl s)))
  /\ wait_timeouts (trace s') = wait_timeouts (trace s).
Proof.
  cbv zeta. unfold run, run_launch. run_step.
  by repeat (case_match; simplify_eq/=).
Qed.

Lemma wait_Timeout (s : State) :
  wait_timeouts (trace (wait s).2)
  = Timeout (Properties (jobTaskSpec (ctl s))) :: wait_timeouts (trace s).
Proof.
  unfold wait. run_step. by repeat (case_match; simplify_eq/=).
Qed.

Lemma complete_Timeout (s : State) :
  wait_timeouts (trace (complete s).2) = wait_timeouts (trace s).
Proof.
  destruct (complete s) as [[] s'] eqn:E. simpl.
  revert E. unfold complete, complete_body. run_step.
  destruct (getJobOutput _ _ _ _ _) as [[outputs err1] w1]. simpl.
  destruct err1; simpl;
    (match goal with
     | |- context [write_outputs ?n ?o ?s0] =>
         pose proof (write_outputs_spec n o s0) as Hw;
         destruct (write_outputs n o s0) as [[] s1];
         simpl in Hw; destruct Hw as (Ht & _)
     end);
    destruct (saveContainerLog _ _ _ _ _ _ _ _) as [[err2|] w2]; simpl;
    try (destruct (SummarizeSteps _ _ _ _) as [[[err3|] p3] w3]; simpl);
    intros [= <-]; simpl; rewrite ?Ht; simpl;
    unfold wait_timeouts; simpl;
    rewrite !omap_app, !omap_output_writes by done; done.
Qed.

(** [Run] never waits with a timeout that is not positive: when it waits,
    it is for the timeout the job was given, or for 600 seconds when that
    was zero or negative. *)
Theorem Run_waits_with_a_positive_timeout (c : FreestyleJobCtl) (w : World) :
  let t := Timeout (Properties (jobTaskSpec c)) in
  Forall (fun t' => 0 < t' /\ t' = (if t <=? 0 then 600 else t))
    (wait_timeouts (trace (Run (init c w)).2)).
Proof.
  cbv zeta. unfold Run. unfold mbind, M_bind.
  pose proof (prepare_Timeout (init c w)) as [Hp1 Hp2].
  destruct (prepare (init c w)) as [perr s1]. simpl in *.
  destruct perr as [perr|]; simpl.
  { rewrite Hp2. constructor. }
  pose proof (run_Timeout s1) as [Hr1 Hr2].
  destruct (run s1) as [rerr s2]. simpl in *.
  destruct rerr as [rerr|]; simpl.
  { rewrite Hr2, Hp2. constructor. }
  pose proof (wait_Timeout s2) as Hw.
  destruct (wait s2) as [[] s3]. simpl in *.
  rewrite complete_Timeout, Hw, Hr1, Hp1, Hr2, Hp2.
  repeat constructor; case_match; lia.
Qed.

End controller_timeout.


(** ** The documents [CreateWorkflowTaskV4] writes *)

Section documents.
Import models GoStrings workflow.
Context {EP : ErrorsPkg} {EX : Externals}.

Ltac exec :=
  unfold mbind, M_bind, mret, M_ret, call, emit, peek, itoi, load, store,
    store_job, alloc, followed in *;
  simpl in *.

(** [CreateWorkflowTaskV4] writes to two documents only: the caller's and
    the copy it makes, at a location that was free.  When the lint or the
    copy fails nothing is written at all, and when the counter fails the
    caller's document is as it was.  From then on the call is not atomic
    for the caller: when [RemoveFixedValueMarks] or [RenderGlobalVariables]
    fails, the caller's document is left as that call left it. *)
Theorem CreateWorkflowTaskV4_writes_two_documents (user : string)
    (workflow : loc) (h : gmap loc WorkflowV4) (w : World) (w0 : WorkflowV4) :
  h !! workflow = Some w0 ->
  let r := CreateWorkflowTaskV4 user workflow (init h w) in
  (forall p, p <> workflow -> p <> fresh (dom h) -> heap r.2 !! p = h !! p)
  /\ match LintWorkflowV4 w0, IToi_WorkflowV4 w0 with
     | None, inr origin =>
         h !! fresh (dom h) = None
         /\ heap r.2 !! fresh (dom h) = Some origin
         /\ match GetNextSeq (WorkflowTaskV4Fmt (WorkflowV4_Name w0)) w with
            | (inl _, _) => heap r.2 !! workflow = Some w0
            | (inr id, _) =>
                match RemoveFixedValueMarks w0 with
                | (Some _, wa) => heap r.2 !! workflow = Some wa
                | (None, wa) =>
                    match RenderGlobalVariables wa id user with
                    | (Some _, wb) => heap r.2 !! workflow = Some wb
                    | (None, _) => True
                    end
                end
            end
     | _, _ => heap r.2 = h
     end.
Proof.
  intros Hw0. cbv zeta. unfold CreateWorkflowTaskV4, init. exec.
  rewrite Hw0. simpl.
  destruct (LintWorkflowV4 w0) as [e0|]; simpl; [done|].
  destruct (IToi_WorkflowV4 w0) as [e0|origin]; simpl; [done|].
  pose proof (fresh_loc_ne h workflow w0 Hw0) as Hne.
  assert (h !! fresh (dom h) = None) as Hfresh.
  { apply not_elem_of_dom, is_fresh. }
  destruct (GetNextSeq _ w) as [[e0|id] w1]; simpl.
  { split; [intros p _ Hp; by simplify_map_eq|].
    split_and!; by simplify_map_eq. }
  rewrite lookup_insert_ne by done. rewrite Hw0. simpl.
  destruct (RemoveFixedValueMarks w0) as [[e0|] wa]; simpl.
  { split; [intros p Hp1 Hp2; by simplify_map_eq|].
    split_and!; by simplify_map_eq. }
  destruct (RenderGlobalVariables wa id user) as [[e0|] wb]; simpl.
  { split; [intros p Hp1 Hp2; by simplify_map_eq|].
    split_and!; by simplify_map_eq. }
  match goal with |- context [stages_loop workflow id 0%nat ?st [] ?s1] =>
    destruct (stages_loop_spec workflow id st 0 [] s1)
      as (evs & (_ & Hh & _ & _) & _);
    destruct (stages_loop workflow id 0 st [] s1) as [[e|stages] s2]
  end; simpl in *.
  { split; [intros p Hp1 Hp2; rewrite Hh by done; by simplify_map_eq|].
    split_and!; [done| |done].
    rewrite Hh by done. by simplify_map_eq. }
  match goal with |- context [create_task ?resp workflow ?t s2] =>
    destruct (create_task_spec resp workflow t s2) as (Hh2 & _);
    destruct (create_task resp workflow t s2) as [[resp' err] s3]
  end; simpl in *.
  rewrite Hh2.
  split; [intros p Hp1 Hp2; rewrite Hh by done; by simplify_map_eq|].
  split_and!; [done| |done].
  rewrite Hh by done. by simplify_map_eq.
Qed.

End documents.

Section documents_scenarios.
Import models GoStrings workflow scripted.

(** The conversion of [compile] fails, and the caller's document is left
    rendered. *)
Lemma caller_document_witness :
  let r := CreateWorkflowTaskV4 "ann" 1%positive
             (init (memory (demo demo_stages)) (store ["compile"])) in
  r.1.2 <> None
  /\ (WorkflowV4_Description <$> heap r.2 !! 1%positive) = Some "task 7 of ann"
  /\ heap r.2 !! 2%positive = Some (demo demo_stages)
  /\ forall p, p <> 1%positive -> p <> 2%positive ->
               heap r.2 !! p = memory (demo demo_stages) !! p.
Proof.
  cbv zeta.
  destruct (CreateWorkflowTaskV4_writes_two_documents (EX := service) "ann"
              1%positive (memory (demo demo_stages)) (store ["compile"])
              (demo demo_stages) (memory_lookup _)) as (Hframe & _ & Horigin & _).
  split; [by vm_compute|]. split; [by vm_compute|].
  split; [exact Horigin|]. exact Hframe.
Defined.

End documents_scenarios.
